(** * EventFlow: work entries, validation and invoicing

    A shallow embedding of the parts of the React front end that decide how a
    work entry ("prestation") is created, amended and validated, how client
    rates are edited, and how the authentication context builds its user
    object.  The front end talks to two Supabase tables, [prestations] and
    [clients]; they are modelled as finite maps keyed by the row id.

    The monthly invoice run is a route of the back end; it is modelled from
    its specification, in [InvoiceBatchGenerator].

    Conventions.
    - A request to Supabase either goes through or comes back with an
      error and without effect; which one is given by the world the
      handlers run in ([App.faults]).  The state of the React components
      (loading flags, the cached lists, the dialog) is not modelled: the
      handlers below read of it only the entry being edited and the fields
      of the form, which they take as arguments.
    - JavaScript numbers are modelled by exact rationals ([Q], kept in lowest
      terms with [Qred]); integers read by [parseInt] are in [Z].
    - A JavaScript [Date] is a point of the local wall clock, under a fixed
      offset to UTC (no daylight-saving jump between two instants compared).
      [JsZone] gives the same operations on instants, in a time zone whose
      offset may change, with the condition under which the two agree.
    - Where the code computes in double precision the model computes in
      exact rationals: the statements are about the order of two values
      and about values rounded to two decimals, not about the last digits
      of a double.
    - A value that may be [undefined] or [null] is kept three-valued
      ([JsOpt]) where the code tells the two apart, and is an [option]
      where it does not.
    - A call through the generated client of the back end ([Brain]) is
      modelled by what the route hands to the HTTP client: the path, the
      method and the body.  What comes back is an input of the handlers
      that read it. *)

From Stdlib Require Import ZArith QArith Qround String Ascii List Bool Lia.
From Stdlib Require Import DecimalString.
From stdpp Require Import gmap strings.

Import ListNotations.
Local Open Scope string_scope.
Local Open Scope Z_scope.

(** ** JavaScript primitives used by the pages *)

Module Js.

(** [undefined], [null], or a value. *)
Inductive JsOpt (A : Type) : Type :=
| Undefined
| Null
| Val (a : A).
Arguments Undefined {A}.
Arguments Null {A}.
Arguments Val {A} a.

(** Truthiness of a string: only the empty string is falsy. *)
Definition truthy (s : string) : bool :=
  match s with
  | EmptyString => false
  | String _ _ => true
  end.

(** [a || b] on a string that may be missing: [b] when [a] is null,
    undefined or empty. *)
Definition or_else (a : option string) (b : string) : string :=
  match a with
  | Some s => if truthy s then s else b
  | None => b
  end.

(** [s.includes(c)] for a one-character needle. *)
Fixpoint includes (c : ascii) (s : string) : bool :=
  match s with
  | EmptyString => false
  | String a r => Ascii.eqb a c || includes c r
  end.

(** [s.split(c)] for a one-character separator: never the empty list. *)
Fixpoint split (c : ascii) (s : string) : list string :=
  match s with
  | EmptyString => [EmptyString]
  | String a r =>
      if Ascii.eqb a c then EmptyString :: split c r
      else match split c r with
           | [] => [String a EmptyString]
           | h :: t => String a h :: t
           end
  end.

(** ASCII white space skipped by [parseInt] and removed by [trim]
    (TAB, LF, VT, FF, CR and the space). *)
Definition is_space (c : ascii) : bool :=
  let n := nat_of_ascii c in
  ((n =? 32)%nat || ((9 <=? n)%nat && (n <=? 13)%nat)).

Definition digit_of (c : ascii) : option Z :=
  let n := Z.of_nat (nat_of_ascii c) in
  if (48 <=? n) && (n <=? 57) then Some (n - 48) else None.

Definition is_digit (c : ascii) : bool :=
  match digit_of c with Some _ => true | None => false end.

Fixpoint trimStart (s : string) : string :=
  match s with
  | String c r => if is_space c then trimStart r else s
  | EmptyString => EmptyString
  end.

(** The longest prefix of decimal digits, read as a number; [acc] is what
    was read so far ([None]: no digit yet). *)
Fixpoint digits_prefix (acc : option Z) (s : string) : option Z :=
  match s with
  | String c r =>
      match digit_of c with
      | Some d => digits_prefix (Some (10 * default 0 acc + d)) r
      | None => acc
      end
  | EmptyString => acc
  end.

(** [parseInt(s, 10)]; [None] is [NaN].  A missing array element
    ([undefined]) is also [NaN]: see [parseInt_at]. *)
Definition parseInt (s : string) : option Z :=
  match trimStart s with
  | String "-"%char r => Z.opp <$> digits_prefix None r
  | String "+"%char r => digits_prefix None r
  | t => digits_prefix None t
  end.

Definition parseInt_at (parts : list string) (i : nat) : option Z :=
  match nth_error parts i with
  | Some s => parseInt s
  | None => None
  end.

(** [Number(s)] on the strings the time pattern lets through: a run of
    decimal digits is its value, the empty string is 0, anything else is
    [NaN] here. *)
Fixpoint all_digits (s : string) : bool :=
  match s with
  | EmptyString => true
  | String c r => is_digit c && all_digits r
  end.

Definition Number (s : string) : option Z :=
  if all_digits s then Some (default 0 (digits_prefix None s)) else None.

Definition Number_at (parts : list string) (i : nat) : option Z :=
  match nth_error parts i with
  | Some s => Number s
  | None => None
  end.

(** [s.trim()] over ASCII white space. *)
Fixpoint rev_string (acc s : string) : string :=
  match s with
  | EmptyString => acc
  | String c r => rev_string (String c acc) r
  end.

Definition trim (s : string) : string :=
  rev_string EmptyString (trimStart (rev_string EmptyString (trimStart s))).

(** [x.toFixed(2)] read back with [Number]: the nearest multiple of 1/100,
    a tie going up (for the non-negative [x] met here). *)
Definition toFixed2 (x : Q) : Q :=
  Qred (Qfloor (x * 100 + (1 # 2))%Q # 100).

(** [a > b] on numbers. *)
Definition gt (a b : Q) : bool :=
  match (b ?= a)%Q with Lt => true | _ => false end.

Definition le (a b : Q) : bool := Qle_bool a b.

(** A [Date]: a day of the local calendar (counted from 1970-01-01) and
    the milliseconds elapsed in that day. *)
Record Date : Type := { epoch_day : Z; ms_of_day : Z }.

(** [d.setHours(h, m, 0, 0)]. *)
Definition setHours (d : Date) (h m : Z) : Date :=
  {| epoch_day := epoch_day d; ms_of_day := h * 3600000 + m * 60000 |}.

(** [d.setDate(d.getDate() + n)]: the same clock time [n] days later. *)
Definition addDays (d : Date) (n : Z) : Date :=
  {| epoch_day := epoch_day d + n; ms_of_day := ms_of_day d |}.

(** [d.getTime()], up to the constant offset of the time zone. *)
Definition getTime (d : Date) : Z :=
  epoch_day d * 86400000 + ms_of_day d.

End Js.

(** ** date-fns *)

Module DateFns.

(** Year, month and day of a day count (proleptic Gregorian calendar). *)
Definition civil_of_days (z : Z) : Z * Z * Z :=
  let z := z + 719468 in
  let era := z / 146097 in
  let doe := z - era * 146097 in
  let yoe := (doe - doe / 1460 + doe / 36524 - doe / 146096) / 365 in
  let doy := doe - (365 * yoe + yoe / 4 - yoe / 100) in
  let mp := (5 * doy + 2) / 153 in
  let d := doy - (153 * mp + 2) / 5 + 1 in
  let m := if mp <? 10 then mp + 3 else mp - 9 in
  let y := yoe + era * 400 + (if m <=? 2 then 1 else 0) in
  (y, m, d).

(** The [width] low decimal digits of [z], in front of [acc]. *)
Fixpoint digits (width : nat) (z : Z) (acc : string) : string :=
  match width with
  | O => acc
  | S w =>
      digits w (z / 10)
        (String (ascii_of_nat (48 + Z.to_nat (z mod 10))) acc)
  end.

(** [format(d, "yyyy-MM-dd")], for the years 0 to 9999. *)
Definition format_yyyy_MM_dd (d : Js.Date) : string :=
  let '(y, m, dd) :=
    civil_of_days (Js.epoch_day d + Js.ms_of_day d / 86400000) in
  digits 4 y (String "-" (digits 2 m (String "-" (digits 2 dd EmptyString)))).

End DateFns.

(** ** The Supabase tables, the toasts, and actions over them *)

Module App.

(** A row of [prestations]; the key of the table is its [id]. *)
Record Prestation : Type := {
  user_id : string;
  client_id : string;
  project_id : option string;
  date_prestation : string;
  heure_debut : string;
  heure_fin : string;
  heures_calculees : Q;
  adresse : string;
  statut_validation : string;
  tarif_horaire_utilise : option Q
}.

(** A row of [clients]. *)
Record Client : Type := {
  nom : string;
  client_adresse : option string;
  email_facturation : option string;
  telephone : option string;
  tarif_horaire : option Q
}.

(** The columns an [update] request writes: [None] leaves the column as
    it is. *)
Record PrestationUpdate : Type := {
  set_date_prestation : option string;
  set_heure_debut : option string;
  set_heure_fin : option string;
  set_heures_calculees : option Q;
  set_client_id : option string;
  set_project_id : option (option string);
  set_adresse : option string;
  set_statut_validation : option string;
  set_tarif_horaire_utilise : option (option Q)
}.

Record ClientUpdate : Type := {
  set_nom : option string;
  set_client_adresse : option (option string);
  set_email_facturation : option (option string);
  set_telephone : option (option string);
  set_tarif_horaire : option (option Q)
}.

Definition apply_prestation_update (u : PrestationUpdate) (p : Prestation)
  : Prestation :=
  {| user_id := user_id p;
     client_id := default (client_id p) (set_client_id u);
     project_id := default (project_id p) (set_project_id u);
     date_prestation := default (date_prestation p) (set_date_prestation u);
     heure_debut := default (heure_debut p) (set_heure_debut u);
     heure_fin := default (heure_fin p) (set_heure_fin u);
     heures_calculees := default (heures_calculees p) (set_heures_calculees u);
     adresse := default (adresse p) (set_adresse u);
     statut_validation :=
       default (statut_validation p) (set_statut_validation u);
     tarif_horaire_utilise :=
       default (tarif_horaire_utilise p) (set_tarif_horaire_utilise u) |}.

Definition apply_client_update (u : ClientUpdate) (c : Client) : Client :=
  {| nom := default (nom c) (set_nom u);
     client_adresse := default (client_adresse c) (set_client_adresse u);
     email_facturation :=
       default (email_facturation c) (set_email_facturation u);
     telephone := default (telephone c) (set_telephone u);
     tarif_horaire := default (tarif_horaire c) (set_tarif_horaire u) |}.

Inductive Toast : Type :=
| ToastSuccess (message : string)
| ToastInfo (message : string)
| ToastWarning (message : string)
| ToastError (message : string).

(** What a handler can see and change: the two tables, the toasts shown
    so far, and [faults], the answers of the service to the coming
    requests: [Some message] makes the next request come back with that
    error and without effect, [None] (or the end of the list) lets it
    through. *)
Record World : Type := {
  prestations : gmap string Prestation;
  clients : gmap string Client;
  faults : list (option string);
  toasts : list Toast
}.

Definition with_prestations (t : gmap string Prestation) (w : World) : World :=
  {| prestations := t; clients := clients w;
     faults := faults w; toasts := toasts w |}.

Definition with_clients (t : gmap string Client) (w : World) : World :=
  {| prestations := prestations w; clients := t;
     faults := faults w; toasts := toasts w |}.

Definition with_faults (f : list (option string)) (w : World) : World :=
  {| prestations := prestations w; clients := clients w;
     faults := f; toasts := toasts w |}.

Definition with_toasts (t : list Toast) (w : World) : World :=
  {| prestations := prestations w; clients := clients w;
     faults := faults w; toasts := t |}.

(** An action runs on the world and either throws [Error(message)]
    ([inl]) or returns ([inr]); what it did before throwing stays done. *)
Definition Action (A : Type) : Type := World -> (string + A) * World.

Definition ret {A} (a : A) : Action A := fun w => (inr a, w).

Definition bind {A B} (m : Action A) (k : A -> Action B) : Action B :=
  fun w =>
    match m w with
    | (inl e, w') => (inl e, w')
    | (inr a, w') => k a w'
    end.

Definition throw {A} (message : string) : Action A :=
  fun w => (inl message, w).

Definition try_catch {A} (body : Action A) (handler : string -> Action A)
  : Action A :=
  fun w =>
    match body w with
    | (inl e, w') => handler e w'
    | (inr a, w') => (inr a, w')
    end.

Definition when (b : bool) (a : Action unit) : Action unit :=
  if b then a else ret tt.

(** The world a handler leaves behind. *)
Definition run (a : Action unit) (w : World) : World := snd (a w).

Definition toast (t : Toast) : Action unit :=
  fun w => (inr tt, with_toasts (toasts w ++ [t])%list w).

(** One round trip to the service: the error it answers with, if any. *)
Definition request : Action (option string) :=
  fun w => (inr (hd None (faults w)), with_faults (tl (faults w)) w).

(** What [.single()] answers when no row matches. *)
Definition no_row : string :=
  "JSON object requested, multiple (or no) rows returned".

(** [from('prestations').update(u).eq('id', id)]: the [error] of the
    answer.  A filter that matches no row is not an error. *)
Definition update_prestations (u : PrestationUpdate) (id : string)
  : Action (option string) :=
  bind request (fun e =>
    match e with
    | Some message => ret (Some message)
    | None => fun w =>
        (inr None,
         with_prestations
           (alter (apply_prestation_update u) id (prestations w)) w)
    end).

(** [from('clients').update(u).eq('id', id)]. *)
Definition update_clients (u : ClientUpdate) (id : string)
  : Action (option string) :=
  bind request (fun e =>
    match e with
    | Some message => ret (Some message)
    | None => fun w =>
        (inr None,
         with_clients (alter (apply_client_update u) id (clients w)) w)
    end).

(** [from('clients').select('tarif_horaire').eq('id', id).single()]:
    [inl] the [error], [inr] the [tarif_horaire] of [data] ([None] when
    the column is null). *)
Definition select_tarif_horaire (id : string) : Action (string + option Q) :=
  bind request (fun e =>
    match e with
    | Some message => ret (inl message)
    | None => fun w =>
        match clients w !! id with
        | None => (inr (inl no_row), w)
        | Some c => (inr (inr (tarif_horaire c)), w)
        end
    end).

End App.

Notation "'let*' x ':=' m 'in' k" := (App.bind m (fun x => k))
  (at level 10, x name, m at level 100, k at level 200).
Notation "m >> k" := (App.bind m (fun _ => k))
  (at level 100, k at level 200, right associativity).

(** ** The authentication context (utils/AuthContext) *)

Module AuthContext.

(** The user of a Supabase session; [role] is the role of the access
    token, not the application role. *)
Record SupabaseUser : Type := {
  su_id : string;
  su_email : option string;
  su_role : option string
}.

Record Session : Type := { user : SupabaseUser }.

(** [AppUser]: the session user with the application [role] and the
    [statut_validation] of the profile in place of its own. *)
Record AppUser : Type := {
  id : string;
  email : option string;
  role : option string;
  statut_validation : option string
}.

(** The columns read from [profiles]; either may be null. *)
Record ProfileData : Type := {
  profile_role : option string;
  profile_statut_validation : option string
}.

(** What the profile request comes back with. *)
Inductive ProfileFetch : Type :=
| FetchError (message : string)
| FetchData (profileData : option ProfileData)
| FetchThrows (message : string).

Definition validStatuses : list string := ["valide"; "en_attente"; "refuse"].

Definition includes (l : list string) (s : string) : bool :=
  existsb (String.eqb s) l.

Definition fallbackUser (u : SupabaseUser) : AppUser :=
  {| id := su_id u; email := su_email u;
     role := Some "collaborateur";
     statut_validation := Some "inconnu" |}.

Definition finalStatus (profileData : ProfileData) : string :=
  match profile_statut_validation profileData with
  | Some s => if Js.truthy s && includes validStatuses s then s else "inconnu"
  | None => "inconnu"
  end.

Definition userWithProfile (u : SupabaseUser) (profileData : ProfileData)
  : AppUser :=
  {| id := su_id u; email := su_email u;
     role := Some (Js.or_else (profile_role profileData) "collaborateur");
     statut_validation := Some (finalStatus profileData) |}.

(** The listener of [onAuthStateChange]: the [user] state it sets for a
    new session and the answer of the profile request it makes. *)
Definition onAuthStateChange (newSession : option Session)
    (fetch : ProfileFetch) : option AppUser :=
  match newSession with
  | Some s =>
      match fetch with
      | FetchError _ => Some (fallbackUser (user s))
      | FetchData (Some profileData) =>
          Some (userWithProfile (user s) profileData)
      | FetchData None => Some (fallbackUser (user s))
      | FetchThrows _ => Some (fallbackUser (user s))
      end
  | None => None
  end.

(** [user?.role === 'admin']. *)
Definition isAdmin (u : option AppUser) : bool :=
  match u with
  | Some a =>
      match role a with
      | Some r => String.eqb r "admin"
      | None => false
      end
  | None => false
  end.

End AuthContext.

(** ** The collaborator's dashboard: the entry form *)

Module DashboardCollaborateur.

Record PrestationFormData : Type := {
  date_prestation : Js.Date;
  heure_debut : string;
  heure_fin : string;
  client_id : string;
  project_id : string;
  adresse : string
}.

Definition between (lo hi c : ascii) : bool :=
  ((nat_of_ascii lo <=? nat_of_ascii c)%nat
   && (nat_of_ascii c <=? nat_of_ascii hi)%nat).

(** The pattern [^([01]\d|2[0-3]):([0-5]\d)$]. *)
Definition HH_MM (s : string) : bool :=
  match s with
  | String a (String b (String ":" (String c (String d EmptyString)))) =>
      ((between "0" "1" a && Js.is_digit b)
       || (Ascii.eqb a "2" && between "0" "3" b))
      && between "0" "5" c && Js.is_digit d
  | _ => false
  end.

(** [const [hour, minute] = s.split(':').map(Number)]. *)
Definition hour_minute (s : string) : option Z * option Z :=
  let parts := Js.split ":" s in
  (Js.Number_at parts 0, Js.Number_at parts 1).

(** The refinement of the schema.  A [NaN] makes every comparison
    false. *)
Definition refine (data : PrestationFormData) : bool :=
  match hour_minute (heure_debut data), hour_minute (heure_fin data) with
  | (Some startHour, Some startMinute), (Some endHour, Some endMinute) =>
      let startTime := startHour * 60 + startMinute in
      let endTime := endHour * 60 + endMinute in
      let endTime :=
        if endTime <=? startTime then endTime + 24 * 60 else endTime in
      endTime >? startTime
  | _, _ => false
  end.

Definition min1 (s : string) : bool := (1 <=? String.length s)%nat.

(** The data pass [prestationSchema]. *)
Definition prestationSchema (data : PrestationFormData) : bool :=
  HH_MM (heure_debut data) && HH_MM (heure_fin data)
  && min1 (client_id data) && min1 (project_id data) && min1 (adresse data)
  && refine data.

(** The block "Calculate hours" of [onSubmit], down to
    [Number(heures_calculees.toFixed(2))]; [None] is [NaN]. *)
Definition heures_calculees (data : PrestationFormData) : option Q :=
  match hour_minute (heure_debut data), hour_minute (heure_fin data) with
  | (Some startHour, Some startMinute), (Some endHour, Some endMinute) =>
      let startDate := Js.setHours (date_prestation data) startHour startMinute in
      let endDate := Js.setHours (date_prestation data) endHour endMinute in
      let endDate :=
        if Js.getTime endDate <=? Js.getTime startDate
        then Js.addDays endDate 1 else endDate in
      let durationMs := Js.getTime endDate - Js.getTime startDate in
      Some (Js.toFixed2 (durationMs # 3600000))
  | _, _ => None
  end.

Definition prestationData (user_id : string) (data : PrestationFormData)
  : option App.Prestation :=
  match heures_calculees data with
  | Some h =>
      Some {| App.user_id := user_id;
              App.client_id := client_id data;
              App.project_id := Some (project_id data);
              App.date_prestation :=
                DateFns.format_yyyy_MM_dd (date_prestation data);
              App.heure_debut := heure_debut data;
              App.heure_fin := heure_fin data;
              App.heures_calculees := h;
              App.adresse := adresse data;
              App.statut_validation := "en_attente_validation";
              App.tarif_horaire_utilise := None |}
  | None => None
  end.

(** [from('prestations').insert([row])]; [new_id] is the id the database
    gives the row. *)
Definition insert_prestations (new_id : string) (row : App.Prestation)
  : App.Action (option string) :=
  let* e := App.request in
  match e with
  | Some message => App.ret (Some message)
  | None => fun w =>
      match App.prestations w !! new_id with
      | Some _ =>
          (inr (Some "duplicate key value violates unique constraint"), w)
      | None =>
          (inr None,
           App.with_prestations (<[new_id := row]> (App.prestations w)) w)
      end
  end.

Definition is_valide (u : AuthContext.AppUser) : bool :=
  match AuthContext.statut_validation u with
  | Some s => String.eqb s "valide"
  | None => false
  end.

Definition onSubmit (user : option AuthContext.AppUser)
    (data : PrestationFormData) (new_id : string) : App.Action unit :=
  match user with
  | Some u =>
      if is_valide u then
        match prestationData (AuthContext.id u) data with
        | Some row =>
            App.try_catch
              (let* e := insert_prestations new_id row in
               match e with
               | Some message => App.throw message
               | None =>
                   App.toast (App.ToastSuccess
                     "Prestation enregistrée avec succès ! En attente de validation.")
               end)
              (fun message =>
                 App.toast (App.ToastError
                   ("Erreur lors de l'enregistrement: " +:+ message)))
        | None => App.ret tt
        end
      else
        App.toast (App.ToastError
          "Action non autorisée. Utilisateur non identifié ou non validé.")
  | None =>
      App.toast (App.ToastError
        "Action non autorisée. Utilisateur non identifié ou non validé.")
  end.

(** [handleSubmit(onSubmit)]: the handler runs on data that pass the
    schema only. *)
Definition handleSubmit (user : option AuthContext.AppUser)
    (data : PrestationFormData) (new_id : string) : App.World -> App.World :=
  if prestationSchema data then App.run (onSubmit user data new_id)
  else fun w => w.

End DashboardCollaborateur.

(** ** The administrator's dashboard of pending entries *)

Module DashboardAdminPrestations.

(** What the handlers read of the entry being edited ([PrestationPending]
    has more fields, for display). *)
Record PrestationPending : Type := {
  id : string;
  client_id : string
}.

(** The fields of the modification form. *)
Record Form : Type := {
  modifiedDate : option Js.Date;
  modifiedHeureDebut : string;
  modifiedHeureFin : string;
  modifiedClientId : option string;
  modifiedProjectId : Js.JsOpt string;
  modifiedAdresse : string
}.

(** [parseTime]: hours as a number, [None] for [null]. *)
Definition parseTime (timeStr : string) : option Q :=
  if negb (Js.truthy timeStr) || negb (Js.includes ":" timeStr) then None
  else
    let parts := Js.split ":" timeStr in
    match Js.parseInt_at parts 0, Js.parseInt_at parts 1 with
    | Some hours, Some minutes =>
        Some (Qred (inject_Z hours + (minutes # 60)))
    | _, _ => None
    end.

Definition heuresCalculeesFinal (form : Form) : Q :=
  match parseTime (modifiedHeureDebut form),
        parseTime (modifiedHeureFin form) with
  | Some start, Some end_ =>
      if Js.gt end_ start then Qred (end_ - start) else 0%Q
  | _, _ => 0%Q
  end.

(** [updateData] without its undefined fields. *)
Definition cleanedUpdateData (form : Form) : App.PrestationUpdate :=
  {| App.set_date_prestation :=
       DateFns.format_yyyy_MM_dd <$> modifiedDate form;
     App.set_heure_debut := Some (modifiedHeureDebut form);
     App.set_heure_fin := Some (modifiedHeureFin form);
     App.set_heures_calculees := Some (heuresCalculeesFinal form);
     App.set_client_id := modifiedClientId form;
     App.set_project_id :=
       match modifiedProjectId form with
       | Js.Undefined => None
       | Js.Null => Some None
       | Js.Val p => Some (Some p)
       end;
     App.set_adresse := Some (modifiedAdresse form);
     App.set_statut_validation := None;
     App.set_tarif_horaire_utilise := None |}.

(** The update of a validation. *)
Definition validation (tarifHoraireUtilise : Q) : App.PrestationUpdate :=
  {| App.set_date_prestation := None;
     App.set_heure_debut := None;
     App.set_heure_fin := None;
     App.set_heures_calculees := None;
     App.set_client_id := None;
     App.set_project_id := None;
     App.set_adresse := None;
     App.set_statut_validation := Some "valide";
     App.set_tarif_horaire_utilise := Some (Some tarifHoraireUtilise) |}.

(** A field of the update is missing or empty. *)
Definition falsy (field : option string) : bool :=
  match field with
  | Some s => negb (Js.truthy s)
  | None => true
  end.

(** The request that reloads the list of pending entries; the list
    itself is display state. *)
Definition fetchPendingPrestations : App.Action unit :=
  let* e := App.request in
  match e with
  | Some message =>
      App.toast (App.ToastError ("Erreur rechargement prestations: " +:+ message))
  | None => App.ret tt
  end.

Definition handleValidate (prestationId clientId : string) : App.Action unit :=
  App.try_catch
    (let* r := App.select_tarif_horaire clientId in
     match r with
     | inl message => App.throw ("Erreur client: " +:+ message)
     | inr None =>
         App.throw ("Tarif horaire non défini pour le client ID: " +:+ clientId)
     | inr (Some tarifHoraireUtilise) =>
         let* e :=
           App.update_prestations (validation tarifHoraireUtilise) prestationId in
         match e with
         | Some message => App.throw ("Erreur validation: " +:+ message)
         | None =>
             App.toast (App.ToastSuccess
               ("Prestation " +:+ String.substring 0 6 prestationId
                +:+ "... validée."))
         end
     end)
    (fun message => App.toast (App.ToastError ("Échec validation: " +:+ message))).

Definition handleSaveChanges (editingPrestation : option PrestationPending)
    (form : Form) : App.Action unit :=
  match editingPrestation with
  | None => App.ret tt
  | Some editing =>
      App.try_catch
        (App.when (Js.le (heuresCalculeesFinal form) 0)
           (App.toast (App.ToastWarning
              "Les heures de début et de fin ne permettent pas de calculer une durée valide."))
         >> let data := cleanedUpdateData form in
         App.when (falsy (App.set_date_prestation data))
           (App.throw "La date est requise.")
         >> App.when (falsy (App.set_client_id data))
           (App.throw "Le client est requis.")
         >> let* e := App.update_prestations data (id editing) in
         match e with
         | Some message => App.throw message
         | None =>
             App.toast (App.ToastSuccess "Prestation modifiée avec succès.")
             >> fetchPendingPrestations
         end)
        (fun message =>
           App.toast (App.ToastError ("Erreur lors de la sauvegarde: " +:+ message)))
  end.

Definition handleSaveAndValidate (editingPrestation : option PrestationPending)
    (form : Form) : App.Action unit :=
  match editingPrestation with
  | None => App.ret tt
  | Some editing =>
      App.try_catch
        (App.when (Js.le (heuresCalculeesFinal form) 0)
           (App.toast (App.ToastWarning
              "Durée invalide, heures calculées mises à 0."))
         >> let data := cleanedUpdateData form in
         App.when (falsy (App.set_date_prestation data)
                   || falsy (App.set_client_id data))
           (App.throw "Date et Client sont requis pour sauvegarder.")
         >> let* saveError := App.update_prestations data (id editing) in
         match saveError with
         | Some message => App.throw ("Erreur sauvegarde: " +:+ message)
         | None =>
             App.toast (App.ToastInfo "Modifications enregistrées.")
             >> let clientIdForValidation :=
                  Js.or_else (App.set_client_id data) (client_id editing) in
             let prestationIdForValidation := id editing in
             let* r := App.select_tarif_horaire clientIdForValidation in
             match r with
             | inl message =>
                 App.throw ("Erreur récupération tarif client: " +:+ message)
             | inr None =>
                 App.throw ("Tarif horaire non défini pour le client ID: "
                            +:+ clientIdForValidation)
             | inr (Some tarifHoraireUtilise) =>
                 let* validateError :=
                   App.update_prestations (validation tarifHoraireUtilise)
                     prestationIdForValidation in
                 match validateError with
                 | Some message => App.throw ("Erreur validation: " +:+ message)
                 | None =>
                     App.toast (App.ToastSuccess
                       "Prestation modifiée et validée avec succès!")
                     >> fetchPendingPrestations
                 end
             end
         end)
        (fun message =>
           App.toast (App.ToastError
             ("Échec Sauvegarde & Validation: " +:+ message))
           >> fetchPendingPrestations)
  end.

End DashboardAdminPrestations.

(** ** The pages that edit a client *)

Module AdminGestionClients.

(** [formData : Partial<Client>]: a missing or null text field is [None];
    the rate tells [undefined] (column left alone) from [null]. *)
Record FormData : Type := {
  nom : option string;
  adresse : option string;
  email_facturation : option string;
  telephone : option string;
  tarif_horaire : Js.JsOpt Q
}.

(** [field?.trim() || null]. *)
Definition trim_or_null (field : option string) : option string :=
  match field with
  | Some s => if Js.truthy (Js.trim s) then Some (Js.trim s) else None
  | None => None
  end.

Definition updateData (nom : string) (formData : FormData) : App.ClientUpdate :=
  {| App.set_nom := Some (Js.trim nom);
     App.set_client_adresse := Some (trim_or_null (adresse formData));
     App.set_email_facturation :=
       Some (trim_or_null (email_facturation formData));
     App.set_telephone := Some (trim_or_null (telephone formData));
     App.set_tarif_horaire :=
       match tarif_horaire formData with
       | Js.Undefined => None
       | Js.Null => Some None
       | Js.Val t => Some (Some t)
       end |}.

(** The request that reloads the list of clients. *)
Definition fetchClients : App.Action unit :=
  let* e := App.request in
  match e with
  | Some _ => App.toast (App.ToastError "Erreur lors du chargement des clients.")
  | None => App.ret tt
  end.

(** [editingClient] is given by its id. *)
Definition handleUpdateClient (editingClient : option string)
    (formData : FormData) : App.Action unit :=
  match editingClient with
  | None =>
      App.toast (App.ToastError "Aucun client sélectionné pour la modification.")
  | Some client_id =>
      match nom formData with
      | Some n =>
          if Js.truthy n && Js.truthy (Js.trim n) then
            App.try_catch
              (let* updateError :=
                 App.update_clients (updateData n formData) client_id in
               match updateError with
               | Some message => App.throw message
               | None =>
                   App.toast (App.ToastSuccess
                     ("Client '" +:+ Js.trim n +:+ "' mis à jour avec succès."))
                   >> fetchClients
               end)
              (fun message =>
                 App.toast (App.ToastError
                   ("Erreur lors de la mise à jour du client: " +:+ message)))
          else App.toast (App.ToastError "Le nom du client est obligatoire.")
      | None => App.toast (App.ToastError "Le nom du client est obligatoire.")
      end
  end.

End AdminGestionClients.

Module ProjectManagement.

(** [ClientFormData]; the rate is a number or the empty string ([None]). *)
Record ClientFormData : Type := {
  nom : string;
  adresse : string;
  email_facturation : string;
  telephone : string;
  tarif_horaire : option Q
}.

(** [s || null]. *)
Definition or_null (s : string) : option string :=
  if Js.truthy s then Some s else None.

Definition quote : string := String (ascii_of_nat 34) EmptyString.

Definition fetchClients : App.Action unit :=
  let* e := App.request in
  match e with
  | Some message =>
      App.toast (App.ToastError ("Erreur chargement clients: " +:+ message))
  | None => App.ret tt
  end.

Definition handleEditClientSubmit (editingClient : option string)
    (editClientData : ClientFormData) : App.Action unit :=
  match editingClient with
  | None => App.ret tt
  | Some client_id =>
      match Js.truthy (nom editClientData), tarif_horaire editClientData with
      | true, Some tarif =>
          App.try_catch
            (let* error :=
               App.update_clients
                 {| App.set_nom := Some (nom editClientData);
                    App.set_client_adresse :=
                      Some (or_null (adresse editClientData));
                    App.set_email_facturation :=
                      Some (or_null (email_facturation editClientData));
                    App.set_telephone :=
                      Some (or_null (telephone editClientData));
                    App.set_tarif_horaire := Some (Some tarif) |}
                 client_id in
             match error with
             | Some message => App.throw message
             | None =>
                 App.toast (App.ToastSuccess
                   ("Client " +:+ quote +:+ nom editClientData +:+ quote
                    +:+ " mis à jour."))
                 >> fetchClients
             end)
            (fun message =>
               App.toast (App.ToastError
                 ("Erreur mise à jour client: " +:+ message)))
      | _, _ =>
          App.toast (App.ToastError "Nom et Tarif Horaire sont obligatoires.")
      end
  end.

End ProjectManagement.

(** ** The monthly invoice run *)

(** The run is a route of the back end
    ([POST /routes/generate-monthly-invoices]); the front end only calls it
    and shows its answer. *)

Module InvoiceBatchGenerator.

(** Modelled from the spec: the two states of a work entry
    (section 4.2); the back end is not part of the sources. *)
Inductive Status : Type := Pending | Validated.

(** Modelled from the spec: the test [status == Validated] of step 1 of
    section 4.3; the route is not part of the sources. *)
Definition is_validated (s : Status) : bool :=
  match s with Validated => true | Pending => false end.

(** Modelled from the spec: the [WorkEntry] of the data model (section 3),
    with the fields the run reads; the back end that stores it is not
    part of the sources. *)
Record WorkEntry : Type := {
  id : string;
  client_id : string;
  year : Z;
  month : Z;
  day : Z;
  computed_hours : Q;
  status : Status;
  tariff_snapshot : option Q;
  invoiced : bool
}.

(** Modelled from the spec: the [Invoice] of the data model (section 3);
    the back end that stores it is not part of the sources. *)
Record Invoice : Type := {
  invoice_id : nat;
  invoice_client : string;
  invoice_month : Z;
  invoice_year : Z;
  total_amount : Q;
  pdf_link : option string
}.

(** Modelled from the spec: one element of the list [GenerateForPeriod]
    returns (section 4.3); the route that builds it is not part of the
    sources. *)
Record Outcome : Type := {
  outcome_client : string;
  outcome_total : Q;
  outcome_invoice : nat;
  outcome_pdf : option string
}.

(** Modelled from the spec: the WorkEntry store and the Invoice store of
    section 5; the back end that holds them is not part of the sources. *)
Record Store : Type := {
  entries : list WorkEntry;
  invoices : list Invoice
}.

(** Modelled from the spec: step 1 of section 4.3, the entries a run
    selects; the route is not part of the sources. *)
Definition eligible (m y : Z) (e : WorkEntry) : bool :=
  is_validated (status e) && negb (invoiced e)
  && (month e =? m) && (year e =? y).

(** Modelled from the spec: step 3 of section 4.3, the lookup of an
    invoice of the client for the period; the route is not part of the
    sources. *)
Definition has_invoice (c : string) (m y : Z) (l : list Invoice) : bool :=
  existsb (fun i => String.eqb (invoice_client i) c
                    && (invoice_month i =? m) && (invoice_year i =? y)) l.

(** Modelled from the spec: the total of step 4 of section 4.3, the sum
    of [computed_hours * tariff_snapshot] (an entry without snapshot
    adds nothing); the route is not part of the sources. *)
Definition total (group : list WorkEntry) : Q :=
  fold_right
    (fun e acc =>
       Qred (computed_hours e * default 0%Q (tariff_snapshot e) + acc))
    0%Q group.

(** Modelled from the spec: membership of an entry in a client's group,
    by its id (step 4 of section 4.3 marks "every entry in the group");
    the route is not part of the sources. *)
Definition in_group (group : list WorkEntry) (e : WorkEntry) : bool :=
  existsb (fun g => String.eqb (id g) (id e)) group.

(** Modelled from the spec: [invoiced = true] of step 4 of section 4.3;
    the route is not part of the sources. *)
Definition mark_invoiced (e : WorkEntry) : WorkEntry :=
  {| id := id e; client_id := client_id e;
     year := year e; month := month e; day := day e;
     computed_hours := computed_hours e; status := status e;
     tariff_snapshot := tariff_snapshot e; invoiced := true |}.

(** Modelled from the spec: step 2 of section 4.3, the clients of the
    selected entries, each once, in order of first appearance; the route
    is not part of the sources. *)
Fixpoint clients_of (seen : list string) (l : list WorkEntry) : list string :=
  match l with
  | [] => []
  | e :: r =>
      if existsb (String.eqb (client_id e)) seen then clients_of seen r
      else client_id e :: clients_of (client_id e :: seen) r
  end.

Section Run.

(** The PDF renderer and the artifact store (section 6): the link of
    the uploaded document, or [None] when either step fails. *)
Variable render_and_upload : Invoice -> option string.

(** Modelled from the spec: steps 3 to 5 of section 4.3 for one client
    and its group; the route is not part of the sources. *)
Definition process_client (m y : Z) (selected : list WorkEntry)
    (acc : Store * list Outcome) (c : string) : Store * list Outcome :=
  let '(st, outcomes) := acc in
  if has_invoice c m y (invoices st) then (st, outcomes)
  else
    let group := List.filter (fun e => String.eqb (client_id e) c) selected in
    let draft :=
      {| invoice_id := length (invoices st);
         invoice_client := c; invoice_month := m; invoice_year := y;
         total_amount := total group; pdf_link := None |} in
    let link := render_and_upload draft in
    let invoice :=
      {| invoice_id := invoice_id draft;
         invoice_client := c; invoice_month := m; invoice_year := y;
         total_amount := total_amount draft; pdf_link := link |} in
    ({| entries :=
          map (fun e => if in_group group e then mark_invoiced e else e)
            (entries st);
        invoices := (invoices st ++ [invoice])%list |},
     (outcomes ++ [{| outcome_client := c;
                      outcome_total := total_amount draft;
                      outcome_invoice := invoice_id draft;
                      outcome_pdf := link |}])%list).

(** Modelled from the spec: [GenerateForPeriod(month, year)], the
    algorithm of section 4.3; the route is not part of the sources. *)
Definition GenerateForPeriod (m y : Z) (st : Store) : Store * list Outcome :=
  let selected := List.filter (eligible m y) (entries st) in
  fold_left (process_client m y selected) (clients_of [] selected) (st, []).

End Run.

(** Modelled from the spec: the key (client, month, year) of section 6,
    and the invariant of section 3, at most one invoice for a key; the
    back end is not part of the sources. *)
Definition invoice_key (i : Invoice) : string * Z * Z :=
  (invoice_client i, invoice_month i, invoice_year i).

(** Modelled from the spec: the invariant of section 3, at most one
    invoice for a client and a period; the back end is not part of the
    sources. *)
Definition unique_invoices (st : Store) : Prop :=
  List.NoDup (map invoice_key (invoices st)).

(** One list of entries against a later one: each entry is as before or
    has been marked as invoiced. *)
Definition marked (l l' : list WorkEntry) : Prop :=
  Forall2 (fun e e' => e' = e \/ e' = mark_invoiced e) l l'.

(** The outcomes name pairwise distinct clients, each with an invoice for
    the period. *)
Definition distinct_clients (m y : Z) (acc : Store * list Outcome) : Prop :=
  List.NoDup (map outcome_client acc.2)
  /\ forall o, In o acc.2 ->
       has_invoice (outcome_client o) m y (invoices acc.1) = true.

(** The validated entries of the period that belong to a client of the
    outcomes are all invoiced. *)
Definition settled (m y : Z) (acc : Store * list Outcome) : Prop :=
  forall o e,
    In o acc.2 -> In e (entries acc.1) ->
    client_id e = outcome_client o -> status e = Validated ->
    month e = m -> year e = y -> invoiced e = true.

End InvoiceBatchGenerator.

(** ** Outcomes and sample data *)

Module Outcome.

(** The note shown when the computed duration is not positive. *)
Definition warning_of (form : DashboardAdminPrestations.Form)
    (message : string) : list App.Toast :=
  if Js.le (DashboardAdminPrestations.heuresCalculeesFinal form) 0
  then [App.ToastWarning message] else [].

(** The note shown when reloading a list fails. *)
Definition reload_note (answer : option string) : list App.Toast :=
  match answer with
  | Some message =>
      [App.ToastError ("Erreur rechargement prestations: " +:+ message)]
  | None => []
  end.

(** The validation step of [handleSaveAndValidate] ends on an error: the
    request for the rate fails, or finds no client or no rate, or the
    update fails.  [pending] are the answers of the service to the
    requests of that step. *)
Definition validation_fails (clients : gmap string App.Client)
    (clientId : string) (pending : list (option string)) : Prop :=
  match hd None pending with
  | Some _ => True
  | None =>
      match clients !! clientId with
      | None => True
      | Some c =>
          match App.tarif_horaire c with
          | None => True
          | Some _ =>
              match hd None (tl pending) with
              | Some _ => True
              | None => False
              end
          end
      end
  end.

(** The minutes since midnight of a time the entry form accepts. *)
Definition minutes (time : string) : Z :=
  match DashboardCollaborateur.hour_minute time with
  | (Some h, Some m) => h * 60 + m
  | _ => 0
  end.

(** The minutes from one time of day to another, the second being on the
    next day when it is not after the first. *)
Definition span (start end_ : Z) : Z :=
  if end_ <=? start then 1440 - start + end_ else end_ - start.

End Outcome.

Module Sample.

(** A pending entry of three hours for the client [c1]. *)
Definition entry : App.Prestation :=
  {| App.user_id := "u1"; App.client_id := "c1";
     App.project_id := Some "pr1";
     App.date_prestation := "2024-05-03";
     App.heure_debut := "09:00"; App.heure_fin := "12:00";
     App.heures_calculees := 3; App.adresse := "Rue Haute 1";
     App.statut_validation := "en_attente";
     App.tarif_horaire_utilise := None |}.

Definition client (rate : option Q) : App.Client :=
  {| App.nom := "Acme"; App.client_adresse := None;
     App.email_facturation := None; App.telephone := None;
     App.tarif_horaire := rate |}.

(** One entry, [p1], and its client, [c1], with the given rate; the
    service answers every request. *)
Definition world (rate : option Q) : App.World :=
  {| App.prestations := {[ "p1" := entry ]};
     App.clients := {[ "c1" := client rate ]};
     App.faults := []; App.toasts := [] |}.

Definition editing : DashboardAdminPrestations.PrestationPending :=
  {| DashboardAdminPrestations.id := "p1";
     DashboardAdminPrestations.client_id := "c1" |}.

(** The form of the modification dialog, on 2024-05-03. *)
Definition form (debut fin : string) : DashboardAdminPrestations.Form :=
  {| DashboardAdminPrestations.modifiedDate :=
       Some {| Js.epoch_day := 19846; Js.ms_of_day := 0 |};
     DashboardAdminPrestations.modifiedHeureDebut := debut;
     DashboardAdminPrestations.modifiedHeureFin := fin;
     DashboardAdminPrestations.modifiedClientId := Some "c1";
     DashboardAdminPrestations.modifiedProjectId := Js.Val "pr1";
     DashboardAdminPrestations.modifiedAdresse := "Rue Basse 2" |}.

(** The client form of the project page, with a new rate. *)
Definition rate_form (rate : Q) : ProjectManagement.ClientFormData :=
  {| ProjectManagement.nom := "Acme";
     ProjectManagement.adresse := EmptyString;
     ProjectManagement.email_facturation := EmptyString;
     ProjectManagement.telephone := EmptyString;
     ProjectManagement.tarif_horaire := Some rate |}.

(** The entry form of the collaborator, on 2024-05-03. *)
Definition entry_form (debut fin : string)
  : DashboardCollaborateur.PrestationFormData :=
  {| DashboardCollaborateur.date_prestation :=
       {| Js.epoch_day := 19846; Js.ms_of_day := 36000000 |};
     DashboardCollaborateur.heure_debut := debut;
     DashboardCollaborateur.heure_fin := fin;
     DashboardCollaborateur.client_id := "c1";
     DashboardCollaborateur.project_id := "pr1";
     DashboardCollaborateur.adresse := "Rue Haute 1" |}.

(** A validated collaborator, and the entry [p1] they submit from
    22:00 to 02:00 into empty tables. *)
Definition collaborator : AuthContext.AppUser :=
  {| AuthContext.id := "u1"; AuthContext.email := None;
     AuthContext.role := Some "collaborateur";
     AuthContext.statut_validation := Some "valide" |}.

Definition submitted : App.World :=
  DashboardCollaborateur.handleSubmit (Some collaborator)
    (entry_form "22:00" "02:00") "p1"
    {| App.prestations := ∅; App.clients := {[ "c1" := client (Some 50%Q) ]};
       App.faults := []; App.toasts := [] |}.

(** [p1] validated at the rate 50. *)
Definition validated : App.World :=
  App.run (DashboardAdminPrestations.handleValidate "p1" "c1")
    (world (Some 50%Q)).

(** Then the rate of [c1] is changed to 60. *)
Definition rate_changed : App.World :=
  App.run (ProjectManagement.handleEditClientSubmit (Some "c1")
             (rate_form 60%Q)) validated.

(** Three validated entries of May 2024 for two clients, one of June,
    and no invoice yet. *)
Definition work_entry (id client : string) (month : Z) (hours rate : Q)
  : InvoiceBatchGenerator.WorkEntry :=
  {| InvoiceBatchGenerator.id := id;
     InvoiceBatchGenerator.client_id := client;
     InvoiceBatchGenerator.year := 2024;
     InvoiceBatchGenerator.month := month;
     InvoiceBatchGenerator.day := 3;
     InvoiceBatchGenerator.computed_hours := hours;
     InvoiceBatchGenerator.status := InvoiceBatchGenerator.Validated;
     InvoiceBatchGenerator.tariff_snapshot := Some rate;
     InvoiceBatchGenerator.invoiced := false |}.

Definition store : InvoiceBatchGenerator.Store :=
  {| InvoiceBatchGenerator.entries :=
       [work_entry "a" "c1" 5 3 40; work_entry "b" "c2" 5 1 10;
        work_entry "c" "c1" 5 2 40; work_entry "d" "c1" 6 2 40];
     InvoiceBatchGenerator.invoices := [] |}.

Definition render (i : InvoiceBatchGenerator.Invoice) : option string :=
  Some ("invoices/" +:+ InvoiceBatchGenerator.invoice_client i +:+ ".pdf").

End Sample.

(** ** Text: comparison and printing *)

Module JsText.

(** The order of two strings under [<] and [>]: code units are compared
    from the left, and a proper prefix comes first.  (The characters here
    are bytes; on ASCII text they are the code units.) *)
Fixpoint compare (a b : string) : comparison :=
  match a, b with
  | EmptyString, EmptyString => Eq
  | EmptyString, String _ _ => Lt
  | String _ _, EmptyString => Gt
  | String x a', String y b' =>
      match Nat.compare (nat_of_ascii x) (nat_of_ascii y) with
      | Eq => compare a' b'
      | c => c
      end
  end.

(** [a > b] on strings. *)
Definition gt (a b : string) : bool :=
  match compare a b with Gt => true | _ => false end.

(** An integer inside a template literal. *)
Definition of_Z (z : Z) : string := NilZero.string_of_int (Z.to_int z).

(** [s || null]. *)
Definition or_null (s : option string) : option string :=
  match s with
  | Some t => if Js.truthy t then Some t else None
  | None => None
  end.

End JsText.

(** ** The data contracts of the back end (brain/data-contracts.ts) *)

Module ClientContract.

(** [ClientModel]; [None] is a missing or null field. *)
Record ClientModel : Type := {
  id : option string;
  nom : string;
  adresse : option string;
  email_facturation : option string;
  telephone : option string;
  tarif_horaire : option Q;
  numero_tva : option string
}.

End ClientContract.

Module PrestationContract.

(** [PrestationUpdate]; [None] is null, and a number read by [parseInt]
    may be [NaN] ([Some None]). *)
Record PrestationUpdate : Type := {
  date_prestation : option string;
  heure_debut : option string;
  heure_fin : option string;
  client_id : option (option Z);
  project_id : option (option Z);
  adresse : option string;
  admin_comment : option string
}.

End PrestationContract.

Module InvoiceContract.

Record GenerateInvoicesRequest : Type := { month : Z; year : Z }.

Record GeneratedInvoiceInfo : Type := {
  client_id : string;
  client_name : string;
  montant_total : Q;
  invoice_id : Z;
  lien_pdf : option string
}.

(** The body of an answer, as the page reads it: any of the fields may
    be missing, and [detail] is the text an [Error] makes of it. *)
Record GenerateInvoicesResponse : Type := {
  message : option string;
  generated_invoices : option (list GeneratedInvoiceInfo);
  detail : option string
}.

End InvoiceContract.

(** ** The generated client of the back end (brain/Brain.ts) *)

Module Brain.

(** A value of a parameter object. *)
Inductive Value : Type :=
| Text (s : string)
| Num (z : Z).

(** A value inside a template literal; a name that the object does not
    have is [undefined]. *)
Definition template (v : option Value) : string :=
  match v with
  | Some (Text s) => s
  | Some (Num z) => JsText.of_Z z
  | None => "undefined"
  end.

Inductive Method : Type := GET | POST | PUT | DELETE.

(** What a route hands to [this.request]. *)
Record Request (Body : Type) : Type := {
  path : string;
  method : Method;
  body : option Body;
  secure : bool
}.
Arguments path {Body} _.
Arguments method {Body} _.
Arguments body {Body} _.
Arguments secure {Body} _.

Definition create_client (data : ClientContract.ClientModel)
  : Request ClientContract.ClientModel :=
  {| path := "/routes/clients/"; method := POST; body := Some data;
     secure := false |}.

(** [({ clientId, ...query }, data) => ...]: the path is built from the
    name [clientId] of the parameter object. *)
Definition update_client (params : gmap string Value)
    (data : ClientContract.ClientModel) : Request ClientContract.ClientModel :=
  {| path := "/routes/clients/" +:+ template (params !! "clientId");
     method := PUT; body := Some data; secure := false |}.

Definition delete_client (params : gmap string Value)
  : Request ClientContract.ClientModel :=
  {| path := "/routes/clients/" +:+ template (params !! "clientId");
     method := DELETE; body := None; secure := false |}.

Definition update_prestation (params : gmap string Value)
    (data : PrestationContract.PrestationUpdate)
  : Request PrestationContract.PrestationUpdate :=
  {| path := "/routes/prestations/" +:+ template (params !! "prestationId");
     method := PUT; body := Some data; secure := true |}.

Definition generate_monthly_invoices
    (data : InvoiceContract.GenerateInvoicesRequest)
  : Request InvoiceContract.GenerateInvoicesRequest :=
  {| path := "/routes/generate-monthly-invoices"; method := POST;
     body := Some data; secure := true |}.

End Brain.

(** ** The client dialog (components/ClientFormDialog) *)

Module ClientFormDialog.

(** The values the form hands to [onSubmit], once the schema has passed:
    an optional field may be undefined ([None]). *)
Record Values : Type := {
  nom : string;
  adresse : option string;
  email_facturation : option string;
  telephone : option string;
  numero_tva : option string;
  tarif_horaire : option Q
}.

Definition payload (values : Values) : ClientContract.ClientModel :=
  {| ClientContract.id := None;
     ClientContract.nom := nom values;
     ClientContract.adresse := JsText.or_null (adresse values);
     ClientContract.email_facturation :=
       JsText.or_null (email_facturation values);
     ClientContract.telephone := JsText.or_null (telephone values);
     ClientContract.tarif_horaire := tarif_horaire values;
     ClientContract.numero_tva := JsText.or_null (numero_tva values) |}.

(** [clientToEdit?.id], when it is truthy. *)
Definition id_of (client : option ClientContract.ClientModel) : option string :=
  match client with
  | Some c =>
      match ClientContract.id c with
      | Some id => if Js.truthy id then Some id else None
      | None => None
      end
  | None => None
  end.

(** The request [onSubmit] sends: an update when a client with an id is
    being edited, a creation otherwise.  What follows the answer (the
    toast, the callbacks) depends on the HTTP client and is left out. *)
Definition onSubmit (values : Values)
    (clientToEdit : option ClientContract.ClientModel)
  : Brain.Request ClientContract.ClientModel :=
  match id_of clientToEdit with
  | Some id =>
      Brain.update_client {[ "client_id" := Brain.Text id ]} (payload values)
  | None => Brain.create_client (payload values)
  end.

End ClientFormDialog.

(** ** The clients page: deletion through the back end
       (pages/AdminGestionClients) *)

Module AdminGestionClientsDelete.

(** The request [confirmDelete] sends; none without a client or an id. *)
Definition confirmDelete (clientToDelete : option ClientContract.ClientModel)
  : option (Brain.Request ClientContract.ClientModel) :=
  match ClientFormDialog.id_of clientToDelete with
  | Some id => Some (Brain.delete_client {[ "client_id" := Brain.Text id ]})
  | None => None
  end.

End AdminGestionClientsDelete.

(** ** The form that modifies an entry through the back end
       (ModifyPrestationForm) *)

Module ModifyPrestationForm.

Record PrestationFormData : Type := {
  date_prestation : string;
  heure_debut : string;
  heure_fin : string;
  client_id : string;
  project_id : string;
  adresse : string;
  admin_comment : option string
}.

(** The pattern [^([01]\d|2[0-3]):([0-5]\d):([0-5]\d)$]. *)
Definition HH_MM_SS (s : string) : bool :=
  match s with
  | String a (String b (String ":" (String c (String d
      (String ":" (String e (String f EmptyString))))))) =>
      ((DashboardCollaborateur.between "0" "1" a && Js.is_digit b)
       || (Ascii.eqb a "2" && DashboardCollaborateur.between "0" "3" b))
      && DashboardCollaborateur.between "0" "5" c && Js.is_digit d
      && DashboardCollaborateur.between "0" "5" e && Js.is_digit f
  | _ => false
  end.

(** [formatTimeForInput]; [None] is a value that is not a string. *)
Definition formatTimeForInput (timeValue : option string) : string :=
  match timeValue with
  | Some s =>
      if DashboardCollaborateur.HH_MM s then s
      else if HH_MM_SS s then String.substring 0 5 s
      else EmptyString
  | None => EmptyString
  end.

(** The refinement of the schema. *)
Definition refine (data : PrestationFormData) : bool :=
  if DashboardCollaborateur.HH_MM (heure_debut data)
     && DashboardCollaborateur.HH_MM (heure_fin data)
  then JsText.gt (heure_fin data) (heure_debut data)
  else true.

(** The data pass [prestationFormSchema]. *)
Definition prestationFormSchema (data : PrestationFormData) : bool :=
  DashboardCollaborateur.min1 (date_prestation data)
  && DashboardCollaborateur.HH_MM (heure_debut data)
  && DashboardCollaborateur.HH_MM (heure_fin data)
  && DashboardCollaborateur.min1 (client_id data)
  && DashboardCollaborateur.min1 (project_id data)
  && DashboardCollaborateur.min1 (adresse data)
  && refine data.

Definition payload (data : PrestationFormData)
  : PrestationContract.PrestationUpdate :=
  {| PrestationContract.date_prestation := Some (date_prestation data);
     PrestationContract.heure_debut := Some (heure_debut data);
     PrestationContract.heure_fin := Some (heure_fin data);
     PrestationContract.client_id := Some (Js.parseInt (client_id data));
     PrestationContract.project_id := Some (Js.parseInt (project_id data));
     PrestationContract.adresse := Some (adresse data);
     PrestationContract.admin_comment := JsText.or_null (admin_comment data) |}.

(** The request [onSubmit] sends for the entry of the given id. *)
Definition onSubmit (prestation_id : Z) (data : PrestationFormData)
  : Brain.Request PrestationContract.PrestationUpdate :=
  Brain.update_prestation {[ "prestationId" := Brain.Num prestation_id ]}
    (payload data).

End ModifyPrestationForm.

(** ** The provider of the authentication context: redirection and
       rendering (utils/AuthContext) *)

Module AuthProvider.

(** The two parameters the effect reads from the hash of the URL. *)
Record Hash : Type := {
  type : option string;
  access_token : option string
}.

(** [x === s] for an [x] that may be undefined. *)
Definition same (x : option string) (s : string) : bool :=
  match x with
  | Some v => String.eqb v s
  | None => false
  end.

Definition isRecovery (hash : Hash) : bool := same (type hash) "recovery".

(** What one run of the effect does. *)
Inductive Redirection : Type :=
| Stay
| Navigate (path : string)
| SignOut.

Definition motDePasseOubliePath : string := "/mot-de-passe-oublie".
Definition resetPasswordPath : string := "/reset-password".
Definition inscriptionPath : string := "/inscription".
Definition loginPath : string := "/connexion".
Definition waitingPath : string := "/en-attente-validation".
Definition adminDashboardPath : string := "/admin-validation-prestations".
Definition collaborateurDashboardPath : string := "/dashboard-collaborateur".

(** The redirection effect, for the state of the provider and the
    current path. *)
Definition redirection (hash : Hash) (currentPath : string) (loading : bool)
    (user : option AuthContext.AppUser) (session : option AuthContext.Session)
  : Redirection :=
  if isRecovery hash && negb (DashboardAdminPrestations.falsy (access_token hash))
     && negb (String.eqb currentPath "/reset-password")
  then Navigate "/reset-password"
  else if loading then Stay
  else
    match user with
    | Some u =>
        if negb (same (AuthContext.role u) "admin")
           && same (AuthContext.statut_validation u) "en_attente"
           && negb (String.eqb currentPath waitingPath)
        then Navigate waitingPath
        else if same (AuthContext.statut_validation u) "refuse"
                && negb (String.eqb currentPath loginPath)
        then SignOut
        else if same (AuthContext.statut_validation u) "valide"
        then
          if AuthContext.includes [loginPath; waitingPath; inscriptionPath]
               currentPath
          then
            if same (AuthContext.role u) "admin"
            then Navigate "/admin-validation-prestations"
            else Navigate "/dashboard-collaborateur"
          else Stay
        else Stay
    | None =>
        match session with
        | None =>
            if negb (AuthContext.includes
                       [loginPath; inscriptionPath; motDePasseOubliePath;
                        resetPasswordPath] currentPath)
               && negb (String.eqb currentPath waitingPath)
            then Navigate loginPath
            else Stay
        | Some _ => Stay
        end
    end.

(** The provider renders its children. *)
Definition renders_children (pathname : string) (loading : bool)
    (user : option AuthContext.AppUser) : bool :=
  negb loading
  && negb (match user with
           | Some u =>
               negb (same (AuthContext.role u) "admin")
               && (same (AuthContext.statut_validation u) "en_attente"
                   || same (AuthContext.statut_validation u) "inconnu")
               && negb (String.eqb pathname "/en-attente-validation")
           | None => false
           end).

End AuthProvider.

(** ** The page of the administrator's validations
       (pages/AdminValidationPrestations) *)

Module AdminValidationPrestations.

Inductive View : Type :=
| Loading
| NavigateTo (path : string)
| AccessDenied
| Content.

(** What the page renders for the [user] of the context.  The page reads
    [isLoading] from the context, which has no such field: it is
    undefined, and the first test never holds. *)
Definition view (user : option AuthContext.AppUser) : View :=
  let isLoading : option bool := None in
  if default false isLoading then Loading
  else
    match user with
    | None => NavigateTo "/login"
    | Some _ => if AuthContext.isAdmin user then Content else AccessDenied
    end.

End AdminValidationPrestations.

(** ** The invoicing page (pages/AdminInvoicing) *)

Module AdminInvoicing.

(** What an awaited call comes to: it throws a value whose [message] may
    be missing, or it returns. *)
Inductive Awaited (A : Type) : Type :=
| Throws (message : option string)
| Returns (a : A).
Arguments Throws {A} _.
Arguments Returns {A} _.

(** The answer of [.single()] on [profiles.role]: [data] (a row, whose
    role may be null) and [error] (its code and message). *)
Record ProfileAnswer : Type := {
  profile : option (option string);
  profileError : option (string * string)
}.

Record State : Type := {
  isAdmin : bool;
  authChecked : bool;
  isLoadingGeneration : bool;
  error : option string;
  selectedMonth : Z;
  selectedYear : Z;
  generatedInvoices : list InvoiceContract.GeneratedInvoiceInfo;
  navigated : list string;
  toasts : list App.Toast
}.

Definition with_check (admin checked : bool) (st : State) : State :=
  {| isAdmin := admin; authChecked := checked;
     isLoadingGeneration := isLoadingGeneration st; error := error st;
     selectedMonth := selectedMonth st; selectedYear := selectedYear st;
     generatedInvoices := generatedInvoices st;
     navigated := navigated st; toasts := toasts st |}.

(** [toast.error(message); navigate(path)]. *)
Definition refuse (message path : string) (st : State) : State :=
  {| isAdmin := isAdmin st; authChecked := authChecked st;
     isLoadingGeneration := isLoadingGeneration st; error := error st;
     selectedMonth := selectedMonth st; selectedYear := selectedYear st;
     generatedInvoices := generatedInvoices st;
     navigated := (navigated st ++ [path])%list;
     toasts := (toasts st ++ [App.ToastError message])%list |}.

(** A value inside a template literal. *)
Definition template (message : option string) : string :=
  default "undefined" message.

(** The last test of [checkAdminRole], on the row that came back. *)
Definition open_for (profile : option (option string)) (st : State) : State :=
  if AuthProvider.same (default None profile) "admin"
  then with_check true (authChecked st) st
  else refuse "Accès refusé. Vous n'avez pas les droits administrateur."
         "/" st.

(** [checkAdminRole], for what [getUser] and the request for the profile
    come to (the second is not made when the first gives no user). *)
Definition checkAdminRole (getUser : Awaited (option string))
    (fetch : Awaited ProfileAnswer) (st : State) : State :=
  let st := with_check (isAdmin st) false st in
  let st :=
    match getUser with
    | Throws message =>
        refuse ("Erreur d'authentification: " +:+ template message) "/" st
    | Returns None =>
        refuse "Accès refusé. Veuillez vous connecter." "/connexion" st
    | Returns (Some _) =>
        match fetch with
        | Throws message =>
            refuse ("Erreur d'authentification: " +:+ template message) "/" st
        | Returns answer =>
            match profileError answer with
            | Some (code, message) =>
                if negb (String.eqb code "PGRST116")
                then refuse ("Erreur de profil: " +:+ message) "/" st
                else open_for (profile answer) st
            | None => open_for (profile answer) st
            end
        end
    end in
  with_check (isAdmin st) true st.

(** What the page renders. *)
Inductive View : Type := Checking | Refused | AdminContent.

Definition view (st : State) : View :=
  if negb (authChecked st) then Checking
  else if negb (isAdmin st) then Refused
  else AdminContent.

(** The answer to the request for the invoices, once read as JSON. *)
Record Response : Type := {
  ok : bool;
  status : Z;
  statusText : string;
  data : InvoiceContract.GenerateInvoicesResponse
}.

Definition with_generation (loading : bool) (e : option string)
    (invoices : list InvoiceContract.GeneratedInvoiceInfo)
    (t : list App.Toast) (st : State) : State :=
  {| isAdmin := isAdmin st; authChecked := authChecked st;
     isLoadingGeneration := loading; error := e;
     selectedMonth := selectedMonth st; selectedYear := selectedYear st;
     generatedInvoices := invoices;
     navigated := navigated st; toasts := t |}.

(** The request the handler sends. *)
Definition request (st : State)
  : Brain.Request InvoiceContract.GenerateInvoicesRequest :=
  Brain.generate_monthly_invoices
    {| InvoiceContract.month := selectedMonth st;
       InvoiceContract.year := selectedYear st |}.

(** The [catch] block of [handleGenerateInvoices], for the [message] of
    what was thrown. *)
Definition caught (message : option string) (st : State) : State :=
  let message := Js.or_else message "Une erreur inconnue est survenue." in
  with_generation (isLoadingGeneration st) (Some message)
    (generatedInvoices st)
    (toasts st ++ [App.ToastError ("Erreur de génération: " +:+ message)])%list
    st.

(** [handleGenerateInvoices], for what the request and the reading of
    its answer come to. *)
Definition handleGenerateInvoices (answer : Awaited Response) (st : State)
  : State :=
  let st :=
    with_generation true None []
      (toasts st ++
       [App.ToastInfo
          ("Lancement de la génération des factures pour "
           +:+ JsText.of_Z (selectedMonth st) +:+ "/"
           +:+ JsText.of_Z (selectedYear st) +:+ "...")])%list st in
  let st :=
    match answer with
    | Throws message => caught message st
    | Returns response =>
        if ok response then
          let invoices :=
            default [] (InvoiceContract.generated_invoices (data response)) in
          with_generation (isLoadingGeneration st) (error st) invoices
            (toasts st ++
             [if (0 <? length invoices)%nat
              then App.ToastSuccess
                     (Js.or_else (InvoiceContract.message (data response))
                        (JsText.of_Z (Z.of_nat (length invoices))
                         +:+ " facture(s) générée(s) avec succès !"))
              else App.ToastInfo
                     (Js.or_else (InvoiceContract.message (data response))
                        "Aucune nouvelle facture à générer pour cette période.")])%list
            st
        else
          caught
            (Some (Js.or_else (InvoiceContract.detail (data response))
                     ("Erreur " +:+ JsText.of_Z (status response) +:+ ": "
                      +:+ statusText response)))
            st
    end in
  with_generation false (error st) (generatedInvoices st) (toasts st) st.

End AdminInvoicing.

(** ** The list of pending entries and the cases of the properties *)

Module Cases.

(** The filter of the request that loads the administrator's list,
    [.eq('statut_validation', 'en_attente')].  The request also joins
    the profile and the client of an entry, which can only leave rows
    out. *)
Definition pending (p : App.Prestation) : bool :=
  String.eqb (App.statut_validation p) "en_attente".

(** The entry of the given id passes the filter of the list. *)
Definition listed (w : App.World) (id : string) : bool :=
  match App.prestations w !! id with
  | Some p => pending p
  | None => false
  end.

(** The modification form lacks its date or its client. *)
Definition incomplete (form : DashboardAdminPrestations.Form) : bool :=
  match DashboardAdminPrestations.modifiedDate form with
  | None => true
  | Some _ =>
      DashboardAdminPrestations.falsy
        (DashboardAdminPrestations.modifiedClientId form)
  end.

(** The message of a save that lacks its date or its client. *)
Definition missing_field (form : DashboardAdminPrestations.Form) : string :=
  match DashboardAdminPrestations.modifiedDate form with
  | None => "La date est requise."
  | Some _ => "Le client est requis."
  end.

(** The guard of the entry form: a user, whose status is [valide]. *)
Definition may_submit (user : option AuthContext.AppUser) : bool :=
  match user with
  | Some u => DashboardCollaborateur.is_valide u
  | None => false
  end.

(** The request for the profile came back without a profile. *)
Definition no_profile (fetch : AuthContext.ProfileFetch) : bool :=
  match fetch with
  | AuthContext.FetchData (Some _) => false
  | _ => true
  end.

End Cases.


(** ** Dates in a time zone whose offset may change *)

Module JsZone.

(** A time zone, as the [Date] operations see it: the offset of local
    time to UTC, in milliseconds, at an instant and at a reading of the
    local clock (for a reading that the clock skips or shows twice, the
    offset before the change). *)
Record Zone : Type := {
  offset_at : Z -> Z;
  offset_of_local : Z -> Z
}.

Definition msPerDay : Z := 86400000.

(** [LocalTime(t)] and [UTC(t)] of the language. *)
Definition LocalTime (zone : Zone) (t : Z) : Z := t + offset_at zone t.

Definition UTC (zone : Zone) (local : Z) : Z :=
  local - offset_of_local zone local.

(** [d.setHours(h, m, 0, 0)] on the time value [t] of [d]: the day of the
    local reading is kept, the time within the day replaced. *)
Definition setHours (zone : Zone) (t h m : Z) : Z :=
  UTC zone (LocalTime zone t / msPerDay * msPerDay
            + (h * 3600000 + m * 60000)).

(** [d.setDate(d.getDate() + n)] on the time value [t] of [d]: the same
    local reading [n] days later. *)
Definition addDays (zone : Zone) (t n : Z) : Z :=
  let local := LocalTime zone t in
  UTC zone ((local / msPerDay + n) * msPerDay + local mod msPerDay).

(** The clock of the zone does not change on the local day of the
    instant [t] nor on the day after: over these two days the offset is
    the one at [t], for every reading and every instant. *)
Definition no_clock_change (zone : Zone) (t : Z) : Prop :=
  let offset := offset_at zone t in
  let day := (t + offset) / msPerDay * msPerDay in
  forall x, day <= x < day + 2 * msPerDay ->
    offset_of_local zone x = offset /\ offset_at zone (x - offset) = offset.

(** A zone without clock changes. *)
Definition fixed (offset : Z) : Zone :=
  {| offset_at := fun _ => offset; offset_of_local := fun _ => offset |}.

(** A zone one hour ahead of UTC that goes to two hours ahead at the
    instant [change] (the clock jumps from 02:00 to 03:00, as in
    Europe/Brussels on the last Sunday of March). *)
Definition spring_forward (change : Z) : Zone :=
  {| offset_at := fun t => if t <? change then 3600000 else 7200000;
     offset_of_local :=
       fun local => if local <? change + 7200000 then 3600000 else 7200000 |}.

End JsZone.

(** ** The hours of the entry form, in a time zone *)

Module DashboardCollaborateurClock.

(** The block "Calculate hours" of [onSubmit] of the entry form, on the
    time value of [data.date_prestation], in a zone whose clock may
    change; [None] is [NaN]. *)
Definition heures_calculees (zone : JsZone.Zone) (date_prestation : Z)
    (heure_debut heure_fin : string) : option Q :=
  match DashboardCollaborateur.hour_minute heure_debut,
        DashboardCollaborateur.hour_minute heure_fin with
  | (Some startHour, Some startMinute), (Some endHour, Some endMinute) =>
      let startDate :=
        JsZone.setHours zone date_prestation startHour startMinute in
      let endDate := JsZone.setHours zone date_prestation endHour endMinute in
      let endDate :=
        if endDate <=? startDate then JsZone.addDays zone endDate 1
        else endDate in
      let durationMs := endDate - startDate in
      Some (Js.toFixed2 (durationMs # 3600000))
  | _, _ => None
  end.

End DashboardCollaborateurClock.

(** ** The totals of an invoice run *)

Module InvoiceTotals.

(** Modelled from the spec: the group of a client in steps 2 and 4 of
    section 4.3, the selected entries of that client; the route is not
    part of the sources. *)
Definition group (m y : Z) (entries : list InvoiceBatchGenerator.WorkEntry)
    (c : string) : list InvoiceBatchGenerator.WorkEntry :=
  List.filter
    (fun e => String.eqb (InvoiceBatchGenerator.client_id e) c)
    (List.filter (InvoiceBatchGenerator.eligible m y) entries).

(** Modelled from the spec: the Invoice row that an outcome of the run
    reports (step 4 and step 6 of section 4.3); the route is not part of
    the sources. *)
Definition invoice_of (m y : Z) (o : InvoiceBatchGenerator.Outcome)
  : InvoiceBatchGenerator.Invoice :=
  {| InvoiceBatchGenerator.invoice_id := InvoiceBatchGenerator.outcome_invoice o;
     InvoiceBatchGenerator.invoice_client :=
       InvoiceBatchGenerator.outcome_client o;
     InvoiceBatchGenerator.invoice_month := m;
     InvoiceBatchGenerator.invoice_year := y;
     InvoiceBatchGenerator.total_amount := InvoiceBatchGenerator.outcome_total o;
     InvoiceBatchGenerator.pdf_link := InvoiceBatchGenerator.outcome_pdf o |}.

(** The entry [e] of the store is summed in the total of the outcome
    [o] of a run for the period. *)
Definition counted_in (m y : Z)
    (entries : list InvoiceBatchGenerator.WorkEntry)
    (e : InvoiceBatchGenerator.WorkEntry)
    (o : InvoiceBatchGenerator.Outcome) : Prop :=
  In e (group m y entries (InvoiceBatchGenerator.outcome_client o)).

(** The outcomes so far report the totals of their groups among the
    selected entries, and the invoices added to those there [before] are
    those of the outcomes. *)
Definition totals_of_groups (m y : Z)
    (selected : list InvoiceBatchGenerator.WorkEntry)
    (before : list InvoiceBatchGenerator.Invoice)
    (acc : InvoiceBatchGenerator.Store * list InvoiceBatchGenerator.Outcome)
  : Prop :=
  (forall o, In o acc.2 ->
     InvoiceBatchGenerator.outcome_total o
     = InvoiceBatchGenerator.total
         (List.filter
            (fun e => String.eqb (InvoiceBatchGenerator.client_id e)
                        (InvoiceBatchGenerator.outcome_client o))
            selected))
  /\ InvoiceBatchGenerator.invoices acc.1
     = (before ++ map (invoice_of m y) acc.2)%list.

End InvoiceTotals.

(** * Properties *)

(** ** The primitives on sample inputs *)

Example split_time : Js.split ":" "22:00:00" = ["22"; "00"; "00"].
Proof. reflexivity. Qed.

Example parseInt_prefix : Js.parseInt " -12ab" = Some (-12).
Proof. reflexivity. Qed.

Example parseInt_nan : Js.parseInt "ab" = None.
Proof. reflexivity. Qed.

Example toFixed2_rounds : Js.toFixed2 (5 # 3) = (167 # 100)%Q.
Proof. reflexivity. Qed.

Example trim_both_ends : Js.trim "  a b  " = "a b".
Proof. reflexivity. Qed.

Example format_leap_day :
  DateFns.format_yyyy_MM_dd {| Js.epoch_day := 19782; Js.ms_of_day := 5 |}
  = "2024-02-29".
Proof. reflexivity. Qed.

Example parseTime_with_seconds :
  DashboardAdminPrestations.parseTime "22:30:00" = Some (45 # 2)%Q.
Proof. reflexivity. Qed.

Example parseTime_without_colon :
  DashboardAdminPrestations.parseTime "2230" = None.
Proof. reflexivity. Qed.

Example pattern_rejects_24 :
  DashboardCollaborateur.HH_MM "24:00" = false.
Proof. reflexivity. Qed.

Example invoice_total_200 :
  map InvoiceBatchGenerator.outcome_total
    (InvoiceBatchGenerator.GenerateForPeriod Sample.render 5 2024 Sample.store).2
  = [200%Q; 10%Q].
Proof. vm_compute. reflexivity. Qed.

(** ** The authentication context *)

Section AuthContextFacts.
Import AuthContext.

Lemma finalStatus_cases (p : ProfileData) :
  finalStatus p = "inconnu"
  \/ (profile_statut_validation p = Some (finalStatus p)
      /\ In (finalStatus p) validStatuses).
Proof.
  unfold finalStatus.
  destruct (profile_statut_validation p) as [s|]; [|now left].
  destruct (Js.truthy s && includes validStatuses s) eqn:E; [|now left].
  right. split; [reflexivity|].
  apply andb_true_iff in E as [_ E].
  unfold includes in E. apply existsb_exists in E as (x & Hx & Heq).
  apply String.eqb_eq in Heq. now subst.
Qed.

Lemma finalStatus_valid (p : ProfileData) (s : string) :
  profile_statut_validation p = Some s -> In s validStatuses ->
  finalStatus p = s.
Proof.
  intros Hp Hin. unfold finalStatus. rewrite Hp.
  assert (Ht : Js.truthy s = true).
  { simpl in Hin. destruct Hin as [<-|[<-|[<-|[]]]]; reflexivity. }
  assert (Hi : includes validStatuses s = true).
  { unfold includes. apply existsb_exists. exists s. split; [exact Hin|].
    apply String.eqb_refl. }
  now rewrite Ht, Hi.
Qed.

Lemma finalStatus_unknown (p : ProfileData) :
  (forall s, profile_statut_validation p = Some s -> ~ In s validStatuses) ->
  finalStatus p = "inconnu".
Proof.
  intros H. destruct (finalStatus_cases p) as [E|[E Hin]]; [exact E|].
  now destruct (H _ E).
Qed.

End AuthContextFacts.

(** C10: every user the authentication context produces has a
    [statut_validation] among valide, en_attente, refuse and inconnu; a
    status of the profile that is not one of the first three (or is null)
    becomes inconnu, as does every failed or empty profile request; and in
    the latter case the role is collaborateur, so [isAdmin] is false. *)
Theorem auth_user_status_closed_role_default
    (newSession : option AuthContext.Session) (fetch : AuthContext.ProfileFetch)
    (a : AuthContext.AppUser)
    (Huser : AuthContext.onAuthStateChange newSession fetch = Some a) :
  In (AuthContext.statut_validation a)
     [Some "valide"; Some "en_attente"; Some "refuse"; Some "inconnu"]
  /\ (forall p, fetch = AuthContext.FetchData (Some p) ->
        (forall s, AuthContext.profile_statut_validation p = Some s ->
                   In s AuthContext.validStatuses ->
                   AuthContext.statut_validation a = Some s)
        /\ ((forall s, AuthContext.profile_statut_validation p = Some s ->
                       ~ In s AuthContext.validStatuses) ->
            AuthContext.statut_validation a = Some "inconnu"))
  /\ ((forall p, fetch <> AuthContext.FetchData (Some p)) ->
        AuthContext.statut_validation a = Some "inconnu"
        /\ AuthContext.role a = Some "collaborateur"
        /\ AuthContext.isAdmin (Some a) = false).
Proof.
  unfold AuthContext.onAuthStateChange in Huser.
  destruct newSession as [s|]; [|discriminate].
  assert (Hfb : a = AuthContext.fallbackUser (AuthContext.user s) ->
                In (AuthContext.statut_validation a)
                  [Some "valide"; Some "en_attente"; Some "refuse"; Some "inconnu"]
                /\ AuthContext.statut_validation a = Some "inconnu"
                /\ AuthContext.role a = Some "collaborateur"
                /\ AuthContext.isAdmin (Some a) = false).
  { intros ->. simpl. tauto. }
  destruct fetch as [msg|[p|]|msg]; injection Huser as Ha; symmetry in Ha.
  - destruct (Hfb Ha) as (H1 & H2). split; [tauto|split; [intros p [=]|tauto]].
  - subst a. split; [|split].
    + simpl. destruct (finalStatus_cases p) as [->|[_ Hin]]; [tauto|].
      simpl in Hin. destruct Hin as [<-|[<-|[<-|[]]]]; tauto.
    + intros p' [= <-]. simpl. split.
      * intros s0 H1 H2. f_equal. now apply finalStatus_valid.
      * intros H. f_equal. now apply finalStatus_unknown.
    + intros H. now destruct (H p).
  - destruct (Hfb Ha) as (H1 & H2). split; [tauto|split; [intros p [=]|tauto]].
  - destruct (Hfb Ha) as (H1 & H2). split; [tauto|split; [intros p [=]|tauto]].
Qed.

Lemma auth_user_status_closed_role_default_witness :
  let u := {| AuthContext.su_id := "u1"; AuthContext.su_email := None;
              AuthContext.su_role := Some "authenticated" |} in
  let a := AuthContext.fallbackUser u in
  In (AuthContext.statut_validation a)
     [Some "valide"; Some "en_attente"; Some "refuse"; Some "inconnu"]
  /\ AuthContext.isAdmin (Some a) = false.
Proof.
  intros u a.
  destruct (auth_user_status_closed_role_default
              (Some {| AuthContext.user := u |})
              (AuthContext.FetchError "permission denied") a eq_refl)
    as (H1 & _ & H3).
  split; [exact H1|].
  apply H3. intros p. discriminate.
Defined.

(** ** The administrator's dashboard *)

Section AdminFacts.
Import DashboardAdminPrestations App.

Lemma digits_truthy (n : nat) (z : Z) (acc : string) :
  Js.truthy acc = true -> Js.truthy (DateFns.digits n z acc) = true.
Proof.
  revert z acc. induction n as [|n IH]; intros z acc H; [exact H|].
  cbn [DateFns.digits]. apply IH. reflexivity.
Qed.

Lemma format_truthy (d : Js.Date) :
  Js.truthy (DateFns.format_yyyy_MM_dd d) = true.
Proof.
  unfold DateFns.format_yyyy_MM_dd.
  destruct (DateFns.civil_of_days _) as [[y m] dd].
  apply digits_truthy. reflexivity.
Qed.

Lemma cleaned_checks (form : Form) (d : Js.Date) (cid : string) :
  modifiedDate form = Some d -> modifiedClientId form = Some cid ->
  Js.truthy cid = true ->
  falsy (set_date_prestation (cleanedUpdateData form)) = false
  /\ falsy (set_client_id (cleanedUpdateData form)) = false.
Proof.
  intros Hd Hc Ht. unfold cleanedUpdateData.
  cbn [set_date_prestation set_client_id].
  rewrite Hd, Hc. split; unfold falsy.
  - change (negb (Js.truthy (DateFns.format_yyyy_MM_dd d)) = false).
    now rewrite format_truthy.
  - now rewrite Ht.
Qed.

(** A validation whose client has no rate. *)
Lemma handleValidate_no_rate (w : World) (pid cid : string) (c : Client) :
  hd None (faults w) = None ->
  clients w !! cid = Some c ->
  tarif_horaire c = None ->
  run (handleValidate pid cid) w =
  with_toasts
    (toasts w ++
     [ToastError ("Échec validation: "
                  +:+ "Tarif horaire non défini pour le client ID: " +:+ cid)])
    (with_faults (tl (faults w)) w).
Proof.
  intros Hf Hc Ht.
  unfold run, handleValidate, try_catch, bind, select_tarif_horaire, bind,
    request.
  rewrite Hf. cbn [clients with_faults]. rewrite Hc, Ht. reflexivity.
Qed.

(** A validation whose two requests go through. *)
Lemma handleValidate_rate (w : World) (pid cid : string) (c : Client) (t : Q) :
  hd None (faults w) = None ->
  hd None (tl (faults w)) = None ->
  clients w !! cid = Some c ->
  tarif_horaire c = Some t ->
  run (handleValidate pid cid) w =
  with_toasts
    (toasts w ++
     [ToastSuccess ("Prestation " +:+ String.substring 0 6 pid
                    +:+ "... validée.")])
    (with_prestations
       (alter (apply_prestation_update (validation t)) pid (prestations w))
       (with_faults (tl (tl (faults w))) w)).
Proof.
  intros Hf Hf' Hc Ht.
  unfold run, handleValidate, try_catch, bind, select_tarif_horaire,
    update_prestations, bind, request.
  rewrite Hf. cbn [clients with_faults faults]. rewrite Hc, Ht.
  cbn. rewrite Hf'. reflexivity.
Qed.

(** Validating again at the rate already stored changes nothing. *)
Lemma validation_same_rate (p : Prestation) (t : Q) :
  statut_validation p = "valide" ->
  tarif_horaire_utilise p = Some t ->
  apply_prestation_update (validation t) p = p.
Proof.
  destruct p; cbn. intros -> ->. reflexivity.
Qed.

Lemma handleSaveChanges_saved (w : World) (editing : PrestationPending)
    (form : Form) (d : Js.Date) (cid : string) :
  modifiedDate form = Some d -> modifiedClientId form = Some cid ->
  Js.truthy cid = true ->
  hd None (faults w) = None ->
  let w' := run (handleSaveChanges (Some editing) form) w in
  prestations w' =
    alter (apply_prestation_update (cleanedUpdateData form)) (id editing)
      (prestations w)
  /\ clients w' = clients w
  /\ toasts w' =
     (toasts w
      ++ Outcome.warning_of form
           "Les heures de début et de fin ne permettent pas de calculer une durée valide."
      ++ [ToastSuccess "Prestation modifiée avec succès."]
      ++ Outcome.reload_note (hd None (tl (faults w))))%list.
Proof.
  intros Hd Hc Ht Hf.
  destruct (cleaned_checks form d cid Hd Hc Ht) as [E1 E2].
  unfold run, handleSaveChanges, try_catch, bind, update_prestations,
    fetchPendingPrestations, bind, request, when, Outcome.warning_of,
    Outcome.reload_note.
  rewrite E1, E2.
  destruct (Js.le (heuresCalculeesFinal form) 0); cbn; rewrite Hf; cbn;
    destruct (hd None (tl (faults w))); cbn;
    rewrite <- ?app_assoc; auto.
Qed.

Lemma handleSaveAndValidate_saved (w : World) (editing : PrestationPending)
    (form : Form) (d : Js.Date) (cid : string) :
  modifiedDate form = Some d -> modifiedClientId form = Some cid ->
  Js.truthy cid = true ->
  hd None (faults w) = None ->
  let w' := run (handleSaveAndValidate (Some editing) form) w in
  let saved :=
    alter (apply_prestation_update (cleanedUpdateData form)) (id editing)
      (prestations w) in
  clients w' = clients w
  /\ (exists rest,
        toasts w' =
        (toasts w
         ++ Outcome.warning_of form "Durée invalide, heures calculées mises à 0."
         ++ ToastInfo "Modifications enregistrées." :: rest)%list)
  /\ (Outcome.validation_fails (clients w) cid (tl (faults w)) ->
      prestations w' = saved)
  /\ (~ Outcome.validation_fails (clients w) cid (tl (faults w)) ->
      exists t,
        prestations w' =
        alter (apply_prestation_update (validation t)) (id editing) saved).
Proof.
  intros Hd Hc Ht Hf.
  destruct (cleaned_checks form d cid Hd Hc Ht) as [E1 E2].
  unfold run, handleSaveAndValidate, try_catch, bind, update_prestations,
    select_tarif_horaire, fetchPendingPrestations, bind, request, when,
    Outcome.warning_of, Outcome.validation_fails.
  rewrite E1, E2. cbn [orb].
  assert (Eo : Js.or_else (set_client_id (cleanedUpdateData form))
                 (DashboardAdminPrestations.client_id editing) = cid).
  { unfold cleanedUpdateData. cbn [set_client_id]. rewrite Hc.
    unfold Js.or_else. now rewrite Ht. }
  rewrite Eo.
  destruct (Js.le (heuresCalculeesFinal form) 0); cbn; rewrite Hf; cbn;
    (destruct (hd None (tl (faults w))) as [m1|]; cbn;
     [|destruct (clients w !! cid) as [c|]; cbn;
       [destruct (tarif_horaire c) as [t|]; cbn;
        [destruct (hd None (tl (tl (faults w)))) as [m2|]; cbn|]|]]);
    repeat match goal with
           | |- context [hd None (tl ?l)] => destruct (hd None (tl l)); cbn
           end;
    rewrite <- ?app_assoc; cbn;
    (split; [reflexivity|]);
    (split; [eexists; reflexivity|]);
    (split; [try tauto; auto|]);
    try (intros H; exfalso; apply H; exact I);
    try (intros _; eexists; reflexivity).
Qed.

(** What a saved form leaves in the row. *)
Lemma cleaned_row (form : Form) (d : Js.Date) (cid : string) (p : Prestation) :
  modifiedDate form = Some d -> modifiedClientId form = Some cid ->
  let p' := apply_prestation_update (cleanedUpdateData form) p in
  date_prestation p' = DateFns.format_yyyy_MM_dd d
  /\ heure_debut p' = modifiedHeureDebut form
  /\ heure_fin p' = modifiedHeureFin form
  /\ heures_calculees p' = heuresCalculeesFinal form
  /\ App.client_id p' = cid
  /\ project_id p' =
     match modifiedProjectId form with
     | Js.Undefined => project_id p
     | Js.Null => None
     | Js.Val project => Some project
     end
  /\ adresse p' = modifiedAdresse form
  /\ user_id p' = user_id p
  /\ statut_validation p' = statut_validation p
  /\ tarif_horaire_utilise p' = tarif_horaire_utilise p.
Proof.
  intros Hd Hc. unfold cleanedUpdateData. cbn. rewrite Hd, Hc. cbn.
  destruct (modifiedProjectId form); cbn; repeat split; reflexivity.
Qed.

Lemma zero_hours (form : Form) :
  (forall start end_,
      parseTime (modifiedHeureDebut form) = Some start ->
      parseTime (modifiedHeureFin form) = Some end_ ->
      Js.gt end_ start = false) ->
  heuresCalculeesFinal form = 0%Q.
Proof.
  intros H. unfold heuresCalculeesFinal.
  destruct (parseTime (modifiedHeureDebut form)) as [s|]; [|reflexivity].
  destruct (parseTime (modifiedHeureFin form)) as [e|]; [|reflexivity].
  now rewrite (H s e eq_refl eq_refl).
Qed.

End AdminFacts.

(** C8: validating an entry whose client has no hourly rate ends on the
    error "Tarif horaire non défini", and nothing is written: both tables
    are as before, so the entry keeps its status and has no rate copied. *)
Theorem validate_without_rate_changes_nothing
    (w : App.World) (pid : string) (p : App.Prestation) (c : App.Client)
    (Hentry : App.prestations w !! pid = Some p)
    (Hclient : App.clients w !! App.client_id p = Some c)
    (Hrate : App.tarif_horaire c = None)
    (Hanswer : hd None (App.faults w) = None) :
  let w' :=
    App.run (DashboardAdminPrestations.handleValidate pid (App.client_id p)) w in
  App.toasts w' =
    (App.toasts w ++
     [App.ToastError
        ("Échec validation: " +:+ "Tarif horaire non défini pour le client ID: "
         +:+ App.client_id p)])%list
  /\ App.prestations w' = App.prestations w
  /\ App.clients w' = App.clients w
  /\ App.prestations w' !! pid = Some p.
Proof.
  intros w'. subst w'.
  rewrite (handleValidate_no_rate w pid _ c Hanswer Hclient Hrate).
  cbn. auto.
Qed.

Lemma validate_without_rate_changes_nothing_witness :
  let w := Sample.world None in
  let w' := App.run (DashboardAdminPrestations.handleValidate "p1" "c1") w in
  App.prestations w' = App.prestations w
  /\ App.prestations w' !! "p1" = Some Sample.entry.
Proof.
  intros w w'.
  destruct (validate_without_rate_changes_nothing w "p1" Sample.entry
              (Sample.client None) eq_refl eq_refl eq_refl eq_refl)
    as (_ & H2 & _ & H4).
  split; [exact H2 | exact H4].
Defined.

(** C1, as the code has it: a validation reads no status.  On any stored
    entry, validated or not, whose client has a rate, it succeeds, sets the
    status to valide and writes the client's present rate; the stored rate
    is kept only when it equals the present one. *)
Theorem validate_has_no_status_guard
    (w : App.World) (pid : string) (p : App.Prestation) (c : App.Client) (t : Q)
    (Hentry : App.prestations w !! pid = Some p)
    (Hclient : App.clients w !! App.client_id p = Some c)
    (Hrate : App.tarif_horaire c = Some t)
    (Hanswer1 : hd None (App.faults w) = None)
    (Hanswer2 : hd None (tl (App.faults w)) = None) :
  let w' :=
    App.run (DashboardAdminPrestations.handleValidate pid (App.client_id p)) w in
  let p' :=
    App.apply_prestation_update (DashboardAdminPrestations.validation t) p in
  App.prestations w' !! pid = Some p'
  /\ App.statut_validation p' = "valide"
  /\ App.tarif_horaire_utilise p' = Some t
  /\ App.toasts w' =
     (App.toasts w ++
      [App.ToastSuccess
         ("Prestation " +:+ String.substring 0 6 pid +:+ "... validée.")])%list
  /\ (App.statut_validation p = "valide" ->
      App.tarif_horaire_utilise p = Some t -> p' = p).
Proof.
  intros w' p'. subst w' p'.
  rewrite (handleValidate_rate w pid _ c t Hanswer1 Hanswer2 Hclient Hrate).
  cbn [App.prestations App.with_prestations App.with_toasts App.toasts
       App.with_faults].
  rewrite lookup_alter_eq, Hentry.
  repeat split; try reflexivity.
  apply validation_same_rate.
Qed.

Lemma validate_has_no_status_guard_witness :
  let w := Sample.rate_changed in
  let w' := App.run (DashboardAdminPrestations.handleValidate "p1" "c1") w in
  App.statut_validation <$> App.prestations w !! "p1" = Some "valide"
  /\ App.tarif_horaire_utilise <$> App.prestations w' !! "p1"
     = Some (Some 60%Q).
Proof.
  intros w w'.
  assert (Hp : App.prestations w !! "p1"
               = Some (App.apply_prestation_update
                         (DashboardAdminPrestations.validation 50%Q)
                         Sample.entry))
    by (vm_compute; reflexivity).
  destruct (validate_has_no_status_guard w "p1" _ (Sample.client (Some 60%Q))
              60%Q Hp eq_refl eq_refl eq_refl eq_refl) as (H1 & _).
  split.
  - now rewrite Hp.
  - change (App.tarif_horaire_utilise <$> App.prestations w' !! "p1"
            = Some (Some 60%Q)).
    unfold w'. cbn in H1. rewrite H1. reflexivity.
Defined.

(** C1 fails as stated: [p1] is validated at the rate 50, the rate of its
    client becomes 60, and a second validation is answered with the note of
    success and leaves 60 in the entry. *)
Lemma second_validation_rereads_rate :
  let w3 :=
    App.run (DashboardAdminPrestations.handleValidate "p1" "c1")
      Sample.rate_changed in
  App.tarif_horaire_utilise <$> App.prestations Sample.validated !! "p1"
    = Some (Some 50%Q)
  /\ App.statut_validation <$> App.prestations Sample.rate_changed !! "p1"
    = Some "valide"
  /\ App.toasts w3 =
     (App.toasts Sample.rate_changed
      ++ [App.ToastSuccess "Prestation p1... validée."])%list
  /\ App.tarif_horaire_utilise <$> App.prestations w3 !! "p1"
    = Some (Some 60%Q)
  /\ App.tarif_horaire_utilise <$> App.prestations w3 !! "p1"
     <> App.tarif_horaire_utilise <$> App.prestations Sample.validated !! "p1".
Proof.
  vm_compute. repeat split; try reflexivity. discriminate.
Qed.

(** C6, as the code has it: saving an amendment reads no status.  On any
    stored entry, with a date and a client in the form and the service
    answering, it succeeds and overwrites date, times, computed hours
    (always recomputed from the two times of the form), client, project and
    address; the status and the copied rate are never written. *)
Theorem amend_has_no_status_guard
    (w : App.World) (editing : DashboardAdminPrestations.PrestationPending)
    (form : DashboardAdminPrestations.Form) (p : App.Prestation)
    (d : Js.Date) (cid : string)
    (Hentry : App.prestations w !! DashboardAdminPrestations.id editing = Some p)
    (Hdate : DashboardAdminPrestations.modifiedDate form = Some d)
    (Hclient : DashboardAdminPrestations.modifiedClientId form = Some cid)
    (Hcid : Js.truthy cid = true)
    (Hanswer : hd None (App.faults w) = None) :
  let w' :=
    App.run (DashboardAdminPrestations.handleSaveChanges (Some editing) form) w in
  exists p',
    App.prestations w' !! DashboardAdminPrestations.id editing = Some p'
    /\ App.date_prestation p' = DateFns.format_yyyy_MM_dd d
    /\ App.heure_debut p' = DashboardAdminPrestations.modifiedHeureDebut form
    /\ App.heure_fin p' = DashboardAdminPrestations.modifiedHeureFin form
    /\ App.heures_calculees p'
       = DashboardAdminPrestations.heuresCalculeesFinal form
    /\ App.client_id p' = cid
    /\ App.project_id p' =
       match DashboardAdminPrestations.modifiedProjectId form with
       | Js.Undefined => App.project_id p
       | Js.Null => None
       | Js.Val project => Some project
       end
    /\ App.adresse p' = DashboardAdminPrestations.modifiedAdresse form
    /\ App.user_id p' = App.user_id p
    /\ App.statut_validation p' = App.statut_validation p
    /\ App.tarif_horaire_utilise p' = App.tarif_horaire_utilise p
    /\ App.toasts w' =
       (App.toasts w
        ++ Outcome.warning_of form
             "Les heures de début et de fin ne permettent pas de calculer une durée valide."
        ++ [App.ToastSuccess "Prestation modifiée avec succès."]
        ++ Outcome.reload_note (hd None (tl (App.faults w))))%list.
Proof.
  intros w'.
  destruct (handleSaveChanges_saved w editing form d cid Hdate Hclient Hcid
              Hanswer) as (Hp & _ & Ht).
  fold w' in Hp, Ht.
  exists (App.apply_prestation_update
            (DashboardAdminPrestations.cleanedUpdateData form) p).
  rewrite Hp, lookup_alter_eq, Hentry.
  pose proof (cleaned_row form d cid p Hdate Hclient) as H. cbn zeta in H.
  repeat (split; [tauto|]). exact Ht.
Qed.

Lemma amend_has_no_status_guard_witness :
  let w' :=
    App.run (DashboardAdminPrestations.handleSaveChanges (Some Sample.editing)
               (Sample.form "10:00" "12:30")) Sample.validated in
  exists p',
    App.prestations w' !! "p1" = Some p'
    /\ App.heures_calculees p' = (5 # 2)%Q
    /\ App.statut_validation p' = "valide"
    /\ App.tarif_horaire_utilise p' = Some 50%Q.
Proof.
  intros w'.
  assert (Hp : App.prestations Sample.validated !! "p1"
               = Some (App.apply_prestation_update
                         (DashboardAdminPrestations.validation 50%Q)
                         Sample.entry))
    by (vm_compute; reflexivity).
  destruct (amend_has_no_status_guard Sample.validated Sample.editing
              (Sample.form "10:00" "12:30") _
              {| Js.epoch_day := 19846; Js.ms_of_day := 0 |} "c1"
              Hp eq_refl eq_refl eq_refl eq_refl)
    as (p' & H1 & _ & _ & _ & H5 & _ & _ & _ & _ & H10 & H11 & _).
  exists p'. split; [exact H1|]. split; [|split].
  - rewrite H5. vm_compute. reflexivity.
  - rewrite H10. reflexivity.
  - rewrite H11. reflexivity.
Defined.

(** C6 fails as stated: the amendment of [p1], already validated at the
    rate 50, is answered with the note of success and changes the entry. *)
Lemma amend_of_validated_entry_succeeds :
  let w' :=
    App.run (DashboardAdminPrestations.handleSaveChanges (Some Sample.editing)
               (Sample.form "10:00" "12:30")) Sample.validated in
  App.statut_validation <$> App.prestations Sample.validated !! "p1"
    = Some "valide"
  /\ App.toasts w' =
     (App.toasts Sample.validated
      ++ [App.ToastSuccess "Prestation modifiée avec succès."])%list
  /\ App.prestations w' !! "p1" =
     Some {| App.user_id := "u1"; App.client_id := "c1";
             App.project_id := Some "pr1";
             App.date_prestation := "2024-05-03";
             App.heure_debut := "10:00"; App.heure_fin := "12:30";
             App.heures_calculees := (5 # 2)%Q;
             App.adresse := "Rue Basse 2";
             App.statut_validation := "valide";
             App.tarif_horaire_utilise := Some 50%Q |}
  /\ App.prestations w' !! "p1" <> App.prestations Sample.validated !! "p1".
Proof.
  vm_compute. repeat split; try reflexivity. discriminate.
Qed.

(** C7: when the save of [handleSaveAndValidate] goes through and its
    validation then ends on an error, the entry keeps the amended date,
    times, computed hours, client, project and address, its status is
    still en_attente and no rate is copied into it. *)
Theorem save_and_validate_keeps_amendment
    (w : App.World) (editing : DashboardAdminPrestations.PrestationPending)
    (form : DashboardAdminPrestations.Form) (p : App.Prestation)
    (d : Js.Date) (cid : string)
    (Hentry : App.prestations w !! DashboardAdminPrestations.id editing = Some p)
    (Hpending : App.statut_validation p = "en_attente")
    (Hunset : App.tarif_horaire_utilise p = None)
    (Hdate : DashboardAdminPrestations.modifiedDate form = Some d)
    (Hclient : DashboardAdminPrestations.modifiedClientId form = Some cid)
    (Hcid : Js.truthy cid = true)
    (Hsave : hd None (App.faults w) = None)
    (Hfail : Outcome.validation_fails (App.clients w) cid (tl (App.faults w))) :
  let w' :=
    App.run (DashboardAdminPrestations.handleSaveAndValidate (Some editing) form)
      w in
  exists p',
    App.prestations w' !! DashboardAdminPrestations.id editing = Some p'
    /\ App.date_prestation p' = DateFns.format_yyyy_MM_dd d
    /\ App.heure_debut p' = DashboardAdminPrestations.modifiedHeureDebut form
    /\ App.heure_fin p' = DashboardAdminPrestations.modifiedHeureFin form
    /\ App.heures_calculees p'
       = DashboardAdminPrestations.heuresCalculeesFinal form
    /\ App.client_id p' = cid
    /\ App.project_id p' =
       match DashboardAdminPrestations.modifiedProjectId form with
       | Js.Undefined => App.project_id p
       | Js.Null => None
       | Js.Val project => Some project
       end
    /\ App.adresse p' = DashboardAdminPrestations.modifiedAdresse form
    /\ App.statut_validation p' = "en_attente"
    /\ App.tarif_horaire_utilise p' = None.
Proof.
  intros w'.
  destruct (handleSaveAndValidate_saved w editing form d cid Hdate Hclient Hcid
              Hsave) as (_ & _ & Hp & _).
  specialize (Hp Hfail). fold w' in Hp.
  exists (App.apply_prestation_update
            (DashboardAdminPrestations.cleanedUpdateData form) p).
  rewrite Hp, lookup_alter_eq, Hentry.
  pose proof (cleaned_row form d cid p Hdate Hclient) as H. cbn zeta in H.
  rewrite Hpending, Hunset in H.
  repeat (split; [tauto|]). tauto.
Qed.

Lemma save_and_validate_keeps_amendment_witness :
  let w' :=
    App.run (DashboardAdminPrestations.handleSaveAndValidate
               (Some Sample.editing) (Sample.form "10:00" "12:30"))
      (Sample.world None) in
  exists p',
    App.prestations w' !! "p1" = Some p'
    /\ App.heure_debut p' = "10:00"
    /\ App.statut_validation p' = "en_attente"
    /\ App.tarif_horaire_utilise p' = None.
Proof.
  intros w'.
  destruct (save_and_validate_keeps_amendment (Sample.world None)
              Sample.editing (Sample.form "10:00" "12:30") Sample.entry
              {| Js.epoch_day := 19846; Js.ms_of_day := 0 |} "c1"
              eq_refl eq_refl eq_refl eq_refl eq_refl eq_refl eq_refl I)
    as (p' & H1 & _ & H3 & _ & _ & _ & _ & _ & H9 & H10).
  exists p'. repeat split; assumption.
Defined.

(** C9: when the two times of the form do not parse to an end after the
    start (an overnight span and equal times included), both save handlers
    still write the entry, with 0 computed hours, and show a warning, not
    an error: [handleSaveChanges] then reports success, and
    [handleSaveAndValidate] reports the modifications as recorded. *)
Theorem amend_without_positive_duration_saves_zero
    (w : App.World) (editing : DashboardAdminPrestations.PrestationPending)
    (form : DashboardAdminPrestations.Form) (p : App.Prestation)
    (d : Js.Date) (cid : string)
    (Hentry : App.prestations w !! DashboardAdminPrestations.id editing = Some p)
    (Hdate : DashboardAdminPrestations.modifiedDate form = Some d)
    (Hclient : DashboardAdminPrestations.modifiedClientId form = Some cid)
    (Hcid : Js.truthy cid = true)
    (Hanswer : hd None (App.faults w) = None)
    (Htimes : forall start end_,
        DashboardAdminPrestations.parseTime
          (DashboardAdminPrestations.modifiedHeureDebut form) = Some start ->
        DashboardAdminPrestations.parseTime
          (DashboardAdminPrestations.modifiedHeureFin form) = Some end_ ->
        Js.gt end_ start = false) :
  (let w' :=
     App.run (DashboardAdminPrestations.handleSaveChanges (Some editing) form) w in
   exists p',
     App.prestations w' !! DashboardAdminPrestations.id editing = Some p'
     /\ App.heures_calculees p' = 0%Q
     /\ App.toasts w' =
        (App.toasts w
         ++ [App.ToastWarning
               "Les heures de début et de fin ne permettent pas de calculer une durée valide.";
             App.ToastSuccess "Prestation modifiée avec succès."]
         ++ Outcome.reload_note (hd None (tl (App.faults w))))%list)
  /\ (let w' :=
        App.run
          (DashboardAdminPrestations.handleSaveAndValidate (Some editing) form)
          w in
      exists p' rest,
        App.prestations w' !! DashboardAdminPrestations.id editing = Some p'
        /\ App.heures_calculees p' = 0%Q
        /\ App.toasts w' =
           (App.toasts w
            ++ [App.ToastWarning "Durée invalide, heures calculées mises à 0.";
                App.ToastInfo "Modifications enregistrées."]
            ++ rest)%list).
Proof.
  pose proof (zero_hours form Htimes) as Hz.
  pose proof (cleaned_row form d cid p Hdate Hclient) as Hrow. cbn zeta in Hrow.
  destruct Hrow as (_ & _ & _ & Hh & _).
  assert (Hw : forall m, Outcome.warning_of form m = [App.ToastWarning m]).
  { intros m. unfold Outcome.warning_of. now rewrite Hz. }
  split.
  - intros w'.
    destruct (handleSaveChanges_saved w editing form d cid Hdate Hclient Hcid
                Hanswer) as (Hp & _ & Ht).
    fold w' in Hp, Ht.
    exists (App.apply_prestation_update
              (DashboardAdminPrestations.cleanedUpdateData form) p).
    rewrite Hp, lookup_alter_eq, Hentry. split; [reflexivity|].
    split; [now rewrite Hh|].
    rewrite Ht, Hw. reflexivity.
  - intros w'.
    destruct (handleSaveAndValidate_saved w editing form d cid Hdate Hclient
                Hcid Hanswer) as (_ & (rest & Ht) & Hfail & Hok).
    fold w' in Ht, Hfail, Hok.
    assert (Hdec : Outcome.validation_fails (App.clients w) cid
                     (tl (App.faults w))
                   \/ ~ Outcome.validation_fails (App.clients w) cid
                          (tl (App.faults w))).
    { unfold Outcome.validation_fails.
      destruct (hd None (tl (App.faults w))); [now left|].
      destruct (App.clients w !! cid) as [c|]; [|now left].
      destruct (App.tarif_horaire c); [|now left].
      destruct (hd None (tl (tl (App.faults w)))); [now left|right; tauto]. }
    destruct Hdec as [Hd|Hd].
    + exists (App.apply_prestation_update
                (DashboardAdminPrestations.cleanedUpdateData form) p), rest.
      rewrite (Hfail Hd), lookup_alter_eq, Hentry. split; [reflexivity|].
      split; [now rewrite Hh|].
      rewrite Ht, Hw. reflexivity.
    + destruct (Hok Hd) as (t & Hp).
      exists (App.apply_prestation_update
                (DashboardAdminPrestations.validation t)
                (App.apply_prestation_update
                   (DashboardAdminPrestations.cleanedUpdateData form) p)), rest.
      rewrite Hp, !lookup_alter_eq, Hentry. split; [reflexivity|].
      split; [cbn; exact Hz|].
      rewrite Ht, Hw. reflexivity.
Qed.

Lemma amend_without_positive_duration_saves_zero_witness :
  let w' :=
    App.run (DashboardAdminPrestations.handleSaveChanges (Some Sample.editing)
               (Sample.form "22:00" "02:00")) (Sample.world (Some 50%Q)) in
  exists p',
    App.prestations w' !! "p1" = Some p'
    /\ App.heures_calculees p' = 0%Q
    /\ App.toasts w' =
       [App.ToastWarning
          "Les heures de début et de fin ne permettent pas de calculer une durée valide.";
        App.ToastSuccess "Prestation modifiée avec succès."].
Proof.
  intros w'.
  assert (Htimes : forall start end_,
             DashboardAdminPrestations.parseTime "22:00" = Some start ->
             DashboardAdminPrestations.parseTime "02:00" = Some end_ ->
             Js.gt end_ start = false).
  { intros s e Hs He. vm_compute in Hs, He.
    injection Hs as <-. injection He as <-. reflexivity. }
  destruct (amend_without_positive_duration_saves_zero
              (Sample.world (Some 50%Q)) Sample.editing
              (Sample.form "22:00" "02:00") Sample.entry
              {| Js.epoch_day := 19846; Js.ms_of_day := 0 |} "c1"
              eq_refl eq_refl eq_refl eq_refl eq_refl Htimes)
    as ((p' & H1 & H2 & H3) & _).
  exists p'. repeat split; assumption.
Defined.

(** C2: editing a client, on either page that writes the [clients] table,
    leaves the [prestations] table as it is, so no rate copied into an
    entry changes: [p1], validated at the rate 50, still reads 50 after
    the rate of its client has become 60. *)
Theorem client_update_keeps_snapshots
    (w : App.World) (editingClient : option string)
    (formData : AdminGestionClients.FormData)
    (editClientData : ProjectManagement.ClientFormData) :
  App.prestations
    (App.run (AdminGestionClients.handleUpdateClient editingClient formData) w)
  = App.prestations w
  /\ App.prestations
       (App.run (ProjectManagement.handleEditClientSubmit editingClient
                   editClientData) w)
     = App.prestations w
  /\ (App.tarif_horaire_utilise <$> App.prestations Sample.validated !! "p1"
        = Some (Some 50%Q)
      /\ App.tarif_horaire <$> App.clients Sample.rate_changed !! "c1"
        = Some (Some 60%Q)
      /\ App.tarif_horaire_utilise <$> App.prestations Sample.rate_changed !! "p1"
        = Some (Some 50%Q)).
Proof.
  split; [|split].
  - unfold App.run, AdminGestionClients.handleUpdateClient,
      AdminGestionClients.fetchClients, App.try_catch, App.bind,
      App.update_clients, App.bind, App.request.
    destruct editingClient as [cid|]; [|reflexivity].
    destruct (AdminGestionClients.nom formData) as [n|]; [|reflexivity].
    destruct (Js.truthy n && Js.truthy (Js.trim n)); [|reflexivity].
    destruct (hd None (App.faults w)); cbn; [reflexivity|].
    destruct (hd None (tl (App.faults w))); reflexivity.
  - unfold App.run, ProjectManagement.handleEditClientSubmit,
      ProjectManagement.fetchClients, App.try_catch, App.bind,
      App.update_clients, App.bind, App.request.
    destruct editingClient as [cid|]; [|reflexivity].
    destruct (Js.truthy (ProjectManagement.nom editClientData)); [|reflexivity].
    destruct (ProjectManagement.tarif_horaire editClientData); [|reflexivity].
    destruct (hd None (App.faults w)); cbn; [reflexivity|].
    destruct (hd None (tl (App.faults w))); reflexivity.
  - vm_compute. repeat split; reflexivity.
Qed.

(** ** The monthly invoice run *)

Section InvoiceFacts.
Import InvoiceBatchGenerator.

Variable render_and_upload : Invoice -> option string.
Variables m y : Z.

Local Abbreviation process := (process_client render_and_upload m y).

Lemma marked_refl (l : list WorkEntry) : marked l l.
Proof. induction l; constructor; auto. Qed.

Lemma marked_map (l l' : list WorkEntry) (f : WorkEntry -> bool) :
  marked l l' ->
  marked l (map (fun e => if f e then mark_invoiced e else e) l').
Proof.
  induction 1 as [|e e' l l' He _ IH]; cbn; constructor; [|exact IH].
  destruct (f e'); [|exact He].
  right. destruct He as [->| ->]; reflexivity.
Qed.

Lemma marked_In (l l' : list WorkEntry) (e' : WorkEntry) :
  marked l l' -> In e' l' ->
  exists e, In e l /\ (e' = e \/ e' = mark_invoiced e).
Proof.
  induction 1 as [|e0 e0' l l' He _ IH]; cbn; [tauto|].
  intros [<-|Hin].
  - exists e0. auto.
  - destruct (IH Hin) as (e & H1 & H2). exists e. auto.
Qed.

Lemma eligible_mark (m' y' : Z) (e : WorkEntry) :
  eligible m' y' (mark_invoiced e) = false.
Proof.
  unfold eligible. cbn. now rewrite andb_false_r.
Qed.

Lemma marked_eligible (l l' : list WorkEntry) (m' y' : Z) (e' : WorkEntry) :
  marked l l' -> In e' l' -> eligible m' y' e' = true -> In e' l.
Proof.
  intros Hm Hin He. destruct (marked_In l l' e' Hm Hin) as (e & H1 & [->| ->]).
  - exact H1.
  - now rewrite eligible_mark in He.
Qed.

Lemma has_invoice_app (c : string) (l l' : list Invoice) :
  has_invoice c m y (l ++ l') = has_invoice c m y l || has_invoice c m y l'.
Proof. apply existsb_app. Qed.

Lemma has_invoice_false (c : string) (l : list Invoice) :
  has_invoice c m y l = false -> ~ In (c, m, y) (map invoice_key l).
Proof.
  intros H Hin. apply in_map_iff in Hin as (i & Hk & Hi).
  assert (E : has_invoice c m y l = true).
  { apply existsb_exists. exists i. split; [exact Hi|].
    unfold invoice_key in Hk. injection Hk as -> -> ->.
    now rewrite String.eqb_refl, !Z.eqb_refl. }
  congruence.
Qed.

(** One client. *)
Lemma process_has_invoice (sel : list WorkEntry) (acc : Store * list Outcome)
    (c : string) :
  has_invoice c m y (invoices (process sel acc c).1) = true.
Proof.
  destruct acc as [st outs]. unfold process_client.
  destruct (has_invoice c m y (invoices st)) eqn:E; cbn [fst invoices];
    [exact E|].
  rewrite has_invoice_app. cbn.
  now rewrite String.eqb_refl, !Z.eqb_refl, orb_true_r.
Qed.

Lemma process_keeps_invoice (sel : list WorkEntry)
    (acc : Store * list Outcome) (c c' : string) :
  has_invoice c' m y (invoices acc.1) = true ->
  has_invoice c' m y (invoices (process sel acc c).1) = true.
Proof.
  destruct acc as [st outs]. unfold process_client. cbn [fst]. intros H.
  destruct (has_invoice c m y (invoices st)); cbn [fst invoices]; [exact H|].
  rewrite has_invoice_app, H. reflexivity.
Qed.

Lemma process_skips (sel : list WorkEntry) (acc : Store * list Outcome)
    (c : string) :
  has_invoice c m y (invoices acc.1) = true -> process sel acc c = acc.
Proof.
  destruct acc as [st outs]. unfold process_client. cbn [fst]. now intros ->.
Qed.

Lemma process_marked (sel l : list WorkEntry) (acc : Store * list Outcome)
    (c : string) :
  marked l (entries acc.1) -> marked l (entries (process sel acc c).1).
Proof.
  destruct acc as [st outs]. unfold process_client. cbn [fst]. intros H.
  destruct (has_invoice c m y (invoices st)); cbn [fst entries]; [exact H|].
  now apply marked_map.
Qed.

Lemma NoDup_snoc {A : Type} (l : list A) (x : A) :
  List.NoDup l -> ~ In x l -> List.NoDup (l ++ [x]).
Proof.
  induction l as [|k l IH]; cbn; intros Hnd Hnot.
  - constructor; [tauto|constructor].
  - inversion Hnd as [|? ? Hk Hrest]; subst.
    constructor.
    + rewrite in_app_iff. cbn. intros [Hin|[Heq|[]]]; [tauto|].
      apply Hnot. now left.
    + apply IH; [exact Hrest|tauto].
Qed.

Lemma process_unique (sel : list WorkEntry) (acc : Store * list Outcome)
    (c : string) :
  unique_invoices acc.1 -> unique_invoices (process sel acc c).1.
Proof.
  destruct acc as [st outs]. unfold process_client, unique_invoices.
  cbn [fst]. intros H.
  destruct (has_invoice c m y (invoices st)) eqn:E; cbn [fst invoices];
    [exact H|].
  rewrite map_app.
  cbn [map invoice_key invoice_client invoice_month invoice_year].
  apply NoDup_snoc; [exact H|now apply has_invoice_false].
Qed.

Lemma process_distinct (sel : list WorkEntry) (acc : Store * list Outcome)
    (c : string) :
  distinct_clients m y acc -> distinct_clients m y (process sel acc c).
Proof.
  destruct acc as [st outs]. unfold distinct_clients, process_client.
  cbn [fst snd]. intros [Hnd Hinv].
  destruct (has_invoice c m y (invoices st)) eqn:E;
    cbn [fst snd invoices]; [auto|].
  split.
  - rewrite map_app. cbn [map outcome_client]. apply NoDup_snoc; [exact Hnd|].
    intros Hin. apply in_map_iff in Hin as (o & Ho & Hin).
    specialize (Hinv o Hin). rewrite Ho in Hinv. congruence.
  - intros o Ho. rewrite has_invoice_app.
    apply in_app_iff in Ho as [Ho|[<-|[]]].
    + now rewrite (Hinv o Ho).
    + cbn. now rewrite String.eqb_refl, !Z.eqb_refl, orb_true_r.
Qed.

(** The whole list of clients. *)
Lemma fold_keeps_invoice (sel : list WorkEntry) (cs : list string)
    (acc : Store * list Outcome) (c' : string) :
  has_invoice c' m y (invoices acc.1) = true ->
  has_invoice c' m y (invoices (fold_left (process sel) cs acc).1) = true.
Proof.
  revert acc. induction cs as [|c cs IH]; intros acc H; cbn; [exact H|].
  apply IH. now apply process_keeps_invoice.
Qed.

Lemma fold_has_invoice (sel : list WorkEntry) (cs : list string)
    (acc : Store * list Outcome) (c : string) :
  In c cs ->
  has_invoice c m y (invoices (fold_left (process sel) cs acc).1) = true.
Proof.
  revert acc. induction cs as [|c0 cs IH]; intros acc; cbn; [tauto|].
  intros [->|Hin].
  - apply fold_keeps_invoice, process_has_invoice.
  - now apply IH.
Qed.

Lemma fold_skips (sel : list WorkEntry) (cs : list string)
    (acc : Store * list Outcome) :
  (forall c, In c cs -> has_invoice c m y (invoices acc.1) = true) ->
  fold_left (process sel) cs acc = acc.
Proof.
  induction cs as [|c cs IH]; intros H; cbn; [reflexivity|].
  rewrite process_skips by (apply H; now left).
  apply IH. intros c' Hc'. apply H. now right.
Qed.

Lemma fold_marked (sel l : list WorkEntry) (cs : list string)
    (acc : Store * list Outcome) :
  marked l (entries acc.1) ->
  marked l (entries (fold_left (process sel) cs acc).1).
Proof.
  revert acc. induction cs as [|c cs IH]; intros acc H; cbn; [exact H|].
  apply IH. now apply process_marked.
Qed.

Lemma fold_distinct (sel : list WorkEntry) (cs : list string)
    (acc : Store * list Outcome) :
  distinct_clients m y acc ->
  distinct_clients m y (fold_left (process sel) cs acc).
Proof.
  revert acc. induction cs as [|c cs IH]; intros acc H; cbn; [exact H|].
  apply IH. now apply process_distinct.
Qed.

Lemma fold_unique (sel : list WorkEntry) (cs : list string)
    (acc : Store * list Outcome) :
  unique_invoices acc.1 ->
  unique_invoices (fold_left (process sel) cs acc).1.
Proof.
  revert acc. induction cs as [|c cs IH]; intros acc H; cbn; [exact H|].
  apply IH. now apply process_unique.
Qed.

Lemma clients_of_In (seen : list string) (l : list WorkEntry) (e : WorkEntry) :
  In e l -> In (client_id e) seen \/ In (client_id e) (clients_of seen l).
Proof.
  revert seen. induction l as [|e0 l IH]; intros seen; cbn; [tauto|].
  intros [->|Hin].
  - destruct (existsb (String.eqb (client_id e)) seen) eqn:E.
    + left. apply existsb_exists in E as (x & Hx & Heq).
      apply String.eqb_eq in Heq. now subst.
    + right. now left.
  - destruct (existsb (String.eqb (client_id e0)) seen) eqn:E.
    + now apply IH.
    + destruct (IH (client_id e0 :: seen) Hin) as [[Heq|H]|H].
      * right. left. exact Heq.
      * now left.
      * right. now right.
Qed.

Lemma clients_of_inv (seen : list string) (l : list WorkEntry) (c : string) :
  In c (clients_of seen l) -> exists e, In e l /\ client_id e = c.
Proof.
  revert seen. induction l as [|e0 l IH]; intros seen; cbn; [tauto|].
  destruct (existsb (String.eqb (client_id e0)) seen).
  - intros H. destruct (IH _ H) as (e & H1 & H2). exists e. auto.
  - intros [<-|H].
    + exists e0. auto.
    + destruct (IH _ H) as (e & H1 & H2). exists e. auto.
Qed.

(** A second run for the same period does nothing. *)
Lemma second_run_idle (st : Store) :
  let st1 := (GenerateForPeriod render_and_upload m y st).1 in
  GenerateForPeriod render_and_upload m y st1 = (st1, []).
Proof.
  intros st1. unfold GenerateForPeriod at 1.
  apply fold_skips. cbn [fst]. intros c Hc.
  apply clients_of_inv in Hc as (e & He & <-).
  apply filter_In in He as [Hin Hel].
  unfold st1, GenerateForPeriod.
  apply fold_has_invoice.
  assert (Hm : marked (entries st) (entries st1)).
  { unfold st1, GenerateForPeriod. apply fold_marked, marked_refl. }
  pose proof (marked_eligible _ _ m y e Hm Hin Hel) as Hin0.
  destruct (clients_of_In [] (List.filter (eligible m y) (entries st)) e)
    as [[]|H]; [|exact H].
  apply filter_In. auto.
Qed.

Lemma mark_fields (e : WorkEntry) :
  client_id (mark_invoiced e) = client_id e
  /\ status (mark_invoiced e) = status e
  /\ month (mark_invoiced e) = month e
  /\ year (mark_invoiced e) = year e
  /\ invoiced (mark_invoiced e) = true.
Proof. cbn. auto. Qed.

Lemma process_settled (st0 : Store) (acc : Store * list Outcome) (c : string) :
  marked (entries st0) (entries acc.1) ->
  settled m y acc ->
  settled m y (process (List.filter (eligible m y) (entries st0)) acc c).
Proof.
  destruct acc as [st outs]. unfold settled, process_client. cbn [fst snd].
  intros Hm Hs.
  destruct (has_invoice c m y (invoices st)); cbn [fst snd entries];
    [exact Hs|].
  intros o e' Ho He' Hc Hst Hmo Hy.
  apply in_map_iff in He' as (e & <- & He).
  set (group := List.filter (fun e0 => (client_id e0 =? c)%string)
                  (List.filter (eligible m y) (entries st0))) in *.
  destruct (in_group group e) eqn:Eg; [reflexivity|].
  apply in_app_iff in Ho as [Ho|[<-|[]]].
  - now apply (Hs o e).
  - cbn in Hc.
    destruct (marked_In _ _ e Hm He) as (e0 & Hin0 & [->| ->]);
      [|reflexivity].
    destruct (invoiced e0) eqn:Ei; [reflexivity|].
    assert (Hin : In e0 group).
    { unfold group. apply filter_In. split.
      - apply filter_In. split; [exact Hin0|].
        unfold eligible. rewrite Hst, Ei, Hmo, Hy, !Z.eqb_refl. reflexivity.
      - rewrite Hc. apply String.eqb_refl. }
    assert (E : in_group group e0 = true).
    { unfold in_group. apply existsb_exists. exists e0.
      split; [exact Hin|apply String.eqb_refl]. }
    congruence.
Qed.

Lemma fold_settled (st0 : Store) (cs : list string)
    (acc : Store * list Outcome) :
  marked (entries st0) (entries acc.1) ->
  settled m y acc ->
  settled m y (fold_left (process (List.filter (eligible m y) (entries st0)))
             cs acc).
Proof.
  revert acc. induction cs as [|c cs IH]; intros acc Hm Hs; cbn; [exact Hs|].
  apply IH; [now apply process_marked|now apply process_settled].
Qed.

Lemma run_settled (st : Store) :
  settled m y (GenerateForPeriod render_and_upload m y st).
Proof.
  unfold GenerateForPeriod. apply fold_settled; [apply marked_refl|].
  intros o e [].
Qed.
End InvoiceFacts.


Section InvoiceTotalFacts.
Import InvoiceBatchGenerator.

Variable render_and_upload : Invoice -> option string.
Variables m y : Z.

Lemma process_totals (sel : list WorkEntry) (before : list Invoice)
    (acc : Store * list Outcome) (c : string) :
  InvoiceTotals.totals_of_groups m y sel before acc ->
  InvoiceTotals.totals_of_groups m y sel before (process_client render_and_upload m y sel acc c).
Proof.
  destruct acc as [st outs]. unfold InvoiceTotals.totals_of_groups, process_client.
  cbn [fst snd]. intros [Ht Hi].
  destruct (has_invoice c m y (invoices st)); cbn [fst snd invoices];
    [auto|].
  split.
  - intros o Ho. apply in_app_iff in Ho as [Ho|[<-|[]]]; [auto|reflexivity].
  - rewrite Hi, map_app, <- app_assoc. reflexivity.
Qed.

Lemma fold_totals (sel : list WorkEntry) (before : list Invoice)
    (cs : list string) (acc : Store * list Outcome) :
  InvoiceTotals.totals_of_groups m y sel before acc ->
  InvoiceTotals.totals_of_groups m y sel before
    (fold_left (process_client render_and_upload m y sel) cs acc).
Proof.
  revert acc. induction cs as [|c cs IH]; intros acc H; cbn; [exact H|].
  apply IH. now apply process_totals.
Qed.

Lemma run_totals (st : Store) :
  InvoiceTotals.totals_of_groups m y
    (List.filter (eligible m y) (entries st)) (invoices st)
    (GenerateForPeriod render_and_upload m y st).
Proof.
  unfold GenerateForPeriod. apply fold_totals.
  split; [intros o []|]. cbn. now rewrite app_nil_r.
Qed.

Lemma NoDup_map_eq {A B : Type} (f : A -> B) (l : list A) (a b : A) :
  List.NoDup (map f l) -> In a l -> In b l -> f a = f b -> a = b.
Proof.
  induction l as [|x l IH]; cbn; [tauto|].
  intros Hnd Ha Hb E. inversion Hnd as [|? ? Hx Hrest]; subst.
  destruct Ha as [->|Ha], Hb as [->|Hb].
  - reflexivity.
  - exfalso. apply Hx. rewrite E. now apply in_map.
  - exfalso. apply Hx. rewrite <- E. now apply in_map.
  - now apply IH.
Qed.

Lemma group_client (entries : list WorkEntry) (c : string) (e : WorkEntry) :
  In e (InvoiceTotals.group m y entries c) ->
  client_id e = c /\ eligible m y e = true /\ In e entries.
Proof.
  unfold InvoiceTotals.group. intros H.
  apply filter_In in H as [H Hc]. apply filter_In in H as [H He].
  apply String.eqb_eq in Hc. auto.
Qed.

End InvoiceTotalFacts.

(** C3: a run keeps at most one invoice for a client and a period and
    reports each client at most once; a second run for the same period
    returns no outcome (no invoice, no amount) and leaves both stores as
    the first run left them; after a run every validated entry of the
    period whose client got an invoice is marked as invoiced, which bars
    it from every later selection.  The invoices a run adds are those of
    its outcomes; the total of each is the sum over the group of its
    client, the entries of that client that were validated, not yet
    invoiced and in the period when the run began; and an entry is
    summed in the total of one outcome at most: no entry is counted in
    two totals. *)
Theorem invoice_run_never_bills_twice
    (render_and_upload : InvoiceBatchGenerator.Invoice -> option string)
    (m y : Z) (st : InvoiceBatchGenerator.Store)
    (Hunique : InvoiceBatchGenerator.unique_invoices st) :
  let first := InvoiceBatchGenerator.GenerateForPeriod render_and_upload m y st in
  let second :=
    InvoiceBatchGenerator.GenerateForPeriod render_and_upload m y first.1 in
  InvoiceBatchGenerator.unique_invoices first.1
  /\ List.NoDup (map InvoiceBatchGenerator.outcome_client first.2)
  /\ second = (first.1, [])
  /\ (forall o e,
        In o first.2 -> In e (InvoiceBatchGenerator.entries first.1) ->
        InvoiceBatchGenerator.client_id e
          = InvoiceBatchGenerator.outcome_client o ->
        InvoiceBatchGenerator.status e = InvoiceBatchGenerator.Validated ->
        InvoiceBatchGenerator.month e = m ->
        InvoiceBatchGenerator.year e = y ->
        InvoiceBatchGenerator.invoiced e = true)
  /\ (forall e m' y',
        InvoiceBatchGenerator.invoiced e = true ->
        InvoiceBatchGenerator.eligible m' y' e = false)
  /\ InvoiceBatchGenerator.invoices first.1
     = (InvoiceBatchGenerator.invoices st
        ++ map (InvoiceTotals.invoice_of m y) first.2)%list
  /\ (forall o,
        In o first.2 ->
        InvoiceBatchGenerator.outcome_total o
        = InvoiceBatchGenerator.total
            (InvoiceTotals.group m y (InvoiceBatchGenerator.entries st)
               (InvoiceBatchGenerator.outcome_client o)))
  /\ (forall e o,
        InvoiceTotals.counted_in m y (InvoiceBatchGenerator.entries st) e o ->
        In e (InvoiceBatchGenerator.entries st)
        /\ InvoiceBatchGenerator.client_id e
           = InvoiceBatchGenerator.outcome_client o
        /\ InvoiceBatchGenerator.status e = InvoiceBatchGenerator.Validated
        /\ InvoiceBatchGenerator.invoiced e = false
        /\ InvoiceBatchGenerator.month e = m
        /\ InvoiceBatchGenerator.year e = y)
  /\ (forall e o1 o2,
        In o1 first.2 -> In o2 first.2 ->
        InvoiceTotals.counted_in m y (InvoiceBatchGenerator.entries st) e o1 ->
        InvoiceTotals.counted_in m y (InvoiceBatchGenerator.entries st) e o2 ->
        o1 = o2).
Proof.
  intros first second.
  assert (Hdistinct :
            List.NoDup (map InvoiceBatchGenerator.outcome_client first.2)).
  { unfold first, InvoiceBatchGenerator.GenerateForPeriod.
    apply fold_distinct. split; [constructor|intros o []]. }
  destruct (run_totals render_and_upload m y st) as [Htotal Hinvoices].
  fold first in Htotal, Hinvoices.
  split; [|split; [|split; [|split; [|split; [|split; [|split; [|split]]]]]]].
  - unfold first, InvoiceBatchGenerator.GenerateForPeriod.
    now apply fold_unique.
  - exact Hdistinct.
  - apply second_run_idle.
  - apply run_settled.
  - intros e m' y' He. unfold InvoiceBatchGenerator.eligible.
    rewrite He. cbn. now rewrite andb_false_r.
  - exact Hinvoices.
  - intros o Ho. exact (Htotal o Ho).
  - intros e o He.
    destruct (group_client m y _ _ e He) as (Hc & Hel & Hin).
    unfold InvoiceBatchGenerator.eligible in Hel.
    repeat (apply andb_true_iff in Hel as [Hel ?]).
    split; [exact Hin|]. split; [exact Hc|].
    split; [now destruct (InvoiceBatchGenerator.status e)|].
    split; [now destruct (InvoiceBatchGenerator.invoiced e)|].
    split; now apply Z.eqb_eq.
  - intros e o1 o2 H1 H2 He1 He2.
    destruct (group_client m y _ _ e He1) as (Hc1 & _).
    destruct (group_client m y _ _ e He2) as (Hc2 & _).
    apply (NoDup_map_eq InvoiceBatchGenerator.outcome_client first.2);
      [exact Hdistinct|exact H1|exact H2|congruence].
Qed.

Lemma invoice_run_never_bills_twice_witness :
  let first :=
    InvoiceBatchGenerator.GenerateForPeriod Sample.render 5 2024 Sample.store in
  map InvoiceBatchGenerator.outcome_total first.2 = [200%Q; 10%Q]
  /\ InvoiceBatchGenerator.GenerateForPeriod Sample.render 5 2024 first.1
     = (first.1, []).
Proof.
  intros first. split; [vm_compute; reflexivity|].
  assert (Hunique : InvoiceBatchGenerator.unique_invoices Sample.store)
    by constructor.
  exact (proj1 (proj2 (proj2 (invoice_run_never_bills_twice Sample.render
                                5 2024 Sample.store Hunique)))).
Defined.

(** ** The collaborator's entry form *)

Section EntryFormFacts.
Import DashboardCollaborateur.

Lemma digit_char (c : ascii) :
  Js.is_digit c = true ->
  Js.digit_of c = Some (Z.of_nat (nat_of_ascii c) - 48)
  /\ (48 <= nat_of_ascii c <= 57)%nat
  /\ Ascii.eqb c ":" = false.
Proof.
  unfold Js.is_digit, Js.digit_of. cbn zeta.
  destruct ((48 <=? Z.of_nat (nat_of_ascii c))
            && (Z.of_nat (nat_of_ascii c) <=? 57)) eqn:E; [|discriminate].
  intros _. apply andb_true_iff in E as [E1 E2].
  apply Z.leb_le in E1, E2.
  split; [reflexivity|]. split; [lia|].
  destruct (Ascii.eqb_spec c ":") as [->|]; [|reflexivity].
  change (nat_of_ascii ":") with 58%nat in E2. lia.
Qed.

Lemma between_digit (lo hi c : ascii) (n k : nat) :
  nat_of_ascii lo = n -> nat_of_ascii hi = k ->
  between lo hi c = true -> (n <= nat_of_ascii c <= k)%nat.
Proof.
  intros <- <-. unfold between. intros E.
  apply andb_true_iff in E as [E1 E2].
  apply Nat.leb_le in E1, E2. lia.
Qed.

Lemma is_digit_bounds (c : ascii) :
  (48 <= nat_of_ascii c <= 57)%nat -> Js.is_digit c = true.
Proof.
  intros H. unfold Js.is_digit, Js.digit_of. cbn zeta.
  assert (E : (48 <=? Z.of_nat (nat_of_ascii c))
              && (Z.of_nat (nat_of_ascii c) <=? 57) = true).
  { apply andb_true_iff. split; apply Z.leb_le; lia. }
  now rewrite E.
Qed.

Lemma HH_MM_inv (s : string) :
  HH_MM s = true ->
  exists a b c d,
    s = String a (String b (String ":" (String c (String d EmptyString))))
    /\ ((between "0" "1" a && Js.is_digit b)
         || (Ascii.eqb a "2" && between "0" "3" b))
        && between "0" "5" c && Js.is_digit d = true.
Proof.
  destruct s as [|a [|b [|k [|c [|d [|? ?]]]]]]; cbn [HH_MM];
    try discriminate;
    destruct k as [[] [] [] [] [] [] [] []]; try discriminate.
  intros H. exists a, b, c, d. split; [reflexivity|exact H].
Qed.

(** A time that matches the pattern reads as an hour below 24 and a
    minute below 60. *)
Lemma HH_MM_hour_minute (s : string) :
  HH_MM s = true ->
  exists h m, hour_minute s = (Some h, Some m) /\ 0 <= h < 24 /\ 0 <= m < 60.
Proof.
  intros H0. destruct (HH_MM_inv s H0) as (a & b & c & d & -> & H).
  clear H0.
  apply andb_true_iff in H as [H Hd].
  apply andb_true_iff in H as [H Hc].
  apply (between_digit "0" "5" c 48 53 eq_refl eq_refl) in Hc.
  assert (Hcd : Js.is_digit c = true) by (apply is_digit_bounds; lia).
  destruct (digit_char c Hcd) as (Ec & _ & Nc).
  destruct (digit_char d Hd) as (Ed & Bd & Nd).
  assert (Hab : Js.is_digit a = true /\ Js.is_digit b = true
                /\ 0 <= 10 * (Z.of_nat (nat_of_ascii a) - 48)
                        + (Z.of_nat (nat_of_ascii b) - 48) < 24).
  { apply orb_true_iff in H as [H|H]; apply andb_true_iff in H as [H1 H2].
    - apply (between_digit "0" "1" a 48 49 eq_refl eq_refl) in H1.
      destruct (digit_char b H2) as (_ & Bb & _).
      split; [apply is_digit_bounds; lia|]. split; [exact H2|lia].
    - apply Ascii.eqb_eq in H1. subst a.
      apply (between_digit "0" "3" b 48 51 eq_refl eq_refl) in H2.
      split; [reflexivity|]. split; [apply is_digit_bounds; lia|].
      change (nat_of_ascii "2") with 50%nat. lia. }
  destruct Hab as (Ha & Hb & Hh).
  destruct (digit_char a Ha) as (Ea & _ & Na).
  destruct (digit_char b Hb) as (Eb & _ & Nb).
  exists (10 * (Z.of_nat (nat_of_ascii a) - 48)
          + (Z.of_nat (nat_of_ascii b) - 48)),
         (10 * (Z.of_nat (nat_of_ascii c) - 48)
          + (Z.of_nat (nat_of_ascii d) - 48)).
  split; [|split; [exact Hh|lia]].
  unfold hour_minute. cbn [Js.split]. rewrite Na, Nb, Nc, Nd.
  cbn [Ascii.eqb Bool.eqb Js.split Js.Number_at nth_error Js.Number
       Js.all_digits].
  unfold Js.Number. cbn [Js.all_digits].
  rewrite Ha, Hb, Hcd, Hd. cbn [andb Js.digits_prefix].
  rewrite Ea, Eb, Ec, Ed. cbn [Js.digits_prefix default].
  do 2 f_equal; f_equal; lia.
Qed.

Lemma toFixed2_comp (x y : Q) : (x == y)%Q -> Js.toFixed2 x = Js.toFixed2 y.
Proof.
  intros E. unfold Js.toFixed2.
  assert (H : Qfloor (x * 100 + (1 # 2)) = Qfloor (y * 100 + (1 # 2))).
  { apply Qfloor_comp. now rewrite E. }
  now rewrite H.
Qed.

Lemma heures_calculees_minutes (data : PrestationFormData)
    (sh sm eh em : Z) :
  hour_minute (heure_debut data) = (Some sh, Some sm) ->
  hour_minute (heure_fin data) = (Some eh, Some em) ->
  heures_calculees data =
  Some (Js.toFixed2 (Outcome.span (sh * 60 + sm) (eh * 60 + em) # 60)).
Proof.
  intros Hs He. unfold heures_calculees. rewrite Hs, He.
  f_equal. apply toFixed2_comp.
  unfold Js.getTime, Js.setHours, Js.addDays, Outcome.span.
  cbn [Js.epoch_day Js.ms_of_day].
  destruct (Z.leb_spec (eh * 60 + em) (sh * 60 + sm)) as [Hle|Hlt].
  - destruct (Z.leb_spec
                (Js.epoch_day (date_prestation data) * 86400000
                 + (eh * 3600000 + em * 60000))
                (Js.epoch_day (date_prestation data) * 86400000
                 + (sh * 3600000 + sm * 60000))) as [_|H]; [|lia].
    cbn [Js.epoch_day Js.ms_of_day]. unfold Qeq. cbn [Qnum Qden]. lia.
  - destruct (Z.leb_spec
                (Js.epoch_day (date_prestation data) * 86400000
                 + (eh * 3600000 + em * 60000))
                (Js.epoch_day (date_prestation data) * 86400000
                 + (sh * 3600000 + sm * 60000))) as [H|_]; [lia|].
    cbn [Js.epoch_day Js.ms_of_day]. unfold Qeq. cbn [Qnum Qden]. lia.
Qed.

Lemma refine_minutes (data : PrestationFormData) (sh sm eh em : Z) :
  hour_minute (heure_debut data) = (Some sh, Some sm) ->
  hour_minute (heure_fin data) = (Some eh, Some em) ->
  0 <= sh * 60 + sm < 1440 -> 0 <= eh * 60 + em < 1440 ->
  refine data = true.
Proof.
  intros Hs He Bs Be. unfold refine. rewrite Hs, He.
  destruct (Z.leb_spec (eh * 60 + em) (sh * 60 + sm)); apply Z.gtb_lt; lia.
Qed.
End EntryFormFacts.

(** ** The entry form in a time zone *)

Section ZoneFacts.
Import JsZone.

Lemma day_of_reading (day ms : Z) :
  0 <= ms < msPerDay ->
  (day * msPerDay + ms) / msPerDay = day
  /\ (day * msPerDay + ms) mod msPerDay = ms.
Proof.
  unfold msPerDay. intros H.
  assert (E : day * 86400000 + ms = 86400000 * day + ms) by lia.
  rewrite E. split.
  - symmetry. apply (Z.div_unique _ _ day ms); [left; lia|reflexivity].
  - symmetry. apply (Z.mod_unique _ _ day ms); [left; lia|reflexivity].
Qed.

(** Without a clock change, [setHours] and [setDate] move the instant by
    the milliseconds the local clock shows. *)
Lemma setHours_steady (zone : Zone) (t h m : Z) :
  no_clock_change zone t ->
  0 <= h * 3600000 + m * 60000 < msPerDay ->
  setHours zone t h m
  = (t + offset_at zone t) / msPerDay * msPerDay
    + (h * 3600000 + m * 60000) - offset_at zone t.
Proof.
  intros Hs Hr. unfold setHours, UTC, LocalTime.
  destruct (Hs ((t + offset_at zone t) / msPerDay * msPerDay
                + (h * 3600000 + m * 60000))) as [-> _];
    [unfold msPerDay in *; lia|reflexivity].
Qed.

Lemma addDays_steady (zone : Zone) (t ms : Z) :
  no_clock_change zone t ->
  0 <= ms < msPerDay ->
  addDays zone
    ((t + offset_at zone t) / msPerDay * msPerDay + ms - offset_at zone t) 1
  = (t + offset_at zone t) / msPerDay * msPerDay + ms + msPerDay
    - offset_at zone t.
Proof.
  intros Hs Hr. unfold addDays, UTC, LocalTime.
  destruct (Hs ((t + offset_at zone t) / msPerDay * msPerDay + ms))
    as [_ E]; [cbv zeta; unfold msPerDay in *; lia|].
  rewrite E.
  replace ((t + offset_at zone t) / msPerDay * msPerDay + ms
           - offset_at zone t + offset_at zone t)
    with ((t + offset_at zone t) / msPerDay * msPerDay + ms) by lia.
  destruct (day_of_reading ((t + offset_at zone t) / msPerDay) ms Hr)
    as [-> ->].
  destruct (Hs (((t + offset_at zone t) / msPerDay + 1) * msPerDay + ms))
    as [E' _]; [cbv zeta; unfold msPerDay in *; lia|].
  rewrite E'. lia.
Qed.

(** The hours of the entry form for two times read as hours and minutes,
    when the clock does not change. *)
Lemma clock_hours_minutes (zone : Zone) (t : Z) (debut fin : string)
    (sh sm eh em : Z) :
  no_clock_change zone t ->
  DashboardCollaborateur.hour_minute debut = (Some sh, Some sm) ->
  DashboardCollaborateur.hour_minute fin = (Some eh, Some em) ->
  0 <= sh < 24 -> 0 <= sm < 60 -> 0 <= eh < 24 -> 0 <= em < 60 ->
  DashboardCollaborateurClock.heures_calculees zone t debut fin
  = Some (Js.toFixed2 (Outcome.span (sh * 60 + sm) (eh * 60 + em) # 60)).
Proof.
  intros Hs Ed Ef Bsh Bsm Beh Bem.
  unfold DashboardCollaborateurClock.heures_calculees. rewrite Ed, Ef.
  assert (Rs : 0 <= sh * 3600000 + sm * 60000 < msPerDay)
    by (unfold msPerDay; lia).
  assert (Re : 0 <= eh * 3600000 + em * 60000 < msPerDay)
    by (unfold msPerDay; lia).
  rewrite (setHours_steady zone t sh sm Hs Rs).
  rewrite (setHours_steady zone t eh em Hs Re).
  f_equal. apply toFixed2_comp. unfold Outcome.span.
  set (day := (t + offset_at zone t) / msPerDay * msPerDay).
  destruct (Z.leb_spec (eh * 60 + em) (sh * 60 + sm)) as [Hle|Hlt].
  - destruct (Z.leb_spec
                (day + (eh * 3600000 + em * 60000) - offset_at zone t)
                (day + (sh * 3600000 + sm * 60000) - offset_at zone t))
      as [_|H]; [|lia].
    unfold day. rewrite (addDays_steady zone t _ Hs Re).
    unfold msPerDay, Qeq. cbn [Qnum Qden]. lia.
  - destruct (Z.leb_spec
                (day + (eh * 3600000 + em * 60000) - offset_at zone t)
                (day + (sh * 3600000 + sm * 60000) - offset_at zone t))
      as [H|_]; [lia|].
    unfold Qeq. cbn [Qnum Qden]. lia.
Qed.

End ZoneFacts.

(** The entry form: for two times that match the pattern, the refinement
    of the schema holds; and when the clock of the time zone does not
    change on the day of the entry nor on the day after, the stored hours
    are the minutes from start to end over 60, rounded to two decimals,
    the end being taken on the next day when it is not after the start.
    Under that condition the value is the one of the embedding that gives
    every day 86 400 000 ms. *)
Theorem entry_hours_follow_minutes
    (zone : JsZone.Zone) (date_prestation : Z)
    (data : DashboardCollaborateur.PrestationFormData)
    (Hdebut : DashboardCollaborateur.HH_MM (DashboardCollaborateur.heure_debut data) = true)
    (Hfin : DashboardCollaborateur.HH_MM (DashboardCollaborateur.heure_fin data) = true)
    (Hsteady : JsZone.no_clock_change zone date_prestation) :
  let start := Outcome.minutes (DashboardCollaborateur.heure_debut data) in
  let end_ := Outcome.minutes (DashboardCollaborateur.heure_fin data) in
  0 <= start < 1440 /\ 0 <= end_ < 1440
  /\ DashboardCollaborateur.refine data = true
  /\ DashboardCollaborateurClock.heures_calculees zone date_prestation
       (DashboardCollaborateur.heure_debut data)
       (DashboardCollaborateur.heure_fin data)
     = Some (Js.toFixed2 (Outcome.span start end_ # 60))
  /\ DashboardCollaborateur.heures_calculees data
     = DashboardCollaborateurClock.heures_calculees zone date_prestation
         (DashboardCollaborateur.heure_debut data)
         (DashboardCollaborateur.heure_fin data)
  /\ (end_ <= start -> Outcome.span start end_ = 1440 - start + end_)
  /\ (start < end_ -> Outcome.span start end_ = end_ - start).
Proof.
  destruct (HH_MM_hour_minute _ Hdebut) as (sh & sm & Hs & Bh & Bm).
  destruct (HH_MM_hour_minute _ Hfin) as (eh & em & He & Bh' & Bm').
  cbn zeta. unfold Outcome.minutes. rewrite Hs, He.
  pose proof (clock_hours_minutes zone date_prestation _ _ sh sm eh em
                Hsteady Hs He Bh Bm Bh' Bm') as Hclock.
  split; [lia|]. split; [lia|].
  split; [apply (refine_minutes data sh sm eh em Hs He); lia|].
  split; [exact Hclock|].
  split; [rewrite Hclock; now apply heures_calculees_minutes|].
  unfold Outcome.span.
  destruct (Z.leb_spec (eh * 60 + em) (sh * 60 + sm)); split; intros; lia.
Qed.

(** Across a clock change the hours are others: on the night the clock
    jumps from 02:00 to 03:00 (2024-03-31 in Europe/Brussels), an entry
    from 01:00 to 04:00 is stored with 2 hours, and equal times on the
    day before span 23 hours; the embedding with days of 86 400 000 ms
    gives 3 and 24. *)
Example clock_change_shortens_the_night :
  let zone := JsZone.spring_forward (19813 * 86400000 + 3600000) in
  DashboardCollaborateurClock.heures_calculees zone
    (19813 * 86400000 - 3600000) "01:00" "04:00" = Some 2%Q
  /\ DashboardCollaborateurClock.heures_calculees zone
       (19812 * 86400000 - 3600000) "09:00" "09:00" = Some 23%Q
  /\ DashboardCollaborateurClock.heures_calculees (JsZone.fixed 3600000)
       (19813 * 86400000 - 3600000) "01:00" "04:00" = Some 3%Q
  /\ DashboardCollaborateurClock.heures_calculees (JsZone.fixed 3600000)
       (19812 * 86400000 - 3600000) "09:00" "09:00" = Some 24%Q.
Proof. vm_compute. repeat split; reflexivity. Qed.




(** C4, on the code: the entry a collaborator submits from 22:00 to 02:00
    is stored with 4 hours; when the administrator saves the modification
    form with the same two times, the entry is left with 0 hours. *)
Theorem overnight_amendment_is_saved_with_zero_hours :
  let amended :=
    App.run (DashboardAdminPrestations.handleSaveChanges (Some Sample.editing)
               (Sample.form "22:00" "02:00")) Sample.submitted in
  App.heures_calculees <$> App.prestations Sample.submitted !! "p1"
    = Some 4%Q
  /\ DashboardAdminPrestations.heuresCalculeesFinal
       (Sample.form "22:00" "02:00") = 0%Q
  /\ App.heures_calculees <$> App.prestations amended !! "p1" = Some 0%Q
  /\ App.toasts amended =
     [App.ToastSuccess
        "Prestation enregistrée avec succès ! En attente de validation.";
      App.ToastWarning
        "Les heures de début et de fin ne permettent pas de calculer une durée valide.";
      App.ToastSuccess "Prestation modifiée avec succès."].
Proof.
  vm_compute. repeat split; reflexivity.
Qed.

Lemma entry_hours_follow_minutes_witness :
  DashboardCollaborateurClock.heures_calculees (JsZone.fixed 7200000)
    (19846 * 86400000 - 7200000) "22:00" "02:00"
  = Some (Js.toFixed2 (Outcome.span 1320 120 # 60)).
Proof.
  exact (proj1 (proj2 (proj2 (proj2
           (entry_hours_follow_minutes (JsZone.fixed 7200000)
              (19846 * 86400000 - 7200000)
              (Sample.entry_form "22:00" "02:00")
              eq_refl eq_refl
              (fun x _ => conj eq_refl eq_refl)))))).
Defined.

(** ** The administrator's dashboard: what the handlers leave alone *)

Section AdminFrames.
Import DashboardAdminPrestations App.

Lemma alter_missing {A : Type} (f : A -> A) (k : string) (t : gmap string A) :
  t !! k = None -> alter f k t = t.
Proof. intros H. apply alter_id. intros x Hx. congruence. Qed.

(** What a validation can leave in the tables. *)
Lemma handleValidate_writes (w : World) (pid cid : string) :
  let w' := run (handleValidate pid cid) w in
  clients w' = clients w
  /\ (prestations w' = prestations w
      \/ exists t, prestations w' =
           alter (apply_prestation_update (validation t)) pid (prestations w)).
Proof.
  unfold run, handleValidate, try_catch, bind, select_tarif_horaire,
    update_prestations, bind, request.
  destruct (hd None (faults w)) as [m|]; cbn; [auto|].
  destruct (clients w !! cid) as [c|]; cbn; [|auto].
  destruct (tarif_horaire c) as [t|]; cbn; [|auto].
  destruct (hd None (tl (faults w))) as [m|]; cbn; [auto|].
  split; [reflexivity|]. right. now exists t.
Qed.

(** What a save can leave in the tables, whatever the form. *)
Lemma handleSaveChanges_writes (w : World)
    (editingPrestation : option PrestationPending) (form : Form) :
  let w' := run (handleSaveChanges editingPrestation form) w in
  clients w' = clients w
  /\ (prestations w' = prestations w
      \/ exists editing,
           editingPrestation = Some editing
           /\ prestations w' =
              alter (apply_prestation_update (cleanedUpdateData form))
                (id editing) (prestations w)).
Proof.
  destruct editingPrestation as [editing|]; [|cbn; auto].
  unfold run, handleSaveChanges, try_catch, bind, update_prestations,
    fetchPendingPrestations, bind, request, when.
  destruct (Js.le (heuresCalculeesFinal form) 0);
    destruct (falsy (set_date_prestation (cleanedUpdateData form)));
    destruct (falsy (set_client_id (cleanedUpdateData form)));
    cbn -[cleanedUpdateData]; auto;
    (destruct (hd None (faults w)); cbn -[cleanedUpdateData]; auto);
    (destruct (hd None (tl (faults w))); cbn -[cleanedUpdateData]);
    (split; [reflexivity|right; exists editing; auto]).
Qed.

Lemma cleaned_keeps_status (form : Form) (p : Prestation) :
  let p' := apply_prestation_update (cleanedUpdateData form) p in
  user_id p' = user_id p
  /\ statut_validation p' = statut_validation p
  /\ tarif_horaire_utilise p' = tarif_horaire_utilise p.
Proof. cbn. auto. Qed.

End AdminFrames.

(** A validation changes no other entry, never the [clients] table, and
    of its own entry only the status and the copied rate. *)
Theorem validation_touches_two_columns
    (w : App.World) (pid cid other : string) :
  let w' := App.run (DashboardAdminPrestations.handleValidate pid cid) w in
  App.clients w' = App.clients w
  /\ (other <> pid -> App.prestations w' !! other = App.prestations w !! other)
  /\ (App.prestations w !! pid = None -> App.prestations w' !! pid = None)
  /\ (forall p, App.prestations w !! pid = Some p ->
      exists p', App.prestations w' !! pid = Some p'
        /\ App.user_id p' = App.user_id p
        /\ App.client_id p' = App.client_id p
        /\ App.project_id p' = App.project_id p
        /\ App.date_prestation p' = App.date_prestation p
        /\ App.heure_debut p' = App.heure_debut p
        /\ App.heure_fin p' = App.heure_fin p
        /\ App.heures_calculees p' = App.heures_calculees p
        /\ App.adresse p' = App.adresse p).
Proof.
  intros w'.
  destruct (handleValidate_writes w pid cid) as (Hc & [H|(t & H)]);
    fold w' in H, Hc; rewrite H; (split; [exact Hc|]).
  - split; [reflexivity|]. split; [tauto|]. intros p Hp. exists p. tauto.
  - split; [intros Hne; now apply lookup_alter_ne|].
    split; [intros Hn; now rewrite lookup_alter_eq, Hn|].
    intros p Hp. eexists. rewrite lookup_alter_eq, Hp. cbn.
    repeat split; reflexivity.
Qed.

(** Saving the modification form, whatever it holds, changes no other
    entry and never the [clients] table, and leaves the owner, the status
    and the copied rate of its own entry as they are. *)
Theorem save_keeps_status_and_other_entries
    (w : App.World)
    (editingPrestation : option DashboardAdminPrestations.PrestationPending)
    (form : DashboardAdminPrestations.Form) (other : string) :
  let w' :=
    App.run (DashboardAdminPrestations.handleSaveChanges editingPrestation form)
      w in
  App.clients w' = App.clients w
  /\ ((forall editing, editingPrestation = Some editing ->
                       other <> DashboardAdminPrestations.id editing) ->
      App.prestations w' !! other = App.prestations w !! other)
  /\ (App.user_id <$> App.prestations w' !! other
      = App.user_id <$> App.prestations w !! other)
  /\ (App.statut_validation <$> App.prestations w' !! other
      = App.statut_validation <$> App.prestations w !! other)
  /\ (App.tarif_horaire_utilise <$> App.prestations w' !! other
      = App.tarif_horaire_utilise <$> App.prestations w !! other).
Proof.
  intros w'.
  destruct (handleSaveChanges_writes w editingPrestation form)
    as (Hc & [H|(editing & -> & H)]); fold w' in H, Hc; rewrite H;
    (split; [exact Hc|]).
  - repeat split; reflexivity.
  - split.
    { intros Hne. apply lookup_alter_ne. intros E. now apply (Hne editing). }
    destruct (decide (DashboardAdminPrestations.id editing = other)) as [<-|Hne].
    + rewrite lookup_alter_eq.
      destruct (App.prestations w !! DashboardAdminPrestations.id editing);
        cbn; auto.
    + rewrite lookup_alter_ne by exact Hne. auto.
Qed.

Section AdminEdges.
Import DashboardAdminPrestations App.

Lemma falsy_date (form : Form) :
  falsy (set_date_prestation (cleanedUpdateData form))
  = match modifiedDate form with Some _ => false | None => true end.
Proof.
  unfold cleanedUpdateData. cbn [set_date_prestation].
  destruct (modifiedDate form) as [d|]; [|reflexivity].
  change (negb (Js.truthy (DateFns.format_yyyy_MM_dd d)) = false).
  now rewrite format_truthy.
Qed.

End AdminEdges.

(** Validating an id that has no row: the update matches nothing, no table
    changes, and the handler still reports the validation as done. *)
Theorem validation_of_missing_entry_reports_success
    (w : App.World) (pid cid : string) (c : App.Client) (t : Q)
    (Hmissing : App.prestations w !! pid = None)
    (Hclient : App.clients w !! cid = Some c)
    (Hrate : App.tarif_horaire c = Some t)
    (Hanswer1 : hd None (App.faults w) = None)
    (Hanswer2 : hd None (tl (App.faults w)) = None) :
  let w' := App.run (DashboardAdminPrestations.handleValidate pid cid) w in
  App.prestations w' = App.prestations w
  /\ App.clients w' = App.clients w
  /\ App.toasts w' =
     (App.toasts w ++
      [App.ToastSuccess
         ("Prestation " +:+ String.substring 0 6 pid +:+ "... validée.")])%list.
Proof.
  intros w'. subst w'.
  rewrite (handleValidate_rate w pid cid c t Hanswer1 Hanswer2 Hclient Hrate).
  cbn. rewrite (alter_missing _ _ _ Hmissing). auto.
Qed.

(** A form without a date, or without a client, is refused before any
    request: [handleSaveChanges] shows the error and leaves the tables and
    the pending answers of the service as they are. *)
Theorem save_requires_date_and_client
    (w : App.World) (editing : DashboardAdminPrestations.PrestationPending)
    (form : DashboardAdminPrestations.Form)
    (Hincomplete : Cases.incomplete form = true) :
  let w' :=
    App.run (DashboardAdminPrestations.handleSaveChanges (Some editing) form) w in
  App.prestations w' = App.prestations w
  /\ App.clients w' = App.clients w
  /\ App.faults w' = App.faults w
  /\ App.toasts w' =
     (App.toasts w
      ++ Outcome.warning_of form
           "Les heures de début et de fin ne permettent pas de calculer une durée valide."
      ++ [App.ToastError
            ("Erreur lors de la sauvegarde: "
             +:+ Cases.missing_field form)])%list.
Proof.
  unfold Cases.incomplete in Hincomplete.
  unfold App.run, DashboardAdminPrestations.handleSaveChanges, App.try_catch,
    App.bind, App.when, Outcome.warning_of, Cases.missing_field.
  rewrite falsy_date.
  destruct (DashboardAdminPrestations.modifiedDate form) as [d|].
  - change (App.set_client_id (DashboardAdminPrestations.cleanedUpdateData form))
      with (DashboardAdminPrestations.modifiedClientId form).
    rewrite Hincomplete.
    destruct (Js.le (DashboardAdminPrestations.heuresCalculeesFinal form) 0);
      cbn; rewrite <- ?app_assoc; auto.
  - destruct (Js.le (DashboardAdminPrestations.heuresCalculeesFinal form) 0);
      cbn; rewrite <- ?app_assoc; auto.
Qed.

(** When every request goes through, [handleSaveAndValidate] leaves the
    entry amended and validated, at the rate of the client chosen in the
    form (not of the client the entry had when the dialog was opened). *)
Theorem save_and_validate_uses_rate_of_form_client
    (w : App.World) (editing : DashboardAdminPrestations.PrestationPending)
    (form : DashboardAdminPrestations.Form) (p : App.Prestation)
    (d : Js.Date) (cid : string) (c : App.Client) (t : Q)
    (Hentry : App.prestations w !! DashboardAdminPrestations.id editing = Some p)
    (Hdate : DashboardAdminPrestations.modifiedDate form = Some d)
    (Hclient : DashboardAdminPrestations.modifiedClientId form = Some cid)
    (Hcid : Js.truthy cid = true)
    (Hrow : App.clients w !! cid = Some c)
    (Hrate : App.tarif_horaire c = Some t)
    (Hanswer1 : hd None (App.faults w) = None)
    (Hanswer2 : hd None (tl (App.faults w)) = None)
    (Hanswer3 : hd None (tl (tl (App.faults w))) = None) :
  let w' :=
    App.run (DashboardAdminPrestations.handleSaveAndValidate (Some editing) form)
      w in
  exists p',
    App.prestations w' !! DashboardAdminPrestations.id editing = Some p'
    /\ App.client_id p' = cid
    /\ App.statut_validation p' = "valide"
    /\ App.tarif_horaire_utilise p' = Some t
    /\ App.heures_calculees p'
       = DashboardAdminPrestations.heuresCalculeesFinal form
    /\ App.heure_debut p' = DashboardAdminPrestations.modifiedHeureDebut form
    /\ App.heure_fin p' = DashboardAdminPrestations.modifiedHeureFin form
    /\ App.toasts w' =
       (App.toasts w
        ++ Outcome.warning_of form "Durée invalide, heures calculées mises à 0."
        ++ [App.ToastInfo "Modifications enregistrées.";
            App.ToastSuccess "Prestation modifiée et validée avec succès!"]
        ++ Outcome.reload_note (hd None (tl (tl (tl (App.faults w))))))%list.
Proof.
  intros w'.
  destruct (cleaned_checks form d cid Hdate Hclient Hcid) as [E1 E2].
  assert (Eo : Js.or_else
                 (App.set_client_id (DashboardAdminPrestations.cleanedUpdateData form))
                 (DashboardAdminPrestations.client_id editing) = cid).
  { unfold DashboardAdminPrestations.cleanedUpdateData.
    cbn [App.set_client_id]. rewrite Hclient. unfold Js.or_else.
    now rewrite Hcid. }
  pose proof (cleaned_row form d cid p Hdate Hclient) as Hr. cbn zeta in Hr.
  destruct Hr as (_ & Hdeb & Hfin & Hh & Hc & _).
  exists (App.apply_prestation_update (DashboardAdminPrestations.validation t)
            (App.apply_prestation_update
               (DashboardAdminPrestations.cleanedUpdateData form) p)).
  assert (Hw : App.prestations w' =
               alter (App.apply_prestation_update
                        (DashboardAdminPrestations.validation t))
                 (DashboardAdminPrestations.id editing)
                 (alter (App.apply_prestation_update
                           (DashboardAdminPrestations.cleanedUpdateData form))
                    (DashboardAdminPrestations.id editing) (App.prestations w))
               /\ App.toasts w' =
                  (App.toasts w
                   ++ Outcome.warning_of form
                        "Durée invalide, heures calculées mises à 0."
                   ++ [App.ToastInfo "Modifications enregistrées.";
                       App.ToastSuccess
                         "Prestation modifiée et validée avec succès!"]
                   ++ Outcome.reload_note
                        (hd None (tl (tl (tl (App.faults w))))))%list).
  { unfold w', App.run, DashboardAdminPrestations.handleSaveAndValidate,
      App.try_catch, App.bind, App.update_prestations,
      App.select_tarif_horaire, DashboardAdminPrestations.fetchPendingPrestations,
      App.bind, App.request, App.when, Outcome.warning_of, Outcome.reload_note.
    rewrite E1, E2, Eo. cbn [orb].
    destruct (Js.le (DashboardAdminPrestations.heuresCalculeesFinal form) 0);
      cbn -[DashboardAdminPrestations.cleanedUpdateData];
      rewrite Hanswer1; cbn -[DashboardAdminPrestations.cleanedUpdateData];
      rewrite Hanswer2; cbn -[DashboardAdminPrestations.cleanedUpdateData];
      rewrite Hrow; cbn -[DashboardAdminPrestations.cleanedUpdateData];
      rewrite Hrate; cbn -[DashboardAdminPrestations.cleanedUpdateData];
      rewrite Hanswer3; cbn -[DashboardAdminPrestations.cleanedUpdateData];
      destruct (hd None (tl (tl (tl (App.faults w)))));
      cbn -[DashboardAdminPrestations.cleanedUpdateData];
      rewrite <- ?app_assoc; auto. }
  destruct Hw as [Hp Ht].
  rewrite Hp, !lookup_alter_eq, Hentry.
  split; [reflexivity|].
  split; [exact Hc|]. split; [reflexivity|]. split; [reflexivity|].
  split; [exact Hh|]. split; [exact Hdeb|]. split; [exact Hfin|]. exact Ht.
Qed.

(** When the service refuses the save, nothing is written by either
    handler, [handleSaveChanges] reloads nothing, and
    [handleSaveAndValidate] does not go on to validate. *)
Theorem refused_save_writes_nothing
    (w : App.World) (editing : DashboardAdminPrestations.PrestationPending)
    (form : DashboardAdminPrestations.Form) (d : Js.Date) (cid message : string)
    (Hdate : DashboardAdminPrestations.modifiedDate form = Some d)
    (Hclient : DashboardAdminPrestations.modifiedClientId form = Some cid)
    (Hcid : Js.truthy cid = true)
    (Hrefused : hd None (App.faults w) = Some message) :
  (let w' :=
     App.run (DashboardAdminPrestations.handleSaveChanges (Some editing) form) w in
   App.prestations w' = App.prestations w
   /\ App.faults w' = tl (App.faults w)
   /\ App.toasts w' =
      (App.toasts w
       ++ Outcome.warning_of form
            "Les heures de début et de fin ne permettent pas de calculer une durée valide."
       ++ [App.ToastError ("Erreur lors de la sauvegarde: " +:+ message)])%list)
  /\ (let w' :=
        App.run
          (DashboardAdminPrestations.handleSaveAndValidate (Some editing) form)
          w in
      App.prestations w' = App.prestations w
      /\ App.toasts w' =
         (App.toasts w
          ++ Outcome.warning_of form "Durée invalide, heures calculées mises à 0."
          ++ [App.ToastError
                ("Échec Sauvegarde & Validation: " +:+ "Erreur sauvegarde: "
                 +:+ message)]
          ++ Outcome.reload_note (hd None (tl (App.faults w))))%list).
Proof.
  destruct (cleaned_checks form d cid Hdate Hclient Hcid) as [E1 E2].
  split.
  - unfold App.run, DashboardAdminPrestations.handleSaveChanges,
      App.try_catch, App.bind, App.update_prestations, App.bind, App.request,
      App.when, Outcome.warning_of.
    rewrite E1, E2.
    destruct (Js.le (DashboardAdminPrestations.heuresCalculeesFinal form) 0);
      cbn -[DashboardAdminPrestations.cleanedUpdateData];
      rewrite Hrefused; cbn; rewrite <- ?app_assoc; auto.
  - unfold App.run, DashboardAdminPrestations.handleSaveAndValidate,
      App.try_catch, App.bind, App.update_prestations,
      DashboardAdminPrestations.fetchPendingPrestations, App.bind,
      App.request, App.when, Outcome.warning_of, Outcome.reload_note.
    rewrite E1, E2. cbn [orb].
    destruct (Js.le (DashboardAdminPrestations.heuresCalculeesFinal form) 0);
      cbn -[DashboardAdminPrestations.cleanedUpdateData];
      rewrite Hrefused; cbn;
      destruct (hd None (tl (App.faults w))); cbn;
      rewrite <- ?app_assoc; auto.
Qed.

(** ** The two forms on the same times *)

Section ParseTimeFacts.
Import DashboardAdminPrestations.

Lemma digit_0_to_9 (c : ascii) :
  Js.is_digit c = true ->
  c = "0"%char \/ c = "1"%char \/ c = "2"%char \/ c = "3"%char
  \/ c = "4"%char \/ c = "5"%char \/ c = "6"%char \/ c = "7"%char
  \/ c = "8"%char \/ c = "9"%char.
Proof.
  intros H. destruct (digit_char c H) as (_ & B & _).
  rewrite <- (ascii_nat_embedding c).
  assert (C : (nat_of_ascii c = 48 \/ nat_of_ascii c = 49
               \/ nat_of_ascii c = 50 \/ nat_of_ascii c = 51
               \/ nat_of_ascii c = 52 \/ nat_of_ascii c = 53
               \/ nat_of_ascii c = 54 \/ nat_of_ascii c = 55
               \/ nat_of_ascii c = 56 \/ nat_of_ascii c = 57)%nat) by lia.
  destruct C as [->|[->|[->|[->|[->|[->|[->|[->|[->| ->]]]]]]]]]; tauto.
Qed.

Lemma digits_prefix_read (r : string) (acc : Z) :
  exists v, Js.digits_prefix (Some acc) r = Some v.
Proof.
  revert acc. induction r as [|c r IH]; intros acc; cbn.
  - now exists acc.
  - destruct (Js.digit_of c); [apply IH|now exists acc].
Qed.

(** On a non-empty run of digits [parseInt] reads what [Number] reads. *)
Lemma parseInt_digits (s : string) :
  Js.all_digits s = true -> Js.truthy s = true ->
  Js.parseInt s = Js.Number s.
Proof.
  destruct s as [|c r]; [discriminate|]. intros Hall _.
  unfold Js.Number. rewrite Hall.
  cbn [Js.all_digits] in Hall. apply andb_true_iff in Hall as [Hc _].
  destruct (digit_char c Hc) as (Ec & _ & _).
  assert (Hp : Js.parseInt (String c r) = Js.digits_prefix None (String c r)).
  { destruct (digit_0_to_9 c Hc)
      as [->|[->|[->|[->|[->|[->|[->|[->|[->| ->]]]]]]]]]; reflexivity. }
  rewrite Hp. cbn [Js.digits_prefix]. rewrite Ec.
  destruct (digits_prefix_read r (10 * default 0 None
                                  + (Z.of_nat (nat_of_ascii c) - 48)))
    as (v & ->).
  reflexivity.
Qed.

(** A time that matches the pattern splits in two pairs of digits. *)
Lemma HH_MM_split (s : string) :
  DashboardCollaborateur.HH_MM s = true ->
  exists hh mm,
    Js.split ":" s = [hh; mm]
    /\ Js.all_digits hh = true /\ Js.truthy hh = true
    /\ Js.all_digits mm = true /\ Js.truthy mm = true
    /\ Js.truthy s = true /\ Js.includes ":" s = true.
Proof.
  intros H0.
  destruct (HH_MM_inv s H0) as (a & b & c & d & -> & H).
  apply andb_true_iff in H as [H Hd].
  apply andb_true_iff in H as [H Hc].
  apply (between_digit "0" "5" c 48 53 eq_refl eq_refl) in Hc.
  assert (Hcd : Js.is_digit c = true) by (apply is_digit_bounds; lia).
  assert (Hab : Js.is_digit a = true /\ Js.is_digit b = true).
  { apply orb_true_iff in H as [H|H]; apply andb_true_iff in H as [H1 H2].
    - apply (between_digit "0" "1" a 48 49 eq_refl eq_refl) in H1.
      split; [apply is_digit_bounds; lia|exact H2].
    - apply Ascii.eqb_eq in H1. subst a.
      apply (between_digit "0" "3" b 48 51 eq_refl eq_refl) in H2.
      split; [reflexivity|apply is_digit_bounds; lia]. }
  destruct Hab as [Ha Hb].
  destruct (digit_char a Ha) as (_ & _ & Na).
  destruct (digit_char b Hb) as (_ & _ & Nb).
  destruct (digit_char c Hcd) as (_ & _ & Nc).
  destruct (digit_char d Hd) as (_ & _ & Nd).
  exists (String a (String b EmptyString)), (String c (String d EmptyString)).
  cbn [Js.split Js.includes Js.all_digits Js.truthy].
  rewrite Na, Nb, Nc, Nd, Ha, Hb, Hcd, Hd.
  cbn. repeat split; reflexivity.
Qed.

(** On a time that matches the pattern, [parseTime] is the hour plus the
    minute over 60, as the entry form reads them. *)
Lemma parseTime_HH_MM (s : string) (h m : Z) :
  DashboardCollaborateur.HH_MM s = true ->
  DashboardCollaborateur.hour_minute s = (Some h, Some m) ->
  parseTime s = Some (Qred (inject_Z h + (m # 60))).
Proof.
  intros H0.
  destruct (HH_MM_split s H0) as (hh & mm & Hs & Ah & Th & Am & Tm & Ts & Hi).
  unfold DashboardCollaborateur.hour_minute, parseTime.
  rewrite Hs, Ts, Hi.
  cbn [negb orb Js.Number_at Js.parseInt_at nth_error].
  rewrite (parseInt_digits hh Ah Th), (parseInt_digits mm Am Tm).
  intros [= -> ->]. reflexivity.
Qed.

Lemma Qred_minutes (h m : Z) :
  (Qred (inject_Z h + (m # 60)) == (h * 60 + m) # 60)%Q.
Proof.
  rewrite Qred_correct. unfold Qeq, Qplus, inject_Z. cbn [Qnum Qden]. lia.
Qed.

(** The hours kept by the modification form for two times that match the
    pattern. *)
Lemma heuresCalculeesFinal_minutes (form : Form) (sh sm eh em : Z) :
  DashboardCollaborateur.HH_MM (modifiedHeureDebut form) = true ->
  DashboardCollaborateur.HH_MM (modifiedHeureFin form) = true ->
  DashboardCollaborateur.hour_minute (modifiedHeureDebut form)
    = (Some sh, Some sm) ->
  DashboardCollaborateur.hour_minute (modifiedHeureFin form)
    = (Some eh, Some em) ->
  (sh * 60 + sm < eh * 60 + em ->
   (heuresCalculeesFinal form == (eh * 60 + em - (sh * 60 + sm)) # 60)%Q)
  /\ (eh * 60 + em <= sh * 60 + sm -> heuresCalculeesFinal form = 0%Q).
Proof.
  intros Hd Hf Hs He. unfold heuresCalculeesFinal.
  rewrite (parseTime_HH_MM _ sh sm Hd Hs), (parseTime_HH_MM _ eh em Hf He).
  unfold Js.gt.
  assert (Hcmp : (Qred (inject_Z sh + (sm # 60))
                  ?= Qred (inject_Z eh + (em # 60)))%Q
                 = (sh * 60 + sm ?= eh * 60 + em)).
  { rewrite !Qred_minutes. unfold Qcompare. cbn [Qnum Qden].
    destruct (Z.compare_spec (sh * 60 + sm) (eh * 60 + em)) as [E|E|E];
      [apply Z.compare_eq_iff|apply Z.compare_lt_iff|apply Z.compare_gt_iff];
      lia. }
  rewrite Hcmp. split; intros Hlt.
  - apply Z.compare_lt_iff in Hlt as Hc. rewrite Hc.
    rewrite Qred_correct, !Qred_minutes.
    unfold Qeq, Qminus, Qplus, Qopp. cbn -[Z.mul Z.add Z.sub Z.opp].
    change (Z.pos (60 * 60)) with 3600. lia.
  - destruct (sh * 60 + sm ?= eh * 60 + em) eqn:E; try reflexivity.
    change (sh * 60 + sm < eh * 60 + em) in E. exfalso. lia.
Qed.

End ParseTimeFacts.

(** For two times that match the pattern, when the clock of the time zone
    does not change on the day of the entry nor on the day after: if the
    second is after the first on the same day, the hours of the
    modification form are positive (no warning) and, rounded to two
    decimals, they are the hours the entry form stores, the minutes
    between the two times over 60 rounded to two decimals; for any other
    pair the modification form stores 0 where the entry form stores the
    span to the next day. *)
Theorem modification_form_agrees_with_entry_form_on_same_day
    (form : DashboardAdminPrestations.Form)
    (zone : JsZone.Zone) (date_prestation : Z)
    (Hd : DashboardCollaborateur.HH_MM
            (DashboardAdminPrestations.modifiedHeureDebut form) = true)
    (Hf : DashboardCollaborateur.HH_MM
            (DashboardAdminPrestations.modifiedHeureFin form) = true)
    (Hsteady : JsZone.no_clock_change zone date_prestation) :
  let start := Outcome.minutes (DashboardAdminPrestations.modifiedHeureDebut form) in
  let end_ := Outcome.minutes (DashboardAdminPrestations.modifiedHeureFin form) in
  let entered :=
    DashboardCollaborateurClock.heures_calculees zone date_prestation
      (DashboardAdminPrestations.modifiedHeureDebut form)
      (DashboardAdminPrestations.modifiedHeureFin form) in
  (start < end_ ->
   Js.le (DashboardAdminPrestations.heuresCalculeesFinal form) 0 = false
   /\ entered
      = Some (Js.toFixed2 (DashboardAdminPrestations.heuresCalculeesFinal form))
   /\ entered = Some (Js.toFixed2 ((end_ - start) # 60)))
  /\ (end_ <= start ->
      DashboardAdminPrestations.heuresCalculeesFinal form = 0%Q
      /\ entered = Some (Js.toFixed2 ((1440 - start + end_) # 60))).
Proof.
  destruct (HH_MM_hour_minute _ Hd) as (sh & sm & Hs & Bh & Bm).
  destruct (HH_MM_hour_minute _ Hf) as (eh & em & He & Bh' & Bm').
  cbn zeta. unfold Outcome.minutes. rewrite Hs, He.
  destruct (heuresCalculeesFinal_minutes form sh sm eh em Hd Hf Hs He)
    as [Hsame Hover].
  rewrite (clock_hours_minutes zone date_prestation _ _ sh sm eh em
             Hsteady Hs He Bh Bm Bh' Bm').
  unfold Outcome.span.
  split; intros Hlt.
  - specialize (Hsame Hlt).
    destruct (Z.leb_spec (eh * 60 + em) (sh * 60 + sm)); [lia|].
    split.
    { unfold Js.le.
      destruct (Qle_bool (DashboardAdminPrestations.heuresCalculeesFinal form) 0)
        eqn:E; [|reflexivity].
      apply Qle_bool_iff in E. rewrite Hsame in E.
      unfold Qle in E. cbn [Qnum Qden] in E. lia. }
    split; [|reflexivity].
    f_equal. apply toFixed2_comp. now rewrite Hsame.
  - split; [now apply Hover|].
    destruct (Z.leb_spec (eh * 60 + em) (sh * 60 + sm)); [reflexivity|lia].
Qed.

(** ** The form that modifies an entry through the back end *)

Section ModifyFormFacts.
Import DashboardCollaborateur.

(** A time that matches the pattern, by its four digits. *)
Lemma HH_MM_digits (s : string) :
  HH_MM s = true ->
  exists a b c d,
    s = String a (String b (String ":" (String c (String d EmptyString))))
    /\ (48 <= nat_of_ascii a <= 50)%nat /\ (48 <= nat_of_ascii b <= 57)%nat
    /\ (48 <= nat_of_ascii c <= 53)%nat /\ (48 <= nat_of_ascii d <= 57)%nat
    /\ Outcome.minutes s
       = (10 * (Z.of_nat (nat_of_ascii a) - 48)
          + (Z.of_nat (nat_of_ascii b) - 48)) * 60
         + (10 * (Z.of_nat (nat_of_ascii c) - 48)
            + (Z.of_nat (nat_of_ascii d) - 48)).
Proof.
  intros H0. destruct (HH_MM_inv s H0) as (a & b & c & d & -> & H).
  clear H0. exists a, b, c, d. split; [reflexivity|].
  apply andb_true_iff in H as [H Hd].
  apply andb_true_iff in H as [H Hc].
  apply (between_digit "0" "5" c 48 53 eq_refl eq_refl) in Hc.
  assert (Hcd : Js.is_digit c = true) by (apply is_digit_bounds; lia).
  destruct (digit_char c Hcd) as (Ec & _ & Nc).
  destruct (digit_char d Hd) as (Ed & Bd & Nd).
  assert (Hab : Js.is_digit a = true /\ Js.is_digit b = true
                /\ (48 <= nat_of_ascii a <= 50)%nat).
  { apply orb_true_iff in H as [H|H]; apply andb_true_iff in H as [H1 H2].
    - apply (between_digit "0" "1" a 48 49 eq_refl eq_refl) in H1.
      split; [apply is_digit_bounds; lia|]. split; [exact H2|lia].
    - apply Ascii.eqb_eq in H1. subst a.
      apply (between_digit "0" "3" b 48 51 eq_refl eq_refl) in H2.
      split; [reflexivity|]. split; [apply is_digit_bounds; lia|].
      change (nat_of_ascii "2") with 50%nat. lia. }
  destruct Hab as (Ha & Hb & Ba).
  destruct (digit_char a Ha) as (Ea & _ & Na).
  destruct (digit_char b Hb) as (Eb & Bb & Nb).
  split; [exact Ba|]. split; [exact Bb|]. split; [exact Hc|].
  split; [exact Bd|].
  unfold Outcome.minutes, hour_minute. cbn [Js.split]. rewrite Na, Nb, Nc, Nd.
  cbn [Ascii.eqb Bool.eqb Js.split Js.Number_at nth_error Js.Number
       Js.all_digits].
  unfold Js.Number. cbn [Js.all_digits].
  rewrite Ha, Hb, Hcd, Hd. cbn [andb Js.digits_prefix].
  rewrite Ea, Eb, Ec, Ed. cbn [Js.digits_prefix default].
  unfold id. lia.
Qed.

(** On two times that match the pattern, the order of the strings is the
    order of the times of day. *)
Lemma gt_HH_MM (s t : string) :
  HH_MM s = true -> HH_MM t = true ->
  JsText.gt t s = (Outcome.minutes s <? Outcome.minutes t).
Proof.
  intros Hs Ht.
  destruct (HH_MM_digits s Hs) as (a & b & c & d & Es & Ba & Bb & Bc & Bd & Ms).
  destruct (HH_MM_digits t Ht)
    as (a' & b' & c' & d' & Et & Ba' & Bb' & Bc' & Bd' & Mt).
  rewrite Ms, Mt. subst s t. clear Hs Ht Ms Mt.
  unfold JsText.gt. cbn [JsText.compare].
  change (nat_of_ascii ":" ?= nat_of_ascii ":")%nat with Eq.
  symmetry.
  destruct (Nat.compare_spec (nat_of_ascii a') (nat_of_ascii a));
    [|apply Z.ltb_ge; lia|apply Z.ltb_lt; lia].
  destruct (Nat.compare_spec (nat_of_ascii b') (nat_of_ascii b));
    [|apply Z.ltb_ge; lia|apply Z.ltb_lt; lia].
  destruct (Nat.compare_spec (nat_of_ascii c') (nat_of_ascii c));
    [|apply Z.ltb_ge; lia|apply Z.ltb_lt; lia].
  destruct (Nat.compare_spec (nat_of_ascii d') (nat_of_ascii d));
    [apply Z.ltb_ge; lia|apply Z.ltb_ge; lia|apply Z.ltb_lt; lia].
Qed.

Lemma HH_MM_SS_prefix (s : string) :
  ModifyPrestationForm.HH_MM_SS s = true ->
  HH_MM s = false /\ HH_MM (String.substring 0 5 s) = true.
Proof.
  destruct s as [|a [|b [|k [|c [|d [|k' [|e [|f [|? ?]]]]]]]]];
    cbn [ModifyPrestationForm.HH_MM_SS]; try discriminate;
    destruct k as [[] [] [] [] [] [] [] []]; try discriminate;
    destruct k' as [[] [] [] [] [] [] [] []]; try discriminate.
  intros H. apply andb_true_iff in H as [H _].
  apply andb_true_iff in H as [H _].
  split; [reflexivity|]. cbn [String.substring HH_MM]. exact H.
Qed.

End ModifyFormFacts.

(** The refinement of [prestationFormSchema]: for two times that match
    the pattern, comparing the strings is comparing the times of day, so
    the form passes exactly when the end is later on the same day than
    the start; the entry form accepts the same times in either order. *)
Theorem modify_form_orders_times_as_minutes
    (data : ModifyPrestationForm.PrestationFormData)
    (entry : DashboardCollaborateur.PrestationFormData)
    (Hdebut : DashboardCollaborateur.HH_MM
                (ModifyPrestationForm.heure_debut data) = true)
    (Hfin : DashboardCollaborateur.HH_MM
              (ModifyPrestationForm.heure_fin data) = true)
    (Hsame_debut : DashboardCollaborateur.heure_debut entry
                   = ModifyPrestationForm.heure_debut data)
    (Hsame_fin : DashboardCollaborateur.heure_fin entry
                 = ModifyPrestationForm.heure_fin data) :
  ModifyPrestationForm.refine data
  = (Outcome.minutes (ModifyPrestationForm.heure_debut data)
     <? Outcome.minutes (ModifyPrestationForm.heure_fin data))
  /\ DashboardCollaborateur.refine entry = true.
Proof.
  split.
  - unfold ModifyPrestationForm.refine. rewrite Hdebut, Hfin. cbn [andb].
    now apply gt_HH_MM.
  - rewrite <- Hsame_debut in Hdebut. rewrite <- Hsame_fin in Hfin.
    destruct (HH_MM_hour_minute _ Hdebut) as (sh & sm & Hs & Bh & Bm).
    destruct (HH_MM_hour_minute _ Hfin) as (eh & em & He & Bh' & Bm').
    apply (refine_minutes entry sh sm eh em Hs He); lia.
Qed.

Lemma modify_form_orders_times_as_minutes_witness :
  ModifyPrestationForm.refine
    {| ModifyPrestationForm.date_prestation := "2024-05-03";
       ModifyPrestationForm.heure_debut := "22:00";
       ModifyPrestationForm.heure_fin := "02:00";
       ModifyPrestationForm.client_id := "7";
       ModifyPrestationForm.project_id := "3";
       ModifyPrestationForm.adresse := "Rue Haute 1";
       ModifyPrestationForm.admin_comment := None |}
  = (Outcome.minutes "22:00" <? Outcome.minutes "02:00")
  /\ DashboardCollaborateur.refine (Sample.entry_form "22:00" "02:00") = true.
Proof.
  exact (modify_form_orders_times_as_minutes
           {| ModifyPrestationForm.date_prestation := "2024-05-03";
              ModifyPrestationForm.heure_debut := "22:00";
              ModifyPrestationForm.heure_fin := "02:00";
              ModifyPrestationForm.client_id := "7";
              ModifyPrestationForm.project_id := "3";
              ModifyPrestationForm.adresse := "Rue Haute 1";
              ModifyPrestationForm.admin_comment := None |}
           (Sample.entry_form "22:00" "02:00")
           eq_refl eq_refl eq_refl eq_refl).
Defined.

(** [formatTimeForInput] gives the empty string or a time that matches
    the pattern of the form; a value with seconds is cut to its hour and
    minute; and formatting its own result changes nothing. *)
Theorem time_input_is_empty_or_matches (timeValue : option string) :
  let s := ModifyPrestationForm.formatTimeForInput timeValue in
  (s = EmptyString \/ DashboardCollaborateur.HH_MM s = true)
  /\ ModifyPrestationForm.formatTimeForInput (Some s) = s
  /\ (forall t, timeValue = Some t ->
      ModifyPrestationForm.HH_MM_SS t = true ->
      s = String.substring 0 5 t /\ DashboardCollaborateur.HH_MM s = true).
Proof.
  intros s. subst s. unfold ModifyPrestationForm.formatTimeForInput.
  destruct timeValue as [t|].
  - destruct (DashboardCollaborateur.HH_MM t) eqn:E.
    + rewrite E. split; [now right|]. split; [reflexivity|].
      intros t' [= <-] H. destruct (HH_MM_SS_prefix t H). congruence.
    + destruct (ModifyPrestationForm.HH_MM_SS t) eqn:E'.
      * destruct (HH_MM_SS_prefix t E') as [_ H]. rewrite H.
        split; [now right|]. split; [reflexivity|].
        intros t' [= <-] _. now split.
      * split; [now left|]. split; [reflexivity|].
        intros t' [= <-] H. congruence.
  - split; [now left|]. split; [reflexivity|]. intros t' [=].
Qed.

(** ** The requests sent through the generated client *)

(** The client dialog and the deletion of the clients page name the
    parameter [client_id] where the routes read [clientId]: whatever the
    client, their request goes to the path ending in [undefined].  The
    form that modifies an entry names [prestationId] as its route does,
    and its path ends in the id. *)
Theorem client_requests_never_carry_the_id
    (values : ClientFormDialog.Values)
    (client : option ClientContract.ClientModel)
    (prestation_id : Z) (data : ModifyPrestationForm.PrestationFormData) :
  Brain.path (ClientFormDialog.onSubmit values client)
  = match ClientFormDialog.id_of client with
    | Some _ => "/routes/clients/undefined"
    | None => "/routes/clients/"
    end
  /\ Brain.method (ClientFormDialog.onSubmit values client)
     = match ClientFormDialog.id_of client with
       | Some _ => Brain.PUT
       | None => Brain.POST
       end
  /\ Brain.path <$> AdminGestionClientsDelete.confirmDelete client
     = match ClientFormDialog.id_of client with
       | Some _ => Some "/routes/clients/undefined"
       | None => None
       end
  /\ Brain.path (ModifyPrestationForm.onSubmit prestation_id data)
     = "/routes/prestations/" +:+ JsText.of_Z prestation_id.
Proof.
  unfold ClientFormDialog.onSubmit, AdminGestionClientsDelete.confirmDelete,
    ModifyPrestationForm.onSubmit, Brain.update_client, Brain.delete_client,
    Brain.update_prestation, Brain.create_client.
  rewrite lookup_singleton_eq.
  destruct (ClientFormDialog.id_of client) as [id|]; cbn [Brain.path
    Brain.method fmap option_fmap option_map];
    rewrite ?lookup_singleton_ne by discriminate; repeat split; reflexivity.
Qed.

(** ** The provider of the authentication context *)

Section AuthProviderFacts.
Import AuthContext AuthProvider.

(** Every comparison of a text that is not known is settled either
    way. *)
Ltac settle_texts :=
  repeat match goal with
         | H : context [String.eqb ?a ?b] |- _ =>
             destruct (String.eqb_spec a b); subst; cbn in *
         | |- context [String.eqb ?a ?b] =>
             destruct (String.eqb_spec a b); subst; cbn in *
         end.

Lemma fallback_stays (hash : Hash) (path : string) (su : SupabaseUser)
    (session : option Session) :
  isRecovery hash = false ->
  redirection hash path false (Some (fallbackUser su)) session = Stay
  /\ renders_children path false (Some (fallbackUser su))
     = String.eqb path "/en-attente-validation".
Proof.
  unfold redirection, renders_children. intros ->. cbn.
  now destruct (String.eqb path "/en-attente-validation").
Qed.

(** Outside a password recovery, the redirection effect never chains:
    when it sends the user from one path to another, it leaves the same
    user alone on the path it sent them to. *)
Theorem redirection_settles (hash : AuthProvider.Hash) (p q : string)
    (loading : bool) (user : option AuthContext.AppUser)
    (session : option AuthContext.Session)
    (Hhash : AuthProvider.isRecovery hash = false)
    (Hmoved : AuthProvider.redirection hash p loading user session
              = AuthProvider.Navigate q) :
  AuthProvider.redirection hash q loading user session = AuthProvider.Stay.
Proof.
  revert Hhash Hmoved.
  unfold redirection. intros ->. cbn [andb].
  destruct loading; [discriminate|].
  destruct user as [[i e [r|] [s|]]|]; [| | | |destruct session];
    unfold same, AuthContext.includes, waitingPath, loginPath,
      inscriptionPath, motDePasseOubliePath, resetPasswordPath; cbn;
    intros H; settle_texts; try discriminate; try congruence;
    try (injection H as <-; cbn; settle_texts; congruence).
Qed.

End AuthProviderFacts.

Lemma redirection_settles_witness :
  AuthProvider.redirection
    {| AuthProvider.type := None; AuthProvider.access_token := None |}
    "/connexion" false (Some Sample.collaborator) None
  = AuthProvider.Navigate "/dashboard-collaborateur"
  /\ AuthProvider.redirection
       {| AuthProvider.type := None; AuthProvider.access_token := None |}
       "/dashboard-collaborateur" false (Some Sample.collaborator) None
     = AuthProvider.Stay.
Proof.
  split; [reflexivity|].
  exact (redirection_settles
           {| AuthProvider.type := None; AuthProvider.access_token := None |}
           "/connexion" "/dashboard-collaborateur" false
           (Some Sample.collaborator) None eq_refl eq_refl).
Defined.

(** When the request for the profile comes back without a profile (an
    error, an exception, no row), the signed-in user is given the status
    [inconnu]: outside a password recovery the effect then never moves
    them, on no path, and the provider shows its children on the waiting
    page only; the user is no administrator. *)
Theorem failed_profile_fetch_strands_the_user
    (hash : AuthProvider.Hash) (path : string) (s : AuthContext.Session)
    (fetch : AuthContext.ProfileFetch)
    (Hhash : AuthProvider.isRecovery hash = false)
    (Hfetch : Cases.no_profile fetch = true) :
  let user := AuthContext.onAuthStateChange (Some s) fetch in
  AuthProvider.redirection hash path false user (Some s) = AuthProvider.Stay
  /\ AuthProvider.renders_children path false user
     = String.eqb path "/en-attente-validation"
  /\ AuthContext.isAdmin user = false
  /\ Cases.may_submit user = false.
Proof.
  intros user.
  assert (E : user = Some (AuthContext.fallbackUser (AuthContext.user s))).
  { subst user. destruct fetch as [m|[pd|]|m]; try reflexivity.
    discriminate. }
  rewrite E.
  destruct (fallback_stays hash path (AuthContext.user s) (Some s) Hhash)
    as [H1 H2].
  split; [exact H1|]. split; [exact H2|]. split; reflexivity.
Qed.

Lemma failed_profile_fetch_strands_the_user_witness :
  let s := {| AuthContext.user :=
                {| AuthContext.su_id := "u1"; AuthContext.su_email := None;
                   AuthContext.su_role := Some "authenticated" |} |} in
  let user :=
    AuthContext.onAuthStateChange (Some s) (AuthContext.FetchError "timeout") in
  AuthProvider.redirection
    {| AuthProvider.type := None; AuthProvider.access_token := None |}
    "/dashboard-collaborateur" false user (Some s) = AuthProvider.Stay
  /\ AuthProvider.renders_children "/dashboard-collaborateur" false user
     = false.
Proof.
  intros s user.
  destruct (failed_profile_fetch_strands_the_user
              {| AuthProvider.type := None; AuthProvider.access_token := None |}
              "/dashboard-collaborateur" s
              (AuthContext.FetchError "timeout") eq_refl eq_refl)
    as (H1 & H2 & _).
  split; [exact H1|exact H2].
Defined.

(** The page of the administrator's validations never shows its loading
    text.  It sends to [/login] exactly when the context has no user,
    which is also the state in which a session exists and its profile
    has not come back yet: the provider renders its children in that
    state, on every path.  Outside a password recovery the redirection
    effect moves on from [/login] to the login page when there is no
    session, and stays there when there is one.  For the user built from
    the answer of the profile request, the page shows its content
    exactly when there is a session and the profile has the role
    [admin]. *)
Theorem admin_page_content_needs_profile_role
    (user : option AuthContext.AppUser)
    (session fetched : option AuthContext.Session)
    (fetch : AuthContext.ProfileFetch)
    (hash : AuthProvider.Hash) (path : string) :
  AdminValidationPrestations.view user <> AdminValidationPrestations.Loading
  /\ (AdminValidationPrestations.view user
        = AdminValidationPrestations.NavigateTo path
      <-> user = None /\ path = "/login")
  /\ (AdminValidationPrestations.view user = AdminValidationPrestations.Content
      <-> AuthContext.isAdmin user = true)
  /\ AuthProvider.renders_children path false None = true
  /\ (AuthProvider.isRecovery hash = false ->
      AuthProvider.redirection hash "/login" false None session
      = match session with
        | None => AuthProvider.Navigate "/connexion"
        | Some _ => AuthProvider.Stay
        end)
  /\ (AdminValidationPrestations.view
        (AuthContext.onAuthStateChange fetched fetch)
      = AdminValidationPrestations.Content
      <-> exists s profileData,
            fetched = Some s
            /\ fetch = AuthContext.FetchData (Some profileData)
            /\ AuthContext.profile_role profileData = Some "admin").
Proof.
  assert (Hview : forall u,
            AdminValidationPrestations.view u
            = match u with
              | None => AdminValidationPrestations.NavigateTo "/login"
              | Some _ =>
                  if AuthContext.isAdmin u
                  then AdminValidationPrestations.Content
                  else AdminValidationPrestations.AccessDenied
              end) by reflexivity.
  rewrite !Hview. clear Hview.
  split.
  { destruct user; [destruct (AuthContext.isAdmin _)|]; discriminate. }
  split.
  { destruct user as [u|].
    - split; [destruct (AuthContext.isAdmin _); discriminate|].
      intros [[=] _].
    - split; [intros [= <-]; auto|intros [_ ->]; reflexivity]. }
  split.
  { destruct user as [u|].
    - destruct (AuthContext.isAdmin (Some u)); split; auto; discriminate.
    - split; discriminate. }
  split; [reflexivity|].
  split.
  { intros Hh. unfold AuthProvider.redirection. rewrite Hh.
    now destruct session. }
  destruct fetched as [s|]; cbn [AuthContext.onAuthStateChange].
  - assert (Hfb : AuthContext.isAdmin
                    (Some (AuthContext.fallbackUser (AuthContext.user s)))
                  = false) by reflexivity.
    destruct fetch as [m|[pd|]|m]; rewrite ?Hfb.
    + split; [discriminate|]. intros (? & ? & _ & [=] & _).
    + clear Hfb.
      unfold AuthContext.isAdmin, AuthContext.userWithProfile.
      cbn [AuthContext.role]. unfold Js.or_else.
      destruct (AuthContext.profile_role pd) as [r|] eqn:Er.
      * destruct (Js.truthy r) eqn:Tr.
        -- destruct (String.eqb_spec r "admin") as [->|Hne].
           ++ split; [|reflexivity]. intros _. now exists s, pd.
           ++ split; [discriminate|].
              intros (? & ? & _ & [= <-] & H). congruence.
        -- split; [discriminate|].
           intros (? & ? & _ & [= <-] & H).
           rewrite Er in H. injection H as ->. discriminate.
      * split; [discriminate|]. intros (? & ? & _ & [= <-] & H). congruence.
    + split; [discriminate|]. intros (? & ? & _ & [=] & _).
    + split; [discriminate|]. intros (? & ? & _ & [=] & _).
  - split; [discriminate|]. intros (? & ? & [=] & _).
Qed.

(** ** The entry form and the list of pending entries *)

(** Without a user whose status is [valide], the entry form sends
    nothing: the tables and the pending answers of the service are left
    as they are, and data that pass the schema get the one error
    note. *)
Theorem entry_of_unvalidated_user_is_not_sent
    (user : option AuthContext.AppUser)
    (data : DashboardCollaborateur.PrestationFormData) (new_id : string)
    (w : App.World)
    (Hguard : Cases.may_submit user = false) :
  let w' := DashboardCollaborateur.handleSubmit user data new_id w in
  App.prestations w' = App.prestations w
  /\ App.clients w' = App.clients w
  /\ App.faults w' = App.faults w
  /\ App.toasts w' =
     (App.toasts w ++
      if DashboardCollaborateur.prestationSchema data
      then [App.ToastError
              "Action non autorisée. Utilisateur non identifié ou non validé."]
      else [])%list.
Proof.
  unfold DashboardCollaborateur.handleSubmit, DashboardCollaborateur.onSubmit.
  destruct (DashboardCollaborateur.prestationSchema data).
  - destruct user as [u|]; cbn [Cases.may_submit] in Hguard;
      [rewrite Hguard|]; cbn; auto.
  - cbn. rewrite app_nil_r. auto.
Qed.

Lemma entry_of_unvalidated_user_is_not_sent_witness :
  let pending_user :=
    {| AuthContext.id := "u2"; AuthContext.email := None;
       AuthContext.role := Some "collaborateur";
       AuthContext.statut_validation := Some "en_attente" |} in
  App.prestations
    (DashboardCollaborateur.handleSubmit (Some pending_user)
       (Sample.entry_form "09:00" "12:00") "p2" (Sample.world (Some 50%Q)))
  = App.prestations (Sample.world (Some 50%Q)).
Proof.
  intros pending_user.
  exact (proj1 (entry_of_unvalidated_user_is_not_sent (Some pending_user)
                  (Sample.entry_form "09:00" "12:00") "p2"
                  (Sample.world (Some 50%Q)) eq_refl)).
Defined.

(** The entry a validated collaborator submits is stored under the new
    id with their id as owner, no rate, and the status
    [en_attente_validation]; the filter of the administrator's list asks
    for [en_attente], so the new entry does not pass it; no other entry
    changes. *)
Theorem submitted_entry_is_not_listed
    (u : AuthContext.AppUser)
    (data : DashboardCollaborateur.PrestationFormData) (new_id : string)
    (w : App.World)
    (Hvalide : DashboardCollaborateur.is_valide u = true)
    (Hschema : DashboardCollaborateur.prestationSchema data = true)
    (Hanswer : hd None (App.faults w) = None)
    (Hfresh : App.prestations w !! new_id = None) :
  let w' := DashboardCollaborateur.handleSubmit (Some u) data new_id w in
  (exists row,
      App.prestations w' !! new_id = Some row
      /\ App.user_id row = AuthContext.id u
      /\ App.statut_validation row = "en_attente_validation"
      /\ App.tarif_horaire_utilise row = None
      /\ DashboardCollaborateur.heures_calculees data
         = Some (App.heures_calculees row))
  /\ Cases.listed w' new_id = false
  /\ (forall other, other <> new_id ->
      App.prestations w' !! other = App.prestations w !! other)
  /\ App.toasts w' =
     (App.toasts w ++
      [App.ToastSuccess
         "Prestation enregistrée avec succès ! En attente de validation."])%list.
Proof.
  intros w'.
  assert (Hs := Hschema). unfold DashboardCollaborateur.prestationSchema in Hs.
  repeat (apply andb_true_iff in Hs as [Hs ?]).
  destruct (HH_MM_hour_minute _ Hs) as (sh & sm & Es & _ & _).
  destruct (HH_MM_hour_minute (DashboardCollaborateur.heure_fin data))
    as (eh & em & Ee & _ & _); [assumption|].
  pose proof (heures_calculees_minutes data sh sm eh em Es Ee) as Hh.
  assert (Hw : App.prestations w' =
               <[new_id :=
                   {| App.user_id := AuthContext.id u;
                      App.client_id := DashboardCollaborateur.client_id data;
                      App.project_id :=
                        Some (DashboardCollaborateur.project_id data);
                      App.date_prestation :=
                        DateFns.format_yyyy_MM_dd
                          (DashboardCollaborateur.date_prestation data);
                      App.heure_debut := DashboardCollaborateur.heure_debut data;
                      App.heure_fin := DashboardCollaborateur.heure_fin data;
                      App.heures_calculees :=
                        Js.toFixed2
                          (Outcome.span (sh * 60 + sm) (eh * 60 + em) # 60);
                      App.adresse := DashboardCollaborateur.adresse data;
                      App.statut_validation := "en_attente_validation";
                      App.tarif_horaire_utilise := None |}]>
                 (App.prestations w)
               /\ App.toasts w' =
                  (App.toasts w ++
                   [App.ToastSuccess
                      "Prestation enregistrée avec succès ! En attente de validation."])%list).
  { subst w'.
    unfold DashboardCollaborateur.handleSubmit,
      DashboardCollaborateur.onSubmit, DashboardCollaborateur.prestationData.
    rewrite Hschema, Hvalide, Hh.
    unfold App.run, App.try_catch, App.bind,
      DashboardCollaborateur.insert_prestations, App.bind, App.request.
    cbn. rewrite Hanswer. cbn. rewrite Hfresh. cbn. auto. }
  destruct Hw as [Hp Ht].
  split.
  { eexists. rewrite Hp, lookup_insert_eq. split; [reflexivity|].
    rewrite Hh.
    cbn [App.user_id App.statut_validation App.tarif_horaire_utilise
         App.heures_calculees].
    auto. }
  split.
  { unfold Cases.listed. rewrite Hp, lookup_insert_eq. reflexivity. }
  split; [|exact Ht].
  intros other Hne. rewrite Hp. now apply lookup_insert_ne.
Qed.

Lemma submitted_entry_is_not_listed_witness :
  let w :=
    {| App.prestations := ∅;
       App.clients := {[ "c1" := Sample.client (Some 50%Q) ]};
       App.faults := []; App.toasts := [] |} in
  let w' :=
    DashboardCollaborateur.handleSubmit (Some Sample.collaborator)
      (Sample.entry_form "09:00" "12:00") "p1" w in
  Cases.listed w' "p1" = false
  /\ App.statut_validation <$> App.prestations w' !! "p1"
     = Some "en_attente_validation".
Proof.
  intros w w'.
  destruct (submitted_entry_is_not_listed Sample.collaborator
              (Sample.entry_form "09:00" "12:00") "p1" w
              eq_refl eq_refl eq_refl eq_refl)
    as ((row & Hrow & _ & Hstatus & _) & Hlisted & _).
  split; [exact Hlisted|].
  unfold w'. rewrite Hrow. cbn. now rewrite Hstatus.
Defined.

(** ** The administrator's dashboard: every outcome of a validation *)

(** Every run of [handleValidate] ends in one note and leaves the
    [clients] table alone.  Either the note is an error and no entry
    changed, or it is the success note, the client has a rate at that
    moment, and the entry of the given id (if there is one) got the
    status [valide] with that rate, every other column kept. *)
Theorem validation_ends_in_one_note (w : App.World) (pid cid : string) :
  let w' := App.run (DashboardAdminPrestations.handleValidate pid cid) w in
  App.clients w' = App.clients w
  /\ ((exists message,
          App.toasts w' =
            (App.toasts w
             ++ [App.ToastError ("Échec validation: " +:+ message)])%list
          /\ App.prestations w' = App.prestations w)
      \/ (exists c t,
            App.clients w !! cid = Some c
            /\ App.tarif_horaire c = Some t
            /\ App.toasts w' =
               (App.toasts w
                ++ [App.ToastSuccess
                      ("Prestation " +:+ String.substring 0 6 pid
                       +:+ "... validée.")])%list
            /\ App.prestations w' =
               alter (App.apply_prestation_update
                        (DashboardAdminPrestations.validation t))
                 pid (App.prestations w))).
Proof.
  unfold App.run, DashboardAdminPrestations.handleValidate, App.try_catch,
    App.bind, App.select_tarif_horaire, App.update_prestations, App.bind,
    App.request.
  destruct (hd None (App.faults w)) as [m|]; cbn.
  { split; [reflexivity|]. left. eexists. split; reflexivity. }
  destruct (App.clients w !! cid) as [c|] eqn:Ec; cbn.
  2:{ split; [reflexivity|]. left. eexists. split; reflexivity. }
  destruct (App.tarif_horaire c) as [t|] eqn:Et; cbn.
  2:{ split; [reflexivity|]. left. eexists. split; reflexivity. }
  destruct (hd None (tl (App.faults w))) as [m|]; cbn.
  { split; [reflexivity|]. left. eexists. split; reflexivity. }
  split; [reflexivity|]. right. exists c, t. auto.
Qed.

(** ** The pages that edit a client, and the validation after them *)

Section ClientRateFacts.
Import App.

Lemma project_edit_writes (w : World) (editingClient : option string)
    (data : ProjectManagement.ClientFormData) :
  let w' :=
    run (ProjectManagement.handleEditClientSubmit editingClient data) w in
  clients w' = clients w
  \/ exists cid tarif u,
       editingClient = Some cid
       /\ set_tarif_horaire u = Some (Some tarif)
       /\ clients w' = alter (apply_client_update u) cid (clients w).
Proof.
  destruct editingClient as [cid|]; [|now left].
  unfold run, ProjectManagement.handleEditClientSubmit.
  destruct (Js.truthy (ProjectManagement.nom data));
    [|destruct (ProjectManagement.tarif_horaire data); now left].
  destruct (ProjectManagement.tarif_horaire data) as [tarif|]; [|now left].
  unfold try_catch, bind, update_clients, ProjectManagement.fetchClients,
    bind, request.
  destruct (hd None (faults w)); cbn; [now left|].
  destruct (hd None (tl (faults w))); cbn;
    right; eexists cid, tarif, _; (split; [reflexivity|]);
    (split; [|reflexivity]); reflexivity.
Qed.

End ClientRateFacts.

(** The client form of the project page can change a rate and never
    remove one: after any run of [handleEditClientSubmit], on any form, a
    client that had a rate has one. *)
Theorem project_page_never_clears_a_rate
    (w : App.World) (editingClient : option string)
    (data : ProjectManagement.ClientFormData) (cid : string) :
  let w' :=
    App.run (ProjectManagement.handleEditClientSubmit editingClient data) w in
  (forall c t,
      App.clients w !! cid = Some c -> App.tarif_horaire c = Some t ->
      exists c' t',
        App.clients w' !! cid = Some c' /\ App.tarif_horaire c' = Some t')
  /\ (App.clients w !! cid = None -> App.clients w' !! cid = None).
Proof.
  intros w'.
  destruct (project_edit_writes w editingClient data)
    as [H|(k & tarif & u & -> & Hu & H)]; fold w' in H; rewrite H.
  - split; [|tauto]. intros c t Hc Ht. now exists c, t.
  - destruct (decide (k = cid)) as [->|Hne].
    + split.
      * intros c t Hc Ht. rewrite lookup_alter_eq, Hc. cbn.
        eexists _, tarif. split; [reflexivity|]. cbn. now rewrite Hu.
      * intros Hn. now rewrite lookup_alter_eq, Hn.
    + rewrite lookup_alter_ne by exact Hne.
      split; [|tauto]. intros c t Hc Ht. now exists c, t.
Qed.

(** The clients page can: saving its form with the rate field emptied
    writes null into the rate of the client, and a validation for that
    client then fails on the missing rate and changes no entry. *)
Theorem cleared_rate_blocks_validation
    (w : App.World) (cid pid n : string)
    (formData : AdminGestionClients.FormData) (c : App.Client)
    (Hnom : AdminGestionClients.nom formData = Some n)
    (Hname : Js.truthy n && Js.truthy (Js.trim n) = true)
    (Hrate : AdminGestionClients.tarif_horaire formData = Js.Null)
    (Hclient : App.clients w !! cid = Some c)
    (Hanswer1 : hd None (App.faults w) = None)
    (Hanswer3 : hd None (tl (tl (App.faults w))) = None) :
  let w1 :=
    App.run (AdminGestionClients.handleUpdateClient (Some cid) formData) w in
  let w2 := App.run (DashboardAdminPrestations.handleValidate pid cid) w1 in
  App.tarif_horaire <$> App.clients w1 !! cid = Some None
  /\ App.prestations w2 = App.prestations w
  /\ App.toasts w2 =
     (App.toasts w1
      ++ [App.ToastError
            ("Échec validation: "
             +:+ "Tarif horaire non défini pour le client ID: " +:+ cid)])%list.
Proof.
  intros w1 w2.
  assert (H1 : App.clients w1 =
               alter (App.apply_client_update
                        (AdminGestionClients.updateData n formData))
                 cid (App.clients w)
               /\ App.prestations w1 = App.prestations w
               /\ App.faults w1 = tl (tl (App.faults w))).
  { subst w1. unfold App.run, AdminGestionClients.handleUpdateClient.
    rewrite Hnom, Hname.
    unfold App.try_catch, App.bind, App.update_clients,
      AdminGestionClients.fetchClients, App.bind, App.request.
    cbn -[AdminGestionClients.updateData].
    rewrite Hanswer1. cbn -[AdminGestionClients.updateData].
    destruct (hd None (tl (App.faults w)));
      cbn -[AdminGestionClients.updateData]; auto. }
  destruct H1 as (Hc1 & Hp1 & Hf1).
  assert (Hrow : App.clients w1 !! cid
                 = Some (App.apply_client_update
                           (AdminGestionClients.updateData n formData) c)).
  { now rewrite Hc1, lookup_alter_eq, Hclient. }
  assert (Hnull : App.tarif_horaire
                    (App.apply_client_update
                       (AdminGestionClients.updateData n formData) c) = None).
  { unfold AdminGestionClients.updateData. cbn. now rewrite Hrate. }
  split.
  { rewrite Hrow.
    change (Some (App.tarif_horaire
                    (App.apply_client_update
                       (AdminGestionClients.updateData n formData) c))
            = Some None).
    now rewrite Hnull. }
  subst w2.
  unfold App.run, DashboardAdminPrestations.handleValidate, App.try_catch,
    App.bind, App.select_tarif_horaire, App.bind, App.request.
  rewrite Hf1, Hanswer3. cbn -[AdminGestionClients.updateData].
  rewrite Hrow. cbn -[AdminGestionClients.updateData App.apply_client_update].
  rewrite Hnull. cbn. auto.
Qed.

Lemma cleared_rate_blocks_validation_witness :
  let formData :=
    {| AdminGestionClients.nom := Some "Acme";
       AdminGestionClients.adresse := None;
       AdminGestionClients.email_facturation := None;
       AdminGestionClients.telephone := None;
       AdminGestionClients.tarif_horaire := Js.Null |} in
  let w1 :=
    App.run (AdminGestionClients.handleUpdateClient (Some "c1") formData)
      (Sample.world (Some 50%Q)) in
  let w2 := App.run (DashboardAdminPrestations.handleValidate "p1" "c1") w1 in
  App.tarif_horaire <$> App.clients w1 !! "c1" = Some None
  /\ App.prestations w2 = App.prestations (Sample.world (Some 50%Q)).
Proof.
  intros formData w1 w2.
  destruct (cleared_rate_blocks_validation (Sample.world (Some 50%Q))
              "c1" "p1" "Acme" formData (Sample.client (Some 50%Q))
              eq_refl eq_refl eq_refl eq_refl eq_refl eq_refl)
    as (H1 & H2 & _).
  split; [exact H1|exact H2].
Defined.

(** ** The invoicing page *)

Section InvoicingFacts.
Import AdminInvoicing.

Lemma or_else_truthy (a : option string) (b : string) :
  Js.truthy b = true -> Js.truthy (Js.or_else a b) = true.
Proof.
  intros H. unfold Js.or_else. destruct a as [s|]; [|exact H].
  destruct (Js.truthy s) eqn:E; [exact E|exact H].
Qed.

Lemma caught_state (message : option string) (st : State) :
  exists m,
    Js.truthy m = true
    /\ caught message st =
       with_generation (isLoadingGeneration st) (Some m) (generatedInvoices st)
         (toasts st ++ [App.ToastError ("Erreur de génération: " +:+ m)])%list
         st.
Proof.
  eexists. split; [|reflexivity]. now apply or_else_truthy.
Qed.

End InvoicingFacts.

(** A run of [handleGenerateInvoices] adds two notes and ends the
    loading.  It leaves no error exactly when an answer came back and
    was [ok], and then the rows shown are those of that answer; in every
    other case the rows shown before are gone, the error is a text that
    is not empty, and the last note repeats it. *)
Theorem generation_shows_rows_or_an_error
    (answer : AdminInvoicing.Awaited AdminInvoicing.Response)
    (st : AdminInvoicing.State) :
  let st' := AdminInvoicing.handleGenerateInvoices answer st in
  AdminInvoicing.isLoadingGeneration st' = false
  /\ length (AdminInvoicing.toasts st')
     = (length (AdminInvoicing.toasts st) + 2)%nat
  /\ (AdminInvoicing.error st' = None
      <-> exists response,
            answer = AdminInvoicing.Returns response
            /\ AdminInvoicing.ok response = true)
  /\ (forall response,
        answer = AdminInvoicing.Returns response ->
        AdminInvoicing.ok response = true ->
        AdminInvoicing.generatedInvoices st'
        = default [] (InvoiceContract.generated_invoices
                        (AdminInvoicing.data response)))
  /\ (forall message,
        AdminInvoicing.error st' = Some message ->
        Js.truthy message = true
        /\ AdminInvoicing.generatedInvoices st' = []
        /\ last (AdminInvoicing.toasts st')
           = Some (App.ToastError ("Erreur de génération: " +:+ message))).
Proof.
  intros st'. subst st'. unfold AdminInvoicing.handleGenerateInvoices.
  destruct answer as [message|response].
  - match goal with
    | |- context [AdminInvoicing.caught ?m ?s] =>
        destruct (caught_state m s) as (e & He & ->)
    end.
    cbn. rewrite !length_app. cbn.
    split; [reflexivity|]. split; [lia|].
    split; [split; [discriminate|intros (? & [=] & _)]|].
    split; [intros ? [=]|].
    intros ? [= <-]. split; [exact He|]. split; [reflexivity|].
    now rewrite last_snoc.
  - destruct (AdminInvoicing.ok response) eqn:Eok.
    + cbn. rewrite !length_app. cbn.
      split; [reflexivity|]. split; [lia|].
      split; [split; [intros _; now exists response|reflexivity]|].
      split; [intros ? [= <-] _; reflexivity|].
      intros ? [=].
    + match goal with
      | |- context [AdminInvoicing.caught ?m ?s] =>
          destruct (caught_state m s) as (e & He & ->)
      end.
      cbn. rewrite !length_app. cbn.
      split; [reflexivity|]. split; [lia|].
      split; [split; [discriminate|intros (? & [= <-] & H); congruence]|].
      split; [intros ? [= <-] H; congruence|].
      intros ? [= <-]. split; [exact He|]. split; [reflexivity|].
      now rewrite last_snoc.
Qed.

(** [checkAdminRole], on a page that has not yet found an administrator:
    the check always ends; the page opens exactly when the user exists
    and the profile that came back has the role [admin], with no error
    but the one for a missing row; in every other case the page stays
    closed, with one error note and one navigation, to the home page or
    the login page. *)
Theorem invoicing_page_opens_for_profile_role_admin
    (getUser : AdminInvoicing.Awaited (option string))
    (fetch : AdminInvoicing.Awaited AdminInvoicing.ProfileAnswer)
    (st : AdminInvoicing.State)
    (Hfresh : AdminInvoicing.isAdmin st = false) :
  let st' := AdminInvoicing.checkAdminRole getUser fetch st in
  AdminInvoicing.authChecked st' = true
  /\ (AdminInvoicing.view st' = AdminInvoicing.AdminContent
      <-> exists uid answer,
            getUser = AdminInvoicing.Returns (Some uid)
            /\ fetch = AdminInvoicing.Returns answer
            /\ AdminInvoicing.profile answer = Some (Some "admin")
            /\ (forall code message,
                  AdminInvoicing.profileError answer = Some (code, message) ->
                  code = "PGRST116"))
  /\ (AdminInvoicing.view st' = AdminInvoicing.AdminContent ->
      AdminInvoicing.navigated st' = AdminInvoicing.navigated st
      /\ AdminInvoicing.toasts st' = AdminInvoicing.toasts st)
  /\ (AdminInvoicing.view st' <> AdminInvoicing.AdminContent ->
      AdminInvoicing.view st' = AdminInvoicing.Refused
      /\ exists message path,
           (path = "/" \/ path = "/connexion")
           /\ AdminInvoicing.navigated st'
              = (AdminInvoicing.navigated st ++ [path])%list
           /\ AdminInvoicing.toasts st'
              = (AdminInvoicing.toasts st ++ [App.ToastError message])%list).
Proof.
  intros st'. subst st'.
  unfold AdminInvoicing.checkAdminRole, AdminInvoicing.view,
    AdminInvoicing.open_for.
  assert (Hrefused : forall message path,
            path = "/" \/ path = "/connexion" ->
            exists message' path',
              (path' = "/" \/ path' = "/connexion")
              /\ (AdminInvoicing.navigated st ++ [path])%list
                 = (AdminInvoicing.navigated st ++ [path'])%list
              /\ (AdminInvoicing.toasts st ++ [App.ToastError message])%list
                 = (AdminInvoicing.toasts st ++ [App.ToastError message'])%list).
  { intros message path H. now exists message, path. }
  destruct getUser as [m|[uid|]].
  - cbn; rewrite ?Hfresh; cbn.
    split; [reflexivity|].
    split; [split; [discriminate|intros (? & ? & [=] & _)]|].
    split; [discriminate|]. intros _. split; [reflexivity|].
    apply Hrefused. now left.
  - destruct fetch as [m|answer].
    + cbn; rewrite ?Hfresh; cbn.
      split; [reflexivity|].
      split; [split; [discriminate|intros (? & ? & _ & [=] & _)]|].
      split; [discriminate|]. intros _. split; [reflexivity|].
      apply Hrefused. now left.
    + destruct (AdminInvoicing.profileError answer) as [[code message]|] eqn:Ee.
      * destruct (String.eqb_spec code "PGRST116") as [->|Hcode].
        -- cbn [negb].
           destruct (AdminInvoicing.profile answer) as [[r|]|] eqn:Ep;
             cbn; rewrite ?Hfresh; cbn.
           ++ destruct (String.eqb_spec r "admin") as [->|Hr].
              ** cbn. split; [reflexivity|]. split.
                 { split; [intros _|reflexivity].
                   exists uid, answer. repeat split; try reflexivity; auto.
                   intros ? ? H. rewrite Ee in H. now injection H as <- _. }
                 split; [auto|]. intros H. now contradict H.
              ** cbn; rewrite ?Hfresh; cbn. split; [reflexivity|]. split.
                 { split; [discriminate|].
                   intros (? & ? & _ & [= <-] & H & _).
                   rewrite Ep in H. congruence. }
                 split; [discriminate|]. intros _. split; [reflexivity|].
                 apply Hrefused. now left.
           ++ cbn; rewrite ?Hfresh; cbn. split; [reflexivity|]. split.
              { split; [discriminate|].
                intros (? & ? & _ & [= <-] & H & _).
                rewrite Ep in H. congruence. }
              split; [discriminate|]. intros _. split; [reflexivity|].
              apply Hrefused. now left.
           ++ cbn; rewrite ?Hfresh; cbn. split; [reflexivity|]. split.
              { split; [discriminate|].
                intros (? & ? & _ & [= <-] & H & _).
                rewrite Ep in H. congruence. }
              split; [discriminate|]. intros _. split; [reflexivity|].
              apply Hrefused. now left.
        -- cbn [negb]. cbn; rewrite ?Hfresh; cbn.
           split; [reflexivity|]. split.
           { split; [discriminate|].
             intros (? & ? & _ & [= <-] & _ & H).
             exfalso. apply Hcode. now apply (H code message). }
           split; [discriminate|]. intros _. split; [reflexivity|].
           apply Hrefused. now left.
      * destruct (AdminInvoicing.profile answer) as [[r|]|] eqn:Ep;
          cbn; rewrite ?Hfresh; cbn.
        -- destruct (String.eqb_spec r "admin") as [->|Hr].
           ++ cbn. split; [reflexivity|]. split.
              { split; [intros _|reflexivity].
                exists uid, answer. repeat split; try reflexivity; auto.
                intros ? ? H. rewrite Ee in H. discriminate. }
              split; [auto|]. intros H. now contradict H.
           ++ cbn; rewrite ?Hfresh; cbn. split; [reflexivity|]. split.
              { split; [discriminate|].
                intros (? & ? & _ & [= <-] & H & _).
                rewrite Ep in H. congruence. }
              split; [discriminate|]. intros _. split; [reflexivity|].
              apply Hrefused. now left.
        -- cbn; rewrite ?Hfresh; cbn. split; [reflexivity|]. split.
           { split; [discriminate|].
             intros (? & ? & _ & [= <-] & H & _).
             rewrite Ep in H. congruence. }
           split; [discriminate|]. intros _. split; [reflexivity|].
           apply Hrefused. now left.
        -- cbn; rewrite ?Hfresh; cbn. split; [reflexivity|]. split.
           { split; [discriminate|].
             intros (? & ? & _ & [= <-] & H & _).
             rewrite Ep in H. congruence. }
           split; [discriminate|]. intros _. split; [reflexivity|].
           apply Hrefused. now left.
  - cbn; rewrite ?Hfresh; cbn.
    split; [reflexivity|].
    split; [split; [discriminate|intros (? & ? & [=] & _)]|].
    split; [discriminate|]. intros _. split; [reflexivity|].
    apply Hrefused. now right.
Qed.

(** ** The properties above on the sample data *)

Lemma validation_of_missing_entry_reports_success_witness :
  let w := Sample.world (Some 50%Q) in
  let w' := App.run (DashboardAdminPrestations.handleValidate "p9" "c1") w in
  App.prestations w' = App.prestations w
  /\ App.toasts w' = [App.ToastSuccess "Prestation p9... validée."].
Proof.
  intros w w'.
  destruct (validation_of_missing_entry_reports_success w "p9" "c1"
              (Sample.client (Some 50%Q)) 50%Q
              eq_refl eq_refl eq_refl eq_refl eq_refl)
    as (H1 & _ & H3).
  split; [exact H1|exact H3].
Defined.

Lemma save_requires_date_and_client_witness :
  let form :=
    {| DashboardAdminPrestations.modifiedDate := None;
       DashboardAdminPrestations.modifiedHeureDebut := "09:00";
       DashboardAdminPrestations.modifiedHeureFin := "12:00";
       DashboardAdminPrestations.modifiedClientId := Some "c1";
       DashboardAdminPrestations.modifiedProjectId := Js.Undefined;
       DashboardAdminPrestations.modifiedAdresse := "Rue Basse 2" |} in
  let w' :=
    App.run (DashboardAdminPrestations.handleSaveChanges
               (Some Sample.editing) form) (Sample.world (Some 50%Q)) in
  App.prestations w' = App.prestations (Sample.world (Some 50%Q))
  /\ App.toasts w' =
     [App.ToastError "Erreur lors de la sauvegarde: La date est requise."].
Proof.
  intros form w'.
  destruct (save_requires_date_and_client (Sample.world (Some 50%Q))
              Sample.editing form eq_refl)
    as (H1 & _ & _ & H4).
  split; [exact H1|exact H4].
Defined.

Lemma save_and_validate_uses_rate_of_form_client_witness :
  let w :=
    {| App.prestations := {[ "p1" := Sample.entry ]};
       App.clients :=
         {[ "c1" := Sample.client (Some 50%Q);
            "c2" := Sample.client (Some 80%Q) ]};
       App.faults := []; App.toasts := [] |} in
  let form :=
    {| DashboardAdminPrestations.modifiedDate :=
         Some {| Js.epoch_day := 19846; Js.ms_of_day := 0 |};
       DashboardAdminPrestations.modifiedHeureDebut := "10:00";
       DashboardAdminPrestations.modifiedHeureFin := "12:30";
       DashboardAdminPrestations.modifiedClientId := Some "c2";
       DashboardAdminPrestations.modifiedProjectId := Js.Undefined;
       DashboardAdminPrestations.modifiedAdresse := "Rue Basse 2" |} in
  let w' :=
    App.run (DashboardAdminPrestations.handleSaveAndValidate
               (Some Sample.editing) form) w in
  exists p',
    App.prestations w' !! "p1" = Some p'
    /\ App.client_id p' = "c2"
    /\ App.tarif_horaire_utilise p' = Some 80%Q.
Proof.
  intros w form w'.
  destruct (save_and_validate_uses_rate_of_form_client w Sample.editing form
              Sample.entry {| Js.epoch_day := 19846; Js.ms_of_day := 0 |}
              "c2" (Sample.client (Some 80%Q)) 80%Q
              eq_refl eq_refl eq_refl eq_refl eq_refl eq_refl
              eq_refl eq_refl eq_refl)
    as (p' & H1 & H2 & _ & H4 & _).
  exists p'. split; [exact H1|]. split; [exact H2|exact H4].
Defined.

Lemma refused_save_writes_nothing_witness :
  let w :=
    {| App.prestations := {[ "p1" := Sample.entry ]};
       App.clients := {[ "c1" := Sample.client (Some 50%Q) ]};
       App.faults := [Some "permission denied"]; App.toasts := [] |} in
  App.prestations
    (App.run (DashboardAdminPrestations.handleSaveAndValidate
                (Some Sample.editing) (Sample.form "10:00" "12:30")) w)
  = App.prestations w.
Proof.
  intros w.
  exact (proj1 (proj2
           (refused_save_writes_nothing w Sample.editing
              (Sample.form "10:00" "12:30")
              {| Js.epoch_day := 19846; Js.ms_of_day := 0 |} "c1"
              "permission denied" eq_refl eq_refl eq_refl eq_refl))).
Defined.

Lemma modification_form_agrees_with_entry_form_on_same_day_witness :
  DashboardAdminPrestations.heuresCalculeesFinal (Sample.form "22:00" "02:00")
  = 0%Q
  /\ DashboardCollaborateurClock.heures_calculees (JsZone.fixed 7200000)
       (19846 * 86400000 - 7200000) "22:00" "02:00"
     = Some (Js.toFixed2 ((1440 - 1320 + 120) # 60)).
Proof.
  exact (proj2 (modification_form_agrees_with_entry_form_on_same_day
                  (Sample.form "22:00" "02:00") (JsZone.fixed 7200000)
                  (19846 * 86400000 - 7200000)
                  eq_refl eq_refl (fun x _ => conj eq_refl eq_refl))
           ltac:(vm_compute; discriminate)).
Defined.

Lemma invoicing_page_opens_for_profile_role_admin_witness :
  let st :=
    {| AdminInvoicing.isAdmin := false; AdminInvoicing.authChecked := false;
       AdminInvoicing.isLoadingGeneration := false;
       AdminInvoicing.error := None;
       AdminInvoicing.selectedMonth := 5;
       AdminInvoicing.selectedYear := 2024;
       AdminInvoicing.generatedInvoices := [];
       AdminInvoicing.navigated := []; AdminInvoicing.toasts := [] |} in
  AdminInvoicing.authChecked
    (AdminInvoicing.checkAdminRole (AdminInvoicing.Returns (Some "u1"))
       (AdminInvoicing.Returns
          {| AdminInvoicing.profile := Some (Some "collaborateur");
             AdminInvoicing.profileError := None |}) st) = true.
Proof.
  intros st.
  exact (proj1 (invoicing_page_opens_for_profile_role_admin
                  (AdminInvoicing.Returns (Some "u1"))
                  (AdminInvoicing.Returns
                     {| AdminInvoicing.profile := Some (Some "collaborateur");
                        AdminInvoicing.profileError := None |})
                  st eq_refl)).
Defined.
